(** * pyUSBTraffic: a shallow embedding of [pyUSBTraffic.py]

    The program drives one USB device through the PyUSB library: it locates a
    libusb backend, finds the device by vendor/product identifier, configures
    it, and then loops writing random 64-byte packets to a bulk OUT endpoint
    (optionally reading from a bulk IN endpoint) while counting packets and
    bytes.

    The embedding keeps the shape of the Python source.  Methods of
    [USBTrafficGenerator] are computations in a small monad [Py] that threads
    the object's attributes (the [Session] record), collects the observable
    effects (log lines, message boxes, calls into the operating system and the
    USB library) in a trace, and carries Python's control flow ([return],
    [raise], [break]) as an explicit outcome.  Everything outside the program
    (platform, file system, bus, device responses, random source) is supplied
    by a [World], by the [Device] records on its bus, and by a list of [Tick]s
    that scripts the responses of the device during the transfer loop.

    Three things are outside the embedding.  The window ([App]) appears only
    through the assignment it makes to [running].  The worker thread is
    followed alone: nothing changes the session between two of its
    statements.  Exceptions are the subclasses of [Exception]; interpreter
    exits and keyboard interrupts are not considered.  *)

From Stdlib Require Import ZArith List String Ascii Bool Lia.
From Stdlib Require Import HexString DecimalString.
Import ListNotations.

Local Open Scope string_scope.
Local Open Scope Z_scope.
Local Open Scope list_scope.

(** ** Python values shared by the whole program *)

(** Exceptions, as far as the program tells them apart: [usb.core.USBError]
    with its [errno] attribute ([None] when the library gives none), and every
    other subclass of [Exception] by class name.  [text] is [str(e)]. *)
Inductive Exn : Type :=
| USBError (code : option Z) (text : string)
| Exception_ (cls : string) (text : string).

Definition str (e : Exn) : string :=
  match e with
  | USBError _ t => t
  | Exception_ _ t => t
  end.

(** [e.errno], and the test [e.errno != n] (an [errno] of [None] differs from
    every integer). *)
Definition errno (e : Exn) : option Z :=
  match e with
  | USBError code _ => code
  | Exception_ _ _ => None
  end.

Definition errno_ne (e : Exn) (n : Z) : bool :=
  match errno e with
  | Some code => negb (code =? n)
  | None => true
  end.

(** Outcome of a call into the library: a value or a raised exception. *)
Inductive Result (A : Type) : Type :=
| Ok (a : A)
| Err (e : Exn).
Arguments Ok {A} a.
Arguments Err {A} e.

(** f-strings are the concatenation of their pieces. *)
Definition fmt (parts : list string) : string := String.concat "" parts.

(** [hex(n)] and [str(n)] on integers. *)
Definition hex (n : Z) : string := HexString.of_Z n.
Definition str_int (n : Z) : string := NilZero.string_of_int (Z.to_int n).

(** [format(n, "02x")]: lowercase hexadecimal digits, no prefix, padded with
    a zero to two characters. *)
Definition format_02x (n : Z) : string :=
  let digits (m : Z) := substring 2 (String.length (hex m) - 2) (hex m) in
  if n <? 0 then String.append "-" (digits (- n))
  else if (String.length (digits n) <? 2)%nat then String.append "0" (digits n)
  else digits n.

(** [len(x)] on a sequence. *)
Definition len {A} (l : list A) : Z := Z.of_nat (List.length l).

(** The one-character string written [\n] in the source. *)
Definition nl : string := String (ascii_of_nat 10) EmptyString.

(** ** The PyUSB interface used by the program *)

Module usb.

(** [usb.util]: direction and transfer type of an endpoint descriptor. *)
Definition ENDPOINT_IN : Z := 0x80.
Definition ENDPOINT_OUT : Z := 0x00.
Definition ENDPOINT_TYPE_CTRL : Z := 0x00.
Definition ENDPOINT_TYPE_ISO : Z := 0x01.
Definition ENDPOINT_TYPE_BULK : Z := 0x02.
Definition ENDPOINT_TYPE_INTR : Z := 0x03.

Definition endpoint_direction (address : Z) : Z := Z.land address 0x80.
Definition endpoint_type (bmAttributes : Z) : Z := Z.land bmAttributes 0x03.

Record Endpoint : Type := {
  bEndpointAddress : Z;
  bmAttributes : Z
}.

(** An interface is iterated as the sequence of its endpoints. *)
Definition Interface : Type := list Endpoint.

(** [cfg[(index, alternate)]] either yields an interface or raises. *)
Record Configuration : Type := {
  getitem : Z * Z -> Result Interface
}.

(** A device on the bus: its identifiers and what each of the control calls
    the program makes on it answers. *)
Record Device : Type := {
  idVendor : Z;
  idProduct : Z;
  reset : Result unit;
  set_configuration : Result unit;
  is_kernel_driver_active : Z -> Result bool;
  detach_kernel_driver : Z -> Result unit;
  get_active_configuration : Result Configuration;
  dispose_resources : Result unit
}.

(** A loaded libusb backend, remembered by the library path it came from. *)
Record Backend : Type := { library : option string }.

(** The device filter of [usb.core.find(idVendor=.., idProduct=..)]. *)
Definition matches (vid pid : Z) (d : Device) : bool :=
  (idVendor d =? vid) && (idProduct d =? pid).

End usb.
Import usb.

(** ** The environment *)

Record World : Type := {
  platform_system : string;                       (* platform.system() *)
  expandvars : string -> string;                  (* os.path.expandvars *)
  path_exists : string -> bool;                   (* os.path.exists *)
  get_backend : option string -> Result (option Backend);
                                                  (* usb.backend.libusb1.get_backend *)
  enumerate_devices : option Backend -> Result (list Device)
                                                  (* the bus seen by usb.core.find *)
}.

(** What the outside answers during one iteration of the transfer loop. *)
Record Tick : Type := {
  getrandbits_raw : nat -> Z;                     (* the random source *)
  write : Z -> list Z -> Z -> Result N;           (* device.write(ep, data, timeout):
                                                     the number of bytes written *)
  read : Z -> Z -> Z -> Result (list Z)           (* device.read(ep, size, timeout) *)
}.

(** [random.getrandbits(k)]: [k] bits of the source. *)
Definition getrandbits (k : Z) (raw : Z) : Z := raw mod 2 ^ k.

(** ** Observable effects *)

Inductive Level : Type := DEBUG | INFO | WARNING | ERROR.

Inductive Call : Type :=
| c_path_exists (p : string)
| c_get_backend (find_library : option string)
| c_find_all
| c_find (vid pid : Z)
| c_reset
| c_set_configuration
| c_is_kernel_driver_active (i : Z)
| c_detach_kernel_driver (i : Z)
| c_get_active_configuration
| c_write (ep : Z) (data : list Z) (timeout : Z)
| c_read (ep size timeout : Z)
| c_dispose_resources
| c_sleep_ms (ms : Z).

Inductive Event : Type :=
| Log (lvl : Level) (msg : string)                (* logging.<lvl>(msg) *)
| ShowError (title msg : string)                  (* messagebox.showerror *)
| Ext (c : Call).                                 (* a call leaving the program *)

Definition Trace : Type := list Event.

(** ** The attributes of a [USBTrafficGenerator] *)

Record Session : Type := {
  running : bool;
  device : option Device;
  packet_count : Z;
  byte_count : Z;
  backend : option Backend;
  _setup_complete : bool;
  traffic_thread : option unit
}.

(** [USBTrafficGenerator.__init__] *)
Definition __init__ : Session := {|
  running := false;
  device := None;
  packet_count := 0;
  byte_count := 0;
  backend := None;
  _setup_complete := false;
  traffic_thread := None
|}.

Definition set_running (b : bool) (s : Session) : Session :=
  {| running := b; device := device s; packet_count := packet_count s;
     byte_count := byte_count s; backend := backend s;
     _setup_complete := _setup_complete s; traffic_thread := traffic_thread s |}.

Definition set_device (d : option Device) (s : Session) : Session :=
  {| running := running s; device := d; packet_count := packet_count s;
     byte_count := byte_count s; backend := backend s;
     _setup_complete := _setup_complete s; traffic_thread := traffic_thread s |}.

Definition set_packet_count (n : Z) (s : Session) : Session :=
  {| running := running s; device := device s; packet_count := n;
     byte_count := byte_count s; backend := backend s;
     _setup_complete := _setup_complete s; traffic_thread := traffic_thread s |}.

Definition set_byte_count (n : Z) (s : Session) : Session :=
  {| running := running s; device := device s; packet_count := packet_count s;
     byte_count := n; backend := backend s;
     _setup_complete := _setup_complete s; traffic_thread := traffic_thread s |}.

Definition set_backend (b : option Backend) (s : Session) : Session :=
  {| running := running s; device := device s; packet_count := packet_count s;
     byte_count := byte_count s; backend := b;
     _setup_complete := _setup_complete s; traffic_thread := traffic_thread s |}.

Definition set_setup_complete (b : bool) (s : Session) : Session :=
  {| running := running s; device := device s; packet_count := packet_count s;
     byte_count := byte_count s; backend := backend s;
     _setup_complete := b; traffic_thread := traffic_thread s |}.

(** ** The monad of Python statements *)

Module Py.

(** How a block of statements ends.  [R] is the type of the value the
    enclosing function returns, [A] the value of the block itself.
    [Pending] means that the script of the environment is used up while the
    transfer loop is still going: the function has not come back. *)
Inductive Ctl (R A : Type) : Type :=
| Normal (a : A)
| Return_ (r : R)
| Raise_ (e : Exn)
| Break_
| Pending.
Arguments Normal {R A} a.
Arguments Return_ {R A} r.
Arguments Raise_ {R A} e.
Arguments Break_ {R A}.
Arguments Pending {R A}.

Definition t (R A : Type) : Type := Session -> Ctl R A * Session * Trace.

Section Ops.
Context {R : Type}.

Definition ret {A} (a : A) : t R A := fun s => (Normal a, s, []).

Definition bind {A B} (m : t R A) (k : A -> t R B) : t R B :=
  fun s =>
    match m s with
    | (Normal a, s1, t1) =>
        let '(c, s2, t2) := k a s1 in (c, s2, t1 ++ t2)
    | (Return_ r, s1, t1) => (Return_ r, s1, t1)
    | (Raise_ e, s1, t1) => (Raise_ e, s1, t1)
    | (Break_, s1, t1) => (Break_, s1, t1)
    | (Pending, s1, t1) => (Pending, s1, t1)
    end.

Definition return_ {A} (r : R) : t R A := fun s => (Return_ r, s, []).
Definition raise {A} (e : Exn) : t R A := fun s => (Raise_ e, s, []).
Definition break_ {A} : t R A := fun s => (Break_, s, []).

Definition gets {A} (f : Session -> A) : t R A := fun s => (Normal (f s), s, []).
Definition modify (f : Session -> Session) : t R unit :=
  fun s => (Normal tt, f s, []).

Definition emit (e : Event) : t R unit := fun s => (Normal tt, s, [e]).
Definition log (lvl : Level) (msg : string) : t R unit := emit (Log lvl msg).
Definition showerror (title msg : string) : t R unit := emit (ShowError title msg).

(** A call that leaves the program: it is recorded, and its answer either
    is the value of the call or is raised. *)
Definition ext {A} (c : Call) (r : Result A) : t R A :=
  fun s => (match r with Ok a => Normal a | Err e => Raise_ e end, s, [Ext c]).

(** A library operation with no effect of its own (indexing). *)
Definition pure_result {A} (r : Result A) : t R A :=
  fun s => (match r with Ok a => Normal a | Err e => Raise_ e end, s, []).

(** [try: body except ...: handler].  [h e] is the handler of the first
    clause that matches [e], if any. *)
Definition try_except {A} (body : t R A) (h : Exn -> option (t R A)) : t R A :=
  fun s =>
    match body s with
    | (Raise_ e, s1, t1) =>
        match h e with
        | Some k => let '(c, s2, t2) := k s1 in (c, s2, t1 ++ t2)
        | None => (Raise_ e, s1, t1)
        end
    | r => r
    end.

(** [try: body finally: fin].  The [finally] block runs however [body]
    ends; when it ends normally the way [body] ended is resumed. *)
Definition try_finally {A} (body : t R A) (fin : t R unit) : t R A :=
  fun s =>
    match body s with
    | (Pending, s1, t1) => (Pending, s1, t1)
    | (c, s1, t1) =>
        match fin s1 with
        | (Normal _, s2, t2) => (c, s2, t1 ++ t2)
        | (Return_ r, s2, t2) => (Return_ r, s2, t1 ++ t2)
        | (Raise_ e, s2, t2) => (Raise_ e, s2, t1 ++ t2)
        | (Break_, s2, t2) => (Break_, s2, t1 ++ t2)
        | (Pending, s2, t2) => (Pending, s2, t1 ++ t2)
        end
    end.

(** [for x in xs: body x] *)
Fixpoint for_each {X} (xs : list X) (body : X -> t R unit) : t R unit :=
  match xs with
  | [] => ret tt
  | x :: xs' =>
      fun s =>
        match body x s with
        | (Normal _, s1, t1) =>
            let '(c, s2, t2) := for_each xs' body s1 in (c, s2, t1 ++ t2)
        | (Break_, s1, t1) => (Normal tt, s1, t1)
        | r => r
        end
  end.

(** [while self.running: body].  Each iteration consumes one [Tick]. *)
Fixpoint while_running (ticks : list Tick) (body : Tick -> t R unit) : t R unit :=
  fun s =>
    if running s then
      match ticks with
      | [] => (Pending, s, [])
      | tk :: ticks' =>
          match body tk s with
          | (Normal _, s1, t1) =>
              let '(c, s2, t2) := while_running ticks' body s1 in (c, s2, t1 ++ t2)
          | (Break_, s1, t1) => (Normal tt, s1, t1)
          | r => r
          end
      end
    else (Normal tt, s, []).

End Ops.

(** The clauses of an [except]. *)
Definition except_all {R A} (k : Exn -> t R A) : Exn -> option (t R A) :=
  fun e => Some (k e).

Definition except_USBError {R A} (k : Exn -> t R A) : Exn -> option (t R A) :=
  fun e => match e with USBError _ _ => Some (k e) | Exception_ _ _ => None end.

(** A method seen from outside: it comes back with a value, lets an
    exception escape, or is still in its loop when the script ends. *)
Inductive Outcome (R : Type) : Type :=
| Returned (r : R)
| Raised (e : Exn)
| Looping.
Arguments Returned {R} r.
Arguments Raised {R} e.
Arguments Looping {R}.

Definition fn (R : Type) : Type := Session -> Outcome R * Session * Trace.

(** [def f(self): body].  [return v] gives [v]; falling off the end gives
    [none], the stand-in for Python's [None] at type [R].  ([break] cannot
    reach the end of a function body.) *)
Definition def {R} (none : R) (body : t R unit) : fn R :=
  fun s =>
    match body s with
    | (Normal _, s1, t1) => (Returned none, s1, t1)
    | (Return_ r, s1, t1) => (Returned r, s1, t1)
    | (Raise_ e, s1, t1) => (Raised e, s1, t1)
    | (Break_, s1, t1) => (Returned none, s1, t1)
    | (Pending, s1, t1) => (Looping, s1, t1)
    end.

(** The call [self.f()] inside another method. *)
Definition call {R R'} (f : fn R) : t R' R :=
  fun s =>
    match f s with
    | (Returned r, s1, t1) => (Normal r, s1, t1)
    | (Raised e, s1, t1) => (Raise_ e, s1, t1)
    | (Looping, s1, t1) => (Pending, s1, t1)
    end.

End Py.
Import Py.

Declare Scope py_scope.
Delimit Scope py_scope with py.
Notation "x <- m ;; k" := (bind m (fun x => k))
  (at level 61, m at next level, right associativity) : py_scope.
Notation "m ;; k" := (bind m (fun _ => k))
  (at level 61, right associativity) : py_scope.
Local Open Scope py_scope.

(** ** Helpers shared by the methods *)

(** Truth value of an object reference that may be [None]. *)
Definition truthy {A} (o : option A) : bool :=
  match o with Some _ => true | None => false end.

(** Attribute access on a reference that may be [None]. *)
Definition attr {R A B} (o : option A) (f : A -> B) : Py.t R B :=
  match o with
  | Some a => ret (f a)
  | None => raise (Exception_ "AttributeError" "'NoneType' object has no attribute")
  end.

(** A method call on [self.device]. *)
Definition with_device {R A} (k : Device -> Py.t R A) : Py.t R A :=
  d <- gets device ;;
  match d with
  | Some dev => k dev
  | None => raise (Exception_ "AttributeError" "'NoneType' object has no attribute")
  end.

(** [usb.core.find(find_all=True, backend=b)], made a list. *)
Definition usb_core_find_all {R} (w : World) (b : option Backend) : Py.t R (list Device) :=
  ext c_find_all (enumerate_devices w b).

(** [usb.core.find(idVendor=vid, idProduct=pid, backend=b)]: the first device
    of the bus with these identifiers, or [None]. *)
Definition usb_core_find {R} (w : World) (vid pid : Z) (b : option Backend)
  : Py.t R (option Device) :=
  ext (c_find vid pid)
      (match enumerate_devices w b with
       | Ok devs => Ok (List.find (matches vid pid) devs)
       | Err e => Err e
       end).

(** ** The program *)

(** Lumidigm device identifiers *)
Definition LUMIDIGM_VID : Z := 0x1FAE.
Definition LUMIDIGM_PID : Z := 0x0013.

Module USBTrafficGenerator.

Section Methods.
Variable w : World.

Definition libusb_paths : list string :=
  [ "C:\Windows\System32\libusb-1.0.dll";
    expandvars w "%ProgramFiles%\LibUSB-Win32\bin\libusb-1.0.dll";
    expandvars w "%ProgramFiles(x86)%\LibUSB-Win32\bin\libusb-1.0.dll" ].

(** Configure the libusb backend *)
Definition setup_backend : Py.fn bool :=
  def false (
    log INFO "Setting up libusb backend" ;;
    try_except (
      (if String.eqb (platform_system w) "Windows" then
         for_each libusb_paths (fun path =>
           exists_ <- ext (c_path_exists path) (Ok (path_exists w path)) ;;
           if (exists_ : bool) then
             b <- ext (c_get_backend (Some path)) (get_backend w (Some path)) ;;
             modify (set_backend b) ;;
             log INFO (fmt ["Found libusb-1.0.dll at "; path]) ;;
             break_
           else ret tt) ;;
         b <- gets backend ;;
         match b with
         | None =>
             log ERROR "libusb-1.0.dll not found" ;;
             showerror "Error" "libusb-1.0.dll not found. Please install libusb." ;;
             return_ false
         | Some _ => ret tt
         end
       else
         b <- ext (c_get_backend None) (get_backend w None) ;;
         modify (set_backend b) ;;
         log INFO "Using default libusb backend") ;;
      modify (set_setup_complete true) ;;
      log INFO "Backend setup complete" ;;
      return_ true)
    (except_all (fun e =>
      log ERROR (fmt ["Backend setup failed: "; str e]) ;;
      showerror "Error" (fmt ["Backend setup failed:"; nl; str e]) ;;
      return_ false))).

(** Find and configure the Lumidigm device *)
Definition find_device : Py.fn bool :=
  def false (
    log INFO "Searching for Lumidigm device" ;;
    try_except (
      done <- gets _setup_complete ;;
      failed <- (if negb done then ok <- call setup_backend ;; ret (negb ok)
                 else ret false) ;;
      (if (failed : bool) then return_ false else ret tt) ;;

      (* Find all devices first for debugging *)
      b <- gets backend ;;
      all_devices <- usb_core_find_all w b ;;
      log INFO "Connected USB devices:" ;;
      for_each all_devices (fun dev =>
        log INFO (fmt ["  VID="; hex (idVendor dev); ", PID="; hex (idProduct dev)])) ;;

      (* Find our specific device *)
      b <- gets backend ;;
      d <- usb_core_find w LUMIDIGM_VID LUMIDIGM_PID b ;;
      modify (set_device d) ;;

      d <- gets device ;;
      match d with
      | None =>
          log ERROR "Lumidigm device not found" ;;
          showerror "Error" "Lumidigm device not found" ;;
          return_ false
      | Some _ => ret tt
      end ;;

      log INFO "Lumidigm device found, attempting to configure..." ;;

      (* Windows-specific configuration *)
      (if String.eqb (platform_system w) "Windows" then
         (* Reset the device first *)
         try_except (
           with_device (fun dev => ext c_reset (reset dev)) ;;
           log INFO "Device reset")
         (except_all (fun _ =>
           log WARNING "Device reset failed")) ;;
         (* Set configuration (Windows often needs this) *)
         try_except (
           with_device (fun dev => ext c_set_configuration (set_configuration dev)) ;;
           log INFO "Device configuration set")
         (except_USBError (fun e =>
           log WARNING (fmt ["Configuration warning: "; str e])))
       (* For Linux/Mac *)
       else
         active <- with_device (fun dev =>
           ext (c_is_kernel_driver_active 0) (is_kernel_driver_active dev 0)) ;;
         (if (active : bool) then
            with_device (fun dev =>
              ext (c_detach_kernel_driver 0) (detach_kernel_driver dev 0)) ;;
            log INFO "Kernel driver detached"
          else ret tt) ;;
         with_device (fun dev => ext c_set_configuration (set_configuration dev)) ;;
         log INFO "Device configuration set") ;;

      log INFO "Device configured successfully" ;;
      return_ true)
    (except_all (fun e =>
      log ERROR (fmt ["Device configuration failed: "; str e]) ;;
      showerror "Error" (fmt ["Device configuration failed:"; nl; str e]) ;;
      return_ false))).

End Methods.

(** The endpoint scan: the [for ep in intf] loop with its two local
    variables [ep_out] and [ep_in] as the accumulator. *)
Definition scan_step (acc : option Endpoint * option Endpoint) (ep : Endpoint)
  : option Endpoint * option Endpoint :=
  let '(ep_out, ep_in) := acc in
  if endpoint_type (bmAttributes ep) =? ENDPOINT_TYPE_BULK then
    if endpoint_direction (bEndpointAddress ep) =? ENDPOINT_OUT then
      (Some ep, ep_in)
    else
      (ep_out, Some ep)
  else (ep_out, ep_in).

Definition scan_endpoints (intf : Interface) : option Endpoint * option Endpoint :=
  fold_left scan_step intf (None, None).

(** [bytes([random.getrandbits(8) for _ in range(64)])] *)
Definition random_packet (tk : Tick) : list Z :=
  map (fun i => getrandbits 8 (getrandbits_raw tk i)) (seq 0 64).

(** The statement placed after the [return] of the missing-endpoint branch:
    the f-string dereferences [ep_out] and [ep_in], and its second format
    specification is not one an integer accepts. *)
Definition endpoint_diagnostic {R} (ep_out ep_in : option Endpoint) : Py.t R unit :=
  out_addr <- attr ep_out bEndpointAddress ;;
  in_addr <- attr ep_in bEndpointAddress ;;
  _ <- (raise (Exception_ "ValueError" "Invalid format specifier") : Py.t R string) ;;
  log INFO (fmt ["Using endpoints - OUT: 0x"; format_02x out_addr;
                 ", IN: 0x"; format_02x in_addr]).

(** One pass through the body of the [while] loop. *)
Definition loop_body {R} (ep_out ep_in : option Endpoint) (tk : Tick) : Py.t R unit :=
  try_except (
    (* Generate and send data *)
    let data := random_packet tk in
    written <- with_device (fun _ =>
      ep <- attr ep_out bEndpointAddress ;;
      ext (c_write ep data 1000) (write tk ep data 1000)) ;;
    modify (fun s => set_packet_count (packet_count s + 1) s) ;;
    modify (fun s => set_byte_count (byte_count s + Z.of_N written) s) ;;
    n <- gets packet_count ;;
    log DEBUG (fmt ["Sent packet: "; str_int n; ", bytes: "; str_int (Z.of_N written)]) ;;

    (* Try to read if input endpoint exists *)
    (if truthy ep_in then
       try_except (
         data_in <- with_device (fun _ =>
           ep <- attr ep_in bEndpointAddress ;;
           ext (c_read ep 64 1000) (read tk ep 64 1000)) ;;
         modify (fun s => set_byte_count (byte_count s + len data_in) s) ;;
         log DEBUG (fmt ["Received data: "; str_int (len data_in); " bytes"]))
       (except_USBError (fun e =>
         if errno_ne e (-7) then                       (* Ignore timeout errors *)
           (raise e : Py.t R unit) ;;
           log ERROR (fmt ["Read error: "; str e])
         else ret tt))
     else ret tt) ;;

    (* Small delay to prevent overwhelming *)
    emit (Ext (c_sleep_ms 50)))
  (fun e =>
     match e with
     | USBError _ _ => Some (log ERROR (fmt ["USB Error: "; str e]) ;; break_)
     | Exception_ _ _ => Some (log ERROR (fmt ["Error: "; str e]) ;; break_)
     end).

(** Generate USB traffic to the device.  [diag] is the statement standing
    after the [return] of the missing-endpoint branch. *)
Definition generate_traffic_with
    (diag : option Endpoint -> option Endpoint -> Py.t unit unit)
    (ticks : list Tick) : Py.fn unit :=
  def tt (
    d <- gets device ;;
    match d with
    | None =>
        log ERROR "No device found" ;;
        return_ tt
    | Some _ => ret tt
    end ;;

    try_finally (
      try_except (
        cfg <- with_device (fun dev =>
          ext c_get_active_configuration (get_active_configuration dev)) ;;
        intf <- pure_result (getitem cfg (0, 0)) ;;

        (* Find endpoints *)
        let '(ep_out, ep_in) := scan_endpoints intf in

        (if negb (truthy ep_out) then
           log ERROR "No output endpoint found" ;;
           showerror "Error" "No output endpoint found" ;;
           (return_ tt : Py.t unit unit) ;;
           diag ep_out ep_in
         else ret tt) ;;

        log INFO "Starting traffic generation" ;;
        while_running ticks (loop_body ep_out ep_in))
      (except_all (fun e =>
        log ERROR (fmt ["Traffic generation failed: "; str e]) ;;
        showerror "Error" (fmt ["Traffic generation failed:"; nl; str e]))))
    (
      modify (set_running false) ;;
      log INFO "Traffic stopped")).

Definition generate_traffic (ticks : list Tick) : Py.fn unit :=
  generate_traffic_with endpoint_diagnostic ticks.

(** Stop the traffic generation *)
Definition stop_traffic : Py.fn unit :=
  def tt (
    modify (set_running false) ;;
    d <- gets device ;;
    (if truthy d then
       try_except (
         with_device (fun dev => ext c_dispose_resources (dispose_resources dev)) ;;
         log INFO "Disposed USB resources")
       (except_all (fun _ =>
         log ERROR "Failed to dispose USB resources"))
     else ret tt) ;;
    modify (set_device None) ;;
    log INFO "Traffic stopped").

End USBTrafficGenerator.
Import USBTrafficGenerator.

(** ** The window *)

(** [tkinter] constants for the state of a button. *)
Module tk.
Definition NORMAL : string := "normal".
Definition DISABLED : string := "disabled".
End tk.

(** The options of the widgets that the callbacks of the window configure. *)
Module ttk.
Record Button : Type := { state : string }.
Record Label : Type := { text : string; foreground : string }.
End ttk.

(** What the window does beyond the effects of the generator: starting the
    worker thread, asking to be called again, and closing. *)
Inductive UiEvent : Type :=
| Core (e : Event)                  (* a log line, or an effect of the generator *)
| ThreadStart (daemon : bool)       (* traffic_thread.start() *)
| After (ms : Z)                    (* self.after(ms, self.update_status) *)
| Destroy.                          (* self.destroy() *)

Definition set_traffic_thread (th : option unit) (s : Session) : Session :=
  {| running := running s; device := device s; packet_count := packet_count s;
     byte_count := byte_count s; backend := backend s;
     _setup_complete := _setup_complete s; traffic_thread := th |}.

Module App.

(** The attributes of the window that its callbacks read and write. *)
Record t : Type := {
  generator : Session;
  start_btn : ttk.Button;
  stop_btn : ttk.Button;
  status_label : ttk.Label;
  packet_label : ttk.Label;
  byte_label : ttk.Label
}.

Definition set_generator (g : Session) (a : t) : t :=
  {| generator := g; start_btn := start_btn a; stop_btn := stop_btn a;
     status_label := status_label a; packet_label := packet_label a;
     byte_label := byte_label a |}.

Definition set_start_btn (b : ttk.Button) (a : t) : t :=
  {| generator := generator a; start_btn := b; stop_btn := stop_btn a;
     status_label := status_label a; packet_label := packet_label a;
     byte_label := byte_label a |}.

Definition set_stop_btn (b : ttk.Button) (a : t) : t :=
  {| generator := generator a; start_btn := start_btn a; stop_btn := b;
     status_label := status_label a; packet_label := packet_label a;
     byte_label := byte_label a |}.

Definition set_status_label (l : ttk.Label) (a : t) : t :=
  {| generator := generator a; start_btn := start_btn a; stop_btn := stop_btn a;
     status_label := l; packet_label := packet_label a;
     byte_label := byte_label a |}.

Definition set_packet_label (l : ttk.Label) (a : t) : t :=
  {| generator := generator a; start_btn := start_btn a; stop_btn := stop_btn a;
     status_label := status_label a; packet_label := l;
     byte_label := byte_label a |}.

Definition set_byte_label (l : ttk.Label) (a : t) : t :=
  {| generator := generator a; start_btn := start_btn a; stop_btn := stop_btn a;
     status_label := status_label a; packet_label := packet_label a;
     byte_label := l |}.

(** [label.config(text=s)] leaves the other options of the label alone. *)
Definition config_text (s : string) (l : ttk.Label) : ttk.Label :=
  {| ttk.text := s; ttk.foreground := ttk.foreground l |}.

(** A callback of the window: statements run one after the other on the
    window's attributes; an exception of one ends the callback. *)
Definition ui (A : Type) : Type := t -> Outcome A * t * list UiEvent.

Definition ui_ret {A} (x : A) : ui A := fun a => (Returned x, a, []).

Definition ui_bind {A B} (m : ui A) (k : A -> ui B) : ui B :=
  fun a =>
    match m a with
    | (Returned x, a1, t1) => let '(o, a2, t2) := k x a1 in (o, a2, t1 ++ t2)
    | (Raised e, a1, t1) => (Raised e, a1, t1)
    | (Looping, a1, t1) => (Looping, a1, t1)
    end.

Definition ui_reads {A} (f : t -> A) : ui A := fun a => (Returned (f a), a, []).
Definition ui_modify (f : t -> t) : ui unit := fun a => (Returned tt, f a, []).
Definition ui_emit (e : UiEvent) : ui unit := fun a => (Returned tt, a, [e]).
Definition ui_log (lvl : Level) (msg : string) : ui unit := ui_emit (Core (Log lvl msg)).

(** A method call on [self.generator]. *)
Definition on_generator {R} (f : Py.fn R) : ui R :=
  fun a =>
    let '(o, g, tr) := f (generator a) in
    (o, set_generator g a, map Core tr).

Section Callbacks.
Variable w : World.

Definition update_status : ui unit :=
  ui_bind (ui_reads (fun a => running (generator a))) (fun is_running =>
  ui_bind (if (is_running : bool) then
             ui_modify (set_status_label
                          {| ttk.text := "Running"; ttk.foreground := "green" |})
           else
             ui_modify (set_status_label
                          {| ttk.text := "Ready"; ttk.foreground := "blue" |})) (fun _ =>

  ui_bind (ui_modify (fun a =>
             set_packet_label
               (config_text (str_int (packet_count (generator a))) (packet_label a)) a))
          (fun _ =>
  ui_bind (ui_modify (fun a =>
             set_byte_label
               (config_text (str_int (byte_count (generator a))) (byte_label a)) a))
          (fun _ =>

  (* Schedule the next update *)
  ui_bind (ui_emit (After 100)) (fun _ =>
  ui_log DEBUG "Status updated"))))).

Definition start_traffic : ui unit :=
  ui_bind (ui_log INFO "Starting traffic") (fun _ =>
  ui_bind (on_generator (find_device w)) (fun found =>
  if (found : bool) then
    ui_bind (ui_modify (fun a => set_generator (set_running true (generator a)) a))
            (fun _ =>
    ui_bind (ui_modify (set_start_btn {| ttk.state := tk.DISABLED |})) (fun _ =>
    ui_bind (ui_modify (set_stop_btn {| ttk.state := tk.NORMAL |})) (fun _ =>
    ui_bind (ui_modify (fun a =>
               set_generator (set_traffic_thread (Some tt) (generator a)) a))
            (fun _ =>
    ui_emit (ThreadStart true)))))
  else ui_ret tt)).

Definition stop_traffic : ui unit :=
  ui_bind (ui_log INFO "Stopping traffic") (fun _ =>
  ui_bind (on_generator USBTrafficGenerator.stop_traffic) (fun _ =>
  ui_bind (ui_modify (set_start_btn {| ttk.state := tk.NORMAL |})) (fun _ =>
  ui_modify (set_stop_btn {| ttk.state := tk.DISABLED |})))).

Definition on_close : ui unit :=
  ui_bind (ui_log INFO "Closing application") (fun _ =>
  ui_bind (on_generator USBTrafficGenerator.stop_traffic) (fun _ =>
  ui_emit Destroy)).

End Callbacks.

End App.

(** * Vocabulary of the properties *)

(** ** Reading the result of a method *)

(** Projections of the result of running a method. *)
Definition outcome_of {R} (r : Outcome R * Session * Trace) : Outcome R := fst (fst r).
Definition session_of {R} (r : Outcome R * Session * Trace) : Session := snd (fst r).
Definition trace_of {R} (r : Outcome R * Session * Trace) : Trace := snd r.

(** The messages the program shows for the errors the specification names. *)
Definition BackendNotFound : Event :=
  ShowError "Error" "libusb-1.0.dll not found. Please install libusb.".
Definition DeviceNotFound : Event :=
  ShowError "Error" "Lumidigm device not found".
Definition NoOutputEndpoint : Event :=
  ShowError "Error" "No output endpoint found".

(** Whether an event is a bulk write, a device enumeration. *)
Definition is_write (e : Event) : bool :=
  match e with Ext (c_write _ _ _) => true | _ => false end.
Definition is_enumeration (e : Event) : bool :=
  match e with Ext c_find_all | Ext (c_find _ _) => true | _ => false end.
Definition is_showerror (e : Event) : bool :=
  match e with ShowError _ _ => true | _ => false end.

(** ** Endpoints *)

(** The classification of endpoints in the words of the specification. *)
Definition is_bulk (ep : Endpoint) : bool :=
  endpoint_type (bmAttributes ep) =? ENDPOINT_TYPE_BULK.
Definition is_bulk_out (ep : Endpoint) : bool :=
  is_bulk ep && (endpoint_direction (bEndpointAddress ep) =? ENDPOINT_OUT).
Definition is_bulk_not_out (ep : Endpoint) : bool :=
  is_bulk ep && negb (endpoint_direction (bEndpointAddress ep) =? ENDPOINT_OUT).

(** The last element of a list that satisfies [p], in iteration order. *)
Fixpoint last_such {A} (p : A -> bool) (l : list A) : option A :=
  match l with
  | [] => None
  | x :: l' =>
      match last_such p l' with
      | Some y => Some y
      | None => if p x then Some x else None
      end
  end.

(** [o], or [d] when [o] is [None]. *)
Definition or_else {A} (o d : option A) : option A :=
  match o with Some _ => o | None => d end.

(** ** The traces of [generate_traffic] *)

(** The log line of the outer handlers of the loop body. *)
Definition loop_error_line (e : Exn) : Event :=
  match e with
  | USBError _ _ => Log ERROR (fmt ["USB Error: "; str e])
  | Exception_ _ _ => Log ERROR (fmt ["Error: "; str e])
  end.

(** The session after a packet of which [written] bytes went out and
    [received] bytes came back. *)
Definition count (written received : Z) (s : Session) : Session :=
  set_byte_count (byte_count s + written + received)
    (set_packet_count (packet_count s + 1) s).

(** The log line after a write. *)
Definition sent_line (s : Session) (written : N) : Event :=
  Log DEBUG (fmt ["Sent packet: "; str_int (packet_count s + 1); ", bytes: ";
                  str_int (Z.of_N written)]).

(** ** Relations between sessions *)

(** Neither counter is lower in [s1] than in [s]. *)
Definition counters_le (s s1 : Session) : Prop :=
  packet_count s <= packet_count s1 /\ byte_count s <= byte_count s1.

(** [s1] has the handles and the setup state of [s]. *)
Definition same_handles (s s1 : Session) : Prop :=
  device s1 = device s /\ backend s1 = backend s
  /\ _setup_complete s1 = _setup_complete s
  /\ traffic_thread s1 = traffic_thread s.

(** What [generate_traffic] leaves in the trace before and after its loop. *)
Definition traffic_prologue : Trace :=
  [Ext c_get_active_configuration; Log INFO "Starting traffic generation"].

Definition traffic_epilogue : Trace := [Log INFO "Traffic stopped"].

(** An iteration in which the whole packet goes out and a whole packet comes
    back. *)
Definition full_iteration (o i : Endpoint) (tk : Tick) : Prop :=
  write tk (bEndpointAddress o) (random_packet tk) 1000 = Ok 64%N
  /\ exists data_in,
       read tk (bEndpointAddress i) 64 1000 = Ok data_in /\ len data_in = 64.

(** ** The traces of [find_device] and [setup_backend] *)

(** The log line for one device of the bus. *)
Definition device_line (dev : Device) : Event :=
  Log INFO (fmt ["  VID="; hex (idVendor dev); ", PID="; hex (idProduct dev)]).

(** What [find_device] leaves in the trace up to and including its search. *)
Definition search_trace (devs : list Device) : Trace :=
  [Log INFO "Searching for Lumidigm device"; Ext c_find_all;
   Log INFO "Connected USB devices:"]
  ++ map device_line devs
  ++ [Ext (c_find LUMIDIGM_VID LUMIDIGM_PID)].

(** The trace of the reset on the Windows path: its failure is a warning. *)
Definition reset_trace (d : Device) : Trace :=
  [Ext c_reset;
   match reset d with
   | Ok _ => Log INFO "Device reset"
   | Err _ => Log WARNING "Device reset failed"
   end].

(** The trace of the handler around the whole of [find_device]. *)
Definition configuration_failed_trace (e : Exn) : Trace :=
  [Log ERROR (fmt ["Device configuration failed: "; str e]);
   ShowError "Error" (fmt ["Device configuration failed:"; nl; str e])].

Definition found_line : Event :=
  Log INFO "Lumidigm device found, attempting to configure...".

Definition done_line : Event := Log INFO "Device configured successfully".

(** The trace of the last step, setting the configuration: on the Windows
    path a [USBError] is a warning, anything else is fatal; on the other path
    every exception is fatal. *)
Definition configure_trace (lenient : bool) (d : Device) : Trace :=
  Ext c_set_configuration ::
  match set_configuration d with
  | Ok _ => [Log INFO "Device configuration set"; done_line]
  | Err e =>
      match lenient, e with
      | true, USBError _ _ =>
          [Log WARNING (fmt ["Configuration warning: "; str e]); done_line]
      | _, _ => configuration_failed_trace e
      end
  end.

(** The traces of the two platform-specific configurations. *)
Definition windows_trace (d : Device) : Trace :=
  reset_trace d ++ configure_trace true d.

Definition other_platform_trace (d : Device) : Trace :=
  Ext (c_is_kernel_driver_active 0) ::
  match is_kernel_driver_active d 0 with
  | Err e => configuration_failed_trace e
  | Ok true =>
      Ext (c_detach_kernel_driver 0) ::
      match detach_kernel_driver d 0 with
      | Err e => configuration_failed_trace e
      | Ok _ => Log INFO "Kernel driver detached" :: configure_trace false d
      end
  | Ok false => configure_trace false d
  end.

Definition is_windows (w : World) : bool :=
  String.eqb (platform_system w) "Windows".

Definition is_ok {A} (r : Result A) : bool :=
  match r with Ok _ => true | Err _ => false end.

(** Whether the platform-specific configuration of a device that was found
    goes through: on the Windows path everything but an exception of
    [set_configuration] outside [USBError] does; on the other path each of
    the calls made has to succeed. *)
Definition configures (w : World) (d : Device) : bool :=
  if is_windows w then
    match set_configuration d with
    | Err (Exception_ _ _) => false
    | _ => true
    end
  else
    match is_kernel_driver_active d 0 with
    | Err _ => false
    | Ok active =>
        (if active then is_ok (detach_kernel_driver d 0) else true)
        && is_ok (set_configuration d)
    end.

(** The exception, if any, that ends the platform-specific configuration of a
    device that was found and reaches the handler around the whole of
    [find_device]: on the Windows path an exception of [set_configuration]
    outside [USBError]; on the other path the first exception among the
    kernel-driver query, the detach (made when a driver is active) and
    [set_configuration]. *)
Definition configuration_failure (w : World) (d : Device) : option Exn :=
  if is_windows w then
    match set_configuration d with
    | Err (Exception_ cls text) => Some (Exception_ cls text)
    | _ => None
    end
  else
    match is_kernel_driver_active d 0 with
    | Err e => Some e
    | Ok active =>
        match (if active then detach_kernel_driver d 0 else Ok tt) with
        | Err e => Some e
        | Ok _ =>
            match set_configuration d with
            | Err e => Some e
            | Ok _ => None
            end
        end
    end.

(** The message that handler shows. *)
Definition ConfigurationFailed (e : Exn) : Event :=
  ShowError "Error" (fmt ["Device configuration failed:"; nl; str e]).


(** The backend is ready for the search of [find_device]: either it was set
    up before, or [setup_backend] sets it up now, leaving session [s1] and
    trace [t1]. *)
Definition backend_ready (w : World) (s s1 : Session) (t1 : Trace) : Prop :=
  (_setup_complete s = true /\ s1 = s /\ t1 = [])
  \/ (_setup_complete s = false /\ setup_backend w s = (Returned true, s1, t1)).

(** ** The life of a session *)

(** What can happen to a session during the life of the process: the four
    methods, and the assignment [generator.running = True] made by the
    window's start button. *)
Inductive Op : Type :=
| op_setup_backend (w : World)
| op_find_device (w : World)
| op_set_running (b : bool)
| op_generate_traffic (ticks : list Tick)
| op_stop_traffic.

Definition step (s : Session) (o : Op) : Session :=
  match o with
  | op_setup_backend w => session_of (setup_backend w s)
  | op_find_device w => session_of (find_device w s)
  | op_set_running b => set_running b s
  | op_generate_traffic ticks => session_of (generate_traffic ticks s)
  | op_stop_traffic => session_of (stop_traffic s)
  end.

Definition life (ops : list Op) (s : Session) : Session := fold_left step ops s.

(** ** Scenarios *)

(** Endpoint descriptors: bulk OUT, bulk IN and interrupt IN. *)
Definition ep_out_02 : Endpoint := {| bEndpointAddress := 0x02; bmAttributes := 0x02 |}.
Definition ep_out_04 : Endpoint := {| bEndpointAddress := 0x04; bmAttributes := 0x02 |}.
Definition ep_in_81 : Endpoint := {| bEndpointAddress := 0x81; bmAttributes := 0x02 |}.
Definition ep_in_83 : Endpoint := {| bEndpointAddress := 0x83; bmAttributes := 0x02 |}.
Definition ep_intr_85 : Endpoint := {| bEndpointAddress := 0x85; bmAttributes := 0x03 |}.

(** The configuration whose interface (0, 0) is [intf]. *)
Definition interface_configuration (intf : Interface) : Configuration :=
  {| getitem := fun ix =>
       if (fst ix =? 0) && (snd ix =? 0) then Ok intf
       else Err (USBError None "Invalid interface") |}.

(** A device with the Lumidigm identifiers, by its endpoints and its answers
    to [reset] and [set_configuration]. *)
Definition lumidigm (intf : Interface) (on_reset on_configure : Result unit) : Device :=
  {| idVendor := LUMIDIGM_VID;
     idProduct := LUMIDIGM_PID;
     reset := on_reset;
     set_configuration := on_configure;
     is_kernel_driver_active := fun _ => Ok false;
     detach_kernel_driver := fun _ => Ok tt;
     get_active_configuration := Ok (interface_configuration intf);
     dispose_resources := Ok tt |}.

(** Another device on the bus. *)
Definition keyboard : Device :=
  {| idVendor := 0x046D;
     idProduct := 0xC31C;
     reset := Ok tt;
     set_configuration := Ok tt;
     is_kernel_driver_active := fun _ => Ok true;
     detach_kernel_driver := fun _ => Ok tt;
     get_active_configuration := Ok (interface_configuration [ep_intr_85]);
     dispose_resources := Ok tt |}.

(** A machine by its system name, the library files present and its bus. *)
Definition machine (system : string) (libs : list string) (devs : list Device) : World :=
  {| platform_system := system;
     expandvars := fun p => p;
     path_exists := fun p => existsb (String.eqb p) libs;
     get_backend := fun lib => Ok (Some {| library := lib |});
     enumerate_devices := fun _ => Ok devs |}.

(** The first of the library files looked for. *)
Definition system32_dll : string := "C:\Windows\System32\libusb-1.0.dll".

(** Exceptions a device can answer with. *)
Definition not_supported : Exn :=
  Exception_ "NotImplementedError"
    "Operation not supported or unimplemented on this platform".

Definition io_error : Exn := USBError (Some 5) "Input/Output Error".

Definition access_denied : Exn :=
  USBError (Some 13) "Access denied (insufficient permissions)".

(** Machines and devices of the scenarios. *)
Definition flaky_windows : World :=
  machine "Windows" [system32_dll]
    [keyboard; lumidigm [ep_out_02; ep_in_81] (Err io_error) (Err io_error)].

Definition unsupported_windows : World :=
  machine "Windows" [system32_dll]
    [keyboard; lumidigm [ep_out_02; ep_in_81] (Ok tt) (Err not_supported)].

Definition good_lumidigm : Device := lumidigm [ep_out_02; ep_in_81] (Ok tt) (Ok tt).

Definition linux_with_device : World := machine "Linux" [] [keyboard; good_lumidigm].
Definition linux_without_device : World := machine "Linux" [] [keyboard].

Definition locked_lumidigm : Device :=
  lumidigm [ep_out_02; ep_in_81] (Ok tt) (Err access_denied).

Definition locked_linux : World := machine "Linux" [] [keyboard; locked_lumidigm].

(** The raw random source of the scripts. *)
Definition draws (i : nat) : Z := 7919 * Z.of_nat i + 104729.

(** The whole packet goes out and 64 bytes come back. *)
Definition steady : Tick :=
  {| getrandbits_raw := draws;
     write := fun _ data _ => Ok (N.of_nat (List.length data));
     read := fun _ size _ => Ok (repeat 0 (Z.to_nat size)) |}.

(** A transfer that timed out, as PyUSB's libusb1 backend raises it: a
    [USBError] (of its subclass [USBTimeoutError]) whose [errno] is the
    platform's [ETIMEDOUT], a positive number, or [None] where the platform
    has none.  The -7 of libusb, [LIBUSB_ERROR_TIMEOUT], is its
    [backend_error_code], an attribute the program does not read. *)
Definition LIBUSB_ERROR_TIMEOUT : Z := -7.
Definition ETIMEDOUT : Z := 110.
Definition USBTimeoutError (etimedout : option Z) : Exn :=
  USBError etimedout "Operation timed out".

(** The packet goes out and the read times out. *)
Definition timed_out : Tick :=
  {| getrandbits_raw := draws;
     write := fun _ data _ => Ok (N.of_nat (List.length data));
     read := fun _ _ _ => Err (USBTimeoutError (Some ETIMEDOUT)) |}.

(** The packet goes out and the read raises a [USBError] whose [errno] is -7,
    the one value that the test [e.errno != -7] of the loop lets pass.  No
    transfer of the library answers so; the tick is there to exercise that
    branch of the loop. *)
Definition errno_minus_7 : Tick :=
  {| getrandbits_raw := draws;
     write := fun _ data _ => Ok (N.of_nat (List.length data));
     read := fun _ _ _ => Err (USBError (Some (-7)) "errno -7") |}.

(** The packet goes out and the read fails on a stalled pipe. *)
Definition stalled : Tick :=
  {| getrandbits_raw := draws;
     write := fun _ data _ => Ok (N.of_nat (List.length data));
     read := fun _ _ _ => Err (USBError (Some (-9)) "Pipe error") |}.

(** The device is gone: the write fails. *)
Definition unplugged : Tick :=
  {| getrandbits_raw := draws;
     write := fun _ _ _ => Err (USBError (Some 19) "No such device");
     read := fun _ _ _ => Err (USBError (Some 19) "No such device") |}.

(** A session that found [d] and was started. *)
Definition started (d : Device) : Session :=
  set_running true (set_device (Some d) __init__).

Definition out_less_lumidigm : Device := lumidigm [ep_in_81; ep_intr_85] (Ok tt) (Ok tt).

(** The loop of a started session after one steady iteration. *)
Definition after_one_steady : Ctl unit unit * Session * Trace :=
  while_running [steady] (loop_body (Some ep_out_02) (Some ep_in_81))
    (started good_lumidigm).

(** ** Vocabulary of the further properties *)

(** The file probes of [setup_backend]. *)
Definition probe_trace (ps : list string) : Trace :=
  map (fun p => Ext (c_path_exists p)) ps.

(** Classes of events. *)
Definition is_backend_probe (e : Event) : bool :=
  match e with Ext (c_path_exists _) | Ext (c_get_backend _) => true | _ => false end.
Definition is_read (e : Event) : bool :=
  match e with Ext (c_read _ _ _) => true | _ => false end.
Definition is_reset (e : Event) : bool :=
  match e with Ext c_reset => true | _ => false end.
Definition is_kernel_driver_call (e : Event) : bool :=
  match e with
  | Ext (c_is_kernel_driver_active _) | Ext (c_detach_kernel_driver _) => true
  | _ => false
  end.
Definition is_detach (e : Event) : bool :=
  match e with Ext (c_detach_kernel_driver _) => true | _ => false end.
Definition is_dispose (e : Event) : bool :=
  match e with Ext c_dispose_resources => true | _ => false end.
Definition is_thread_start (e : UiEvent) : bool :=
  match e with ThreadStart _ => true | _ => false end.
Definition is_after (e : UiEvent) : bool :=
  match e with After _ => true | _ => false end.

(** The number of error boxes shown during a trace. *)
Definition boxes (tr : Trace) : nat := List.length (filter is_showerror tr).

(** The number of events of a class in a trace. *)
Definition occurrences {E} (p : E -> bool) (tr : list E) : nat :=
  List.length (filter p tr).

(** The interface [generate_traffic] works on: [cfg[(0, 0)]] of the active
    configuration, or the exception one of the two lookups raises. *)
Definition active_interface (d : Device) : Result Interface :=
  match get_active_configuration d with
  | Ok cfg => getitem cfg (0, 0)
  | Err e => Err e
  end.

(** A transfer of the loop is aimed as the source says: a write goes to the
    OUT endpoint chosen, with 64 bytes and a wait of 1000; a read goes to the
    IN endpoint chosen, for 64 bytes and with a wait of 1000. *)
Definition well_aimed (o : Endpoint) (ep_in : option Endpoint) (e : Event) : bool :=
  match e with
  | Ext (c_write ep data timeout) =>
      (ep =? bEndpointAddress o) && (len data =? 64) && (timeout =? 1000)
  | Ext (c_read ep size timeout) =>
      match ep_in with
      | Some i => (ep =? bEndpointAddress i) && (size =? 64) && (timeout =? 1000)
      | None => false
      end
  | _ => true
  end.

(** What one iteration moves, read off the answers of its tick: the bytes
    the write reports, and the bytes a read brings back (none without an IN
    endpoint, none when the read raises). *)
Definition sent (o : Endpoint) (tk : Tick) : Z :=
  match write tk (bEndpointAddress o) (random_packet tk) 1000 with
  | Ok n => Z.of_N n
  | Err _ => 0
  end.

Definition received (ep_in : option Endpoint) (tk : Tick) : Z :=
  match ep_in with
  | Some i =>
      match read tk (bEndpointAddress i) 64 1000 with
      | Ok data_in => len data_in
      | Err _ => 0
      end
  | None => 0
  end.

(** Whether the exception is one that the test [e.errno != -7] of the loop
    lets pass on a read: a [USBError] whose [errno] is -7. *)
Definition is_ignored (e : Exn) : bool :=
  match e with
  | USBError (Some code) _ => code =? -7
  | _ => false
  end.

(** Whether the answers of a tick let the loop go on: the write succeeds, and
    the read, if there is one, succeeds or raises a [USBError] whose [errno]
    is -7. *)
Definition continues (o : Endpoint) (ep_in : option Endpoint) (tk : Tick) : bool :=
  match write tk (bEndpointAddress o) (random_packet tk) 1000 with
  | Err _ => false
  | Ok _ =>
      match ep_in with
      | None => true
      | Some i =>
          match read tk (bEndpointAddress i) 64 1000 with
          | Ok _ => true
          | Err e => is_ignored e
          end
      end
  end.

(** The sum of a quantity over a script. *)
Definition total (f : Tick -> Z) (ticks : list Tick) : Z :=
  fold_right (fun tk acc => f tk + acc) 0 ticks.

(** The session after [packets] more packets and [bytes] more bytes. *)
Definition advance (packets bytes : Z) (s : Session) : Session :=
  set_byte_count (byte_count s + bytes) (set_packet_count (packet_count s + packets) s).

(** The trace of [stop_traffic]: the device, if one is held, is disposed of,
    with a log line for either answer. *)
Definition stop_trace (s : Session) : Trace :=
  match device s with
  | None => []
  | Some d =>
      [Ext c_dispose_resources;
       match dispose_resources d with
       | Ok _ => Log INFO "Disposed USB resources"
       | Err _ => Log ERROR "Failed to dispose USB resources"
       end]
  end
  ++ [Log INFO "Traffic stopped"].

(** The session [stop_traffic] leaves. *)
Definition stopped (s : Session) : Session := set_device None (set_running false s).

(** A session with another flag, other counters and another thread
    attribute: everything [find_device] neither reads nor writes. *)
Definition with_flags (r : bool) (packets bytes : Z) (th : option unit) (s : Session)
  : Session :=
  set_traffic_thread th (set_byte_count bytes (set_packet_count packets (set_running r s))).

(** The widgets as the refresh sets them for a generator. *)
Definition shown (g : Session) (a : App.t) : App.t :=
  App.set_byte_label (App.config_text (str_int (byte_count g)) (App.byte_label a))
    (App.set_packet_label
       (App.config_text (str_int (packet_count g)) (App.packet_label a))
       (App.set_status_label
          (if running g
           then {| ttk.text := "Running"; ttk.foreground := "green" |}
           else {| ttk.text := "Ready"; ttk.foreground := "blue" |})
          a)).

Definition is_destroy (e : UiEvent) : bool :=
  match e with Destroy => true | _ => false end.

Definition is_core_dispose (e : UiEvent) : bool :=
  match e with Core (Ext c_dispose_resources) => true | _ => false end.

(** The trace of the configuration that follows the search, by platform. *)
Definition platform_trace (w : World) (d : Device) : Trace :=
  if is_windows w then windows_trace d else other_platform_trace d.

(** A window as [setup_ui] leaves its buttons, around a generator. *)
Definition window (g : Session) : App.t :=
  {| App.generator := g;
     App.start_btn := {| ttk.state := tk.NORMAL |};
     App.stop_btn := {| ttk.state := tk.DISABLED |};
     App.status_label := {| ttk.text := "Ready"; ttk.foreground := "blue" |};
     App.packet_label := {| ttk.text := "0"; ttk.foreground := "" |};
     App.byte_label := {| ttk.text := "0"; ttk.foreground := "" |} |}.

(** Projections of the result of a callback. *)
Definition ui_outcome {A} (r : Outcome A * App.t * list UiEvent) : Outcome A := fst (fst r).
Definition ui_window {A} (r : Outcome A * App.t * list UiEvent) : App.t := snd (fst r).
Definition ui_trace {A} (r : Outcome A * App.t * list UiEvent) : list UiEvent := snd r.

(** The window after a start on the Windows machine of the scenarios, a
    worker that sent two steady packets, a refresh and a stop. *)
Definition window_after_two_packets : App.t :=
  let a1 := ui_window (App.start_traffic flaky_windows (window __init__)) in
  let g := session_of (generate_traffic [steady; steady] (App.generator a1)) in
  ui_window (App.stop_traffic (ui_window (App.update_status (App.set_generator g a1)))).

(** A machine whose only library file does not load. *)
Definition broken_dll_windows : World :=
  {| platform_system := "Windows";
     expandvars := fun p => p;
     path_exists := fun p => String.eqb p system32_dll;
     get_backend := fun _ => Ok None;
     enumerate_devices := fun _ => Ok [keyboard; good_lumidigm] |}.

(** A machine without libusb, not running Windows. *)
Definition bare_linux : World :=
  {| platform_system := "Linux";
     expandvars := fun p => p;
     path_exists := fun _ => false;
     get_backend := fun _ => Ok None;
     enumerate_devices := fun b =>
       match b with
       | Some _ => Ok [keyboard]
       | None => Err (Exception_ "NoBackendError" "No backend available")
       end |}.

(** A device that claims to be busy when asked for its configuration. *)
Definition busy_lumidigm : Device :=
  {| idVendor := LUMIDIGM_VID;
     idProduct := LUMIDIGM_PID;
     reset := Ok tt;
     set_configuration := Ok tt;
     is_kernel_driver_active := fun _ => Ok true;
     detach_kernel_driver := fun _ => Ok tt;
     get_active_configuration := Err (USBError (Some 16) "Resource busy");
     dispose_resources := Err (USBError (Some 19) "No such device") |}.

(** A device with a bulk OUT endpoint only. *)
Definition out_only_lumidigm : Device := lumidigm [ep_out_02; ep_intr_85] (Ok tt) (Ok tt).

(** * Properties *)

(** ** Unfolding the monad *)

Ltac py_red :=
  cbv beta iota zeta delta
    [def call bind ret return_ raise break_ gets modify emit log showerror ext
     pure_result try_except try_finally except_all except_USBError
     with_device attr truthy negb].

Ltac session_red :=
  cbn [running device packet_count byte_count backend _setup_complete
       traffic_thread set_running set_device set_packet_count set_byte_count
       set_backend set_setup_complete].

Ltac trace_norm := repeat rewrite <- app_assoc; cbn [app].

(** Membership in a trace made of known pieces. *)
Ltac in_trace :=
  repeat (rewrite in_app_iff || cbn [In app]); auto 20.

Lemma bind_return_ {R A B} (r : R) (k : A -> Py.t R B) :
  bind (return_ r) k = return_ r.
Proof. reflexivity. Qed.

Lemma bind_raise {R A B} (e : Exn) (k : A -> Py.t R B) :
  bind (raise e) k = raise e.
Proof. reflexivity. Qed.

(** ** The endpoint scan *)

Lemma scan_from (intf : Interface) : forall ep_out ep_in,
  fold_left scan_step intf (ep_out, ep_in)
  = (or_else (last_such is_bulk_out intf) ep_out,
     or_else (last_such is_bulk_not_out intf) ep_in).
Proof.
  induction intf as [|ep intf IH]; intros ep_out ep_in; [reflexivity|].
  cbn [fold_left last_such].
  unfold scan_step at 2, is_bulk_out, is_bulk_not_out, is_bulk.
  destruct (endpoint_type (bmAttributes ep) =? ENDPOINT_TYPE_BULK);
    [destruct (endpoint_direction (bEndpointAddress ep) =? ENDPOINT_OUT)|];
    rewrite IH; cbn [andb negb];
    destruct (last_such _ intf), (last_such _ intf); reflexivity.
Qed.

Lemma last_such_none {A} (p : A -> bool) (l : list A) :
  last_such p l = None <-> filter p l = [].
Proof.
  induction l as [|x l IH]; cbn [last_such filter]; [tauto|].
  destruct (last_such p l) as [y|].
  - split; [discriminate|].
    intros H. destruct (p x); [discriminate|].
    apply IH in H. discriminate.
  - destruct (p x); split; try discriminate; intros _; [apply IH|]; reflexivity.
Qed.

Lemma last_such_app {A} (p : A -> bool) (l1 l2 : list A) :
  last_such p (l1 ++ l2) = or_else (last_such p l2) (last_such p l1).
Proof.
  induction l1 as [|x l1 IH]; cbn [app last_such].
  - destruct (last_such p l2); reflexivity.
  - rewrite IH. destruct (last_such p l2), (last_such p l1); reflexivity.
Qed.

Lemma scan_endpoints_last (intf : Interface) :
  scan_endpoints intf
  = (last_such is_bulk_out intf, last_such is_bulk_not_out intf).
Proof.
  unfold scan_endpoints. rewrite scan_from.
  destruct (last_such is_bulk_out intf), (last_such is_bulk_not_out intf);
    reflexivity.
Qed.

(** C10: the endpoint scan of [generate_traffic] returns, as OUT endpoint, the
    last bulk endpoint of the interface whose direction is OUT and, as IN
    endpoint, the last bulk endpoint whose direction is not OUT; when several
    bulk OUT (or several bulk IN) endpoints exist, the earlier ones are
    overwritten by the last one and the scan rejects nothing. *)
Theorem C10_scan_selects_last (intf : Interface) :
  scan_endpoints intf
  = (last_such is_bulk_out intf, last_such is_bulk_not_out intf)
  /\ (forall l1 e1 l2 e2 l3,
        intf = l1 ++ e1 :: l2 ++ e2 :: l3 ->
        is_bulk_out e1 = true -> is_bulk_out e2 = true ->
        filter is_bulk_out l3 = [] ->
        fst (scan_endpoints intf) = Some e2)
  /\ (forall l1 e1 l2 e2 l3,
        intf = l1 ++ e1 :: l2 ++ e2 :: l3 ->
        is_bulk_not_out e1 = true -> is_bulk_not_out e2 = true ->
        filter is_bulk_not_out l3 = [] ->
        snd (scan_endpoints intf) = Some e2).
Proof.
  pose proof (scan_endpoints_last intf) as E.
  split; [exact E|].
  split; intros l1 e1 l2 e2 l3 -> _ H2 H3; rewrite E; cbn [fst snd];
    apply last_such_none in H3;
    rewrite last_such_app; cbn [last_such];
    rewrite last_such_app; cbn [last_such];
    rewrite H3, H2; reflexivity.
Qed.

Lemma C10_scan_selects_last_witness :
  fst (scan_endpoints [ep_out_02; ep_in_81; ep_out_04; ep_in_83; ep_intr_85]) = Some ep_out_04
  /\ snd (scan_endpoints [ep_out_02; ep_in_81; ep_out_04; ep_in_83; ep_intr_85]) = Some ep_in_83.
Proof.
  destruct (C10_scan_selects_last
              [ep_out_02; ep_in_81; ep_out_04; ep_in_83; ep_intr_85])
    as (_ & Hout & Hin).
  split.
  - apply (Hout [] ep_out_02 [ep_in_81] ep_out_04 [ep_in_83; ep_intr_85]);
      reflexivity.
  - apply (Hin [ep_out_02] ep_in_81 [ep_out_04] ep_in_83 [ep_intr_85]);
      reflexivity.
Defined.

(** ** One iteration of the transfer loop *)

Section Iteration.
Context {R : Type}.
Variables (s : Session) (d : Device) (o : Endpoint) (tk : Tick).
Hypothesis Hdev : device s = Some d.

Let ep := bEndpointAddress o.
Let data := random_packet tk.

Lemma loop_body_write_error (ep_in : option Endpoint) (e : Exn) :
  write tk ep data 1000 = Err e ->
  @loop_body R (Some o) ep_in tk s
  = (Break_, s, [Ext (c_write ep data 1000); loop_error_line e]).
Proof.
  intros Hw. unfold loop_body. py_red. rewrite Hdev. py_red.
  fold ep data. rewrite Hw. destruct e; reflexivity.
Qed.

Lemma loop_body_no_in (n : N) :
  write tk ep data 1000 = Ok n ->
  @loop_body R (Some o) None tk s
  = (Normal tt, count (Z.of_N n) 0 s,
     [Ext (c_write ep data 1000); sent_line s n; Ext (c_sleep_ms 50)]).
Proof.
  intros Hw. unfold loop_body. py_red. rewrite Hdev. py_red.
  fold ep data. rewrite Hw. unfold count, sent_line.
  cbn [byte_count packet_count set_packet_count set_byte_count].
  rewrite Z.add_0_r. reflexivity.
Qed.

Section WithIn.
Variables (i : Endpoint) (n : N).
Hypothesis Hw : write tk ep data 1000 = Ok n.

Lemma loop_body_read_ok (data_in : list Z) :
  read tk (bEndpointAddress i) 64 1000 = Ok data_in ->
  @loop_body R (Some o) (Some i) tk s
  = (Normal tt, count (Z.of_N n) (len data_in) s,
     [Ext (c_write ep data 1000); sent_line s n;
      Ext (c_read (bEndpointAddress i) 64 1000);
      Log DEBUG (fmt ["Received data: "; str_int (len data_in); " bytes"]);
      Ext (c_sleep_ms 50)]).
Proof.
  intros Hr. unfold loop_body. py_red. rewrite Hdev. py_red.
  fold ep data. rewrite Hw. cbn [device set_byte_count set_packet_count].
  rewrite Hdev, Hr. reflexivity.
Qed.

Lemma loop_body_read_ignored (text : string) :
  read tk (bEndpointAddress i) 64 1000 = Err (USBError (Some (-7)) text) ->
  @loop_body R (Some o) (Some i) tk s
  = (Normal tt, count (Z.of_N n) 0 s,
     [Ext (c_write ep data 1000); sent_line s n;
      Ext (c_read (bEndpointAddress i) 64 1000);
      Ext (c_sleep_ms 50)]).
Proof.
  intros Hr. unfold loop_body. py_red. rewrite Hdev. py_red.
  fold ep data. rewrite Hw. cbn [device set_byte_count set_packet_count].
  rewrite Hdev, Hr. unfold count, sent_line.
  cbn [byte_count packet_count set_packet_count set_byte_count].
  rewrite Z.add_0_r. reflexivity.
Qed.

Lemma loop_body_read_error (e : Exn) :
  read tk (bEndpointAddress i) 64 1000 = Err e ->
  (forall text, e <> USBError (Some (-7)) text) ->
  @loop_body R (Some o) (Some i) tk s
  = (Break_, count (Z.of_N n) 0 s,
     [Ext (c_write ep data 1000); sent_line s n;
      Ext (c_read (bEndpointAddress i) 64 1000);
      loop_error_line e]).
Proof.
  intros Hr Hne. unfold loop_body. py_red. rewrite Hdev. py_red.
  fold ep data. rewrite Hw. cbn [device set_byte_count set_packet_count].
  rewrite Hdev, Hr. unfold count, sent_line.
  cbn [byte_count packet_count set_packet_count set_byte_count].
  rewrite Z.add_0_r.
  destruct e as [[code|] text|cls text]; try reflexivity.
  unfold errno_ne, errno.
  destruct (Z.eqb_spec code (-7)) as [->|Hc]; [|reflexivity].
  exfalso. apply (Hne text). reflexivity.
Qed.
End WithIn.
End Iteration.

(** ** Relations between sessions *)

Lemma counters_le_refl s : counters_le s s.
Proof. split; lia. Qed.

Lemma counters_le_trans s1 s2 s3 :
  counters_le s1 s2 -> counters_le s2 s3 -> counters_le s1 s3.
Proof. unfold counters_le. lia. Qed.

Lemma same_handles_refl s : same_handles s s.
Proof. repeat split. Qed.

Lemma same_handles_set_running b s s1 :
  same_handles s s1 -> same_handles s (set_running b s1).
Proof. intros H. exact H. Qed.

Lemma counters_le_set_running b s s1 :
  counters_le s s1 -> counters_le s (set_running b s1).
Proof. intros H. exact H. Qed.

Lemma same_handles_trans s1 s2 s3 :
  same_handles s1 s2 -> same_handles s2 s3 -> same_handles s1 s3.
Proof.
  unfold same_handles. intros (A1 & A2 & A3 & A4) (B1 & B2 & B3 & B4).
  repeat split; congruence.
Qed.

Create HintDb session.
#[local] Hint Resolve counters_le_refl same_handles_refl same_handles_set_running
  counters_le_set_running : session.

(** Case analysis on the innermost answer of the environment that blocks
    the computation. *)
Ltac case_stuck :=
  match goal with
  | |- context [match ?x with _ => _ end] =>
      lazymatch x with
      | context [match _ with _ => _ end] => fail
      | _ => destruct x eqn:?
      end
  end.

(** What an iteration can and cannot do, whatever the device answers: it
    ends normally or by [break], touches only the two counters, and never
    decreases them. *)
Lemma loop_body_inv {R} (ep_out ep_in : option Endpoint) (tk : Tick) (s : Session) :
  exists c s1 t1,
    @loop_body R ep_out ep_in tk s = (c, s1, t1)
    /\ (c = Normal tt \/ c = Break_)
    /\ running s1 = running s
    /\ same_handles s s1
    /\ counters_le s s1.
Proof.
  unfold loop_body, same_handles, counters_le. py_red.
  cbn [device set_byte_count set_packet_count].
  repeat (case_stuck; try (cbn [device set_byte_count set_packet_count])).
  all: do 3 eexists; split; [reflexivity|].
  all: cbn [running device backend _setup_complete traffic_thread
            packet_count byte_count set_byte_count set_packet_count].
  all: unfold len; repeat split; auto; try lia; congruence.
Qed.

(** ** The loop as a whole *)

Section Loop.
Context {R : Type}.
Variables (ep_out ep_in : option Endpoint).

Let body : Tick -> Py.t R unit := loop_body ep_out ep_in.

Lemma while_not_running (ticks : list Tick) (s : Session) :
  running s = false -> while_running ticks body s = (Normal tt, s, []).
Proof. intros H. destruct ticks; cbn [while_running]; rewrite H; reflexivity. Qed.

(** An iteration that ends normally hands over to the rest of the loop. *)
Lemma while_continue (tk : Tick) (ticks : list Tick) (s s1 : Session) (t1 : Trace) :
  running s = true ->
  body tk s = (Normal tt, s1, t1) ->
  while_running (tk :: ticks) body s
  = (let '(c, s2, t2) := while_running ticks body s1 in (c, s2, t1 ++ t2)).
Proof. intros Hr Hb. cbn [while_running]. rewrite Hr, Hb. reflexivity. Qed.

(** An iteration that ends by [break] ends the loop, whatever is left of the
    script. *)
Lemma while_break (tk : Tick) (ticks : list Tick) (s s1 : Session) (t1 : Trace) :
  running s = true ->
  body tk s = (Break_, s1, t1) ->
  while_running (tk :: ticks) body s = (Normal tt, s1, t1).
Proof. intros Hr Hb. cbn [while_running]. rewrite Hr, Hb. reflexivity. Qed.

(** The loop either is left normally or is still going when the script
    ends; it only moves the counters, and only upwards. *)
Lemma while_running_inv (ticks : list Tick) : forall s,
  exists c s1 t1,
    while_running ticks body s = (c, s1, t1)
    /\ (c = Normal tt \/ c = Pending)
    /\ running s1 = running s
    /\ same_handles s s1
    /\ counters_le s s1.
Proof.
  induction ticks as [|tk ticks IH]; intros s.
  - cbn [while_running]. destruct (running s) eqn:Hr;
      do 3 eexists; (split; [reflexivity|]); auto 7 with session.
  - destruct (running s) eqn:Hr.
    + destruct (loop_body_inv (R:=R) ep_out ep_in tk s)
        as (c & s1 & t1 & Hb & [->| ->] & Hr1 & Hh1 & Hc1).
      * rewrite (while_continue _ _ _ _ _ Hr Hb).
        destruct (IH s1) as (c2 & s2 & t2 & -> & Hc & Hr2 & Hh2 & Hc2).
        do 3 eexists. split; [reflexivity|].
        split; [exact Hc|]. split; [congruence|].
        eauto using same_handles_trans, counters_le_trans.
      * rewrite (while_break _ _ _ _ _ Hr Hb).
        do 3 eexists. split; [reflexivity|].
        split; [now left|]. split; [congruence|]. auto.
    + rewrite (while_not_running _ _ Hr).
      do 3 eexists. split; [reflexivity|]. rewrite Hr. auto 7 with session.
Qed.
End Loop.

(** ** [generate_traffic] around its loop *)

Section Traffic.
Variables (s : Session) (d : Device) (cfg : Configuration) (intf : Interface).
Variable diag : option Endpoint -> option Endpoint -> Py.t unit unit.
Hypothesis Hdev : device s = Some d.
Hypothesis Hcfg : get_active_configuration d = Ok cfg.
Hypothesis Hintf : getitem cfg (0, 0) = Ok intf.

Lemma generate_traffic_no_out (ticks : list Tick) :
  fst (scan_endpoints intf) = None ->
  generate_traffic_with diag ticks s
  = (Returned tt, set_running false s,
     [Ext c_get_active_configuration; Log ERROR "No output endpoint found";
      NoOutputEndpoint; Log INFO "Traffic stopped"]).
Proof.
  intros Hscan. unfold generate_traffic_with. py_red.
  rewrite Hdev. py_red. rewrite Hdev, Hcfg. py_red. rewrite Hintf.
  destruct (scan_endpoints intf) as [ep_out ep_in]. cbn [fst] in Hscan.
  subst ep_out. reflexivity.
Qed.

Section Scanned.
Variables (o : Endpoint) (ep_in : option Endpoint) (ticks : list Tick).
Hypothesis Hscan : scan_endpoints intf = (Some o, ep_in).

Lemma generate_traffic_left (s1 : Session) (t1 : Trace) :
  while_running (R:=unit) ticks (loop_body (Some o) ep_in) s = (Normal tt, s1, t1) ->
  generate_traffic_with diag ticks s
  = (Returned tt, set_running false s1,
     traffic_prologue ++ t1 ++ traffic_epilogue).
Proof.
  intros Hloop. unfold generate_traffic_with. py_red.
  rewrite Hdev. py_red. rewrite Hdev, Hcfg. py_red.
  rewrite Hintf, Hscan, Hloop. reflexivity.
Qed.

Lemma generate_traffic_looping (s1 : Session) (t1 : Trace) :
  while_running (R:=unit) ticks (loop_body (Some o) ep_in) s = (Pending, s1, t1) ->
  generate_traffic_with diag ticks s = (Looping, s1, traffic_prologue ++ t1).
Proof.
  intros Hloop. unfold generate_traffic_with. py_red.
  rewrite Hdev. py_red. rewrite Hdev, Hcfg. py_red.
  rewrite Hintf, Hscan, Hloop. reflexivity.
Qed.
End Scanned.
End Traffic.

(** ** Scripts in two parts *)

Section Split.
Context {R : Type}.
Variables (ep_out ep_in : option Endpoint).

Let body : Tick -> Py.t R unit := loop_body ep_out ep_in.

(** A loop that is still going has its flag set. *)
Lemma while_pending_running (ticks : list Tick) (s s1 : Session) (t1 : Trace) :
  while_running ticks body s = (Pending, s1, t1) -> running s1 = true.
Proof.
  unfold body. intros H.
  destruct (while_running_inv (R:=R) ep_out ep_in ticks s)
    as (c & s' & t' & E & _ & Hr & _).
  rewrite H in E. injection E as <- <- <-.
  destruct (running s) eqn:Hs; [congruence|].
  rewrite (while_not_running _ _ _ _ Hs) in H. discriminate.
Qed.

(** When the loop is still going at the end of a first script, a longer
    script carries on from there. *)
Lemma while_app (pre post : list Tick) : forall (s s0 : Session) (t0 : Trace),
  while_running pre body s = (Pending, s0, t0) ->
  while_running (pre ++ post) body s
  = (let '(c, s2, t2) := while_running post body s0 in (c, s2, t0 ++ t2)).
Proof.
  induction pre as [|tk pre IH]; intros s s0 t0 H.
  - cbn [while_running] in H. destruct (running s); [|discriminate].
    injection H as <- <-. cbn [app].
    destruct (while_running post body s) as [[c s2] t2]. reflexivity.
  - cbn [app]. cbn [while_running] in H |- *.
    destruct (running s); [|discriminate].
    destruct (loop_body_inv (R:=R) ep_out ep_in tk s)
      as (c & s1 & t1 & Hb & [->| ->] & _).
    2: { unfold body in H |- *. rewrite Hb in H. discriminate. }
    unfold body in H, IH |- *. rewrite Hb in H |- *.
    destruct (while_running pre _ s1) as [[c' s'] t'] eqn:E.
    injection H as -> <- <-.
    rewrite (IH _ _ _ E).
    destruct (while_running post _ s') as [[c2 s2] t2].
    rewrite app_assoc. reflexivity.
Qed.
End Split.

(** ** Claims about [generate_traffic] *)

Lemma generate_traffic_no_device (ticks : list Tick) (s : Session) :
  device s = None ->
  generate_traffic ticks s = (Returned tt, s, [Log ERROR "No device found"]).
Proof.
  intros H. unfold generate_traffic, generate_traffic_with. py_red.
  rewrite H. reflexivity.
Qed.

(** C9: called on a session that holds no device, [generate_traffic] logs
    "No device found" and returns at once; the session is left exactly as it
    was: the counters, the device handle and also the running flag, because
    the early return stands before the [try] whose [finally] clears it. *)
Theorem C9_no_device_returns_unchanged (ticks : list Tick) (s : Session) :
  device s = None ->
  generate_traffic ticks s = (Returned tt, s, [Log ERROR "No device found"])
  /\ running (session_of (generate_traffic ticks s)) = running s.
Proof.
  intros H. pose proof (generate_traffic_no_device ticks s H) as E.
  split; [exact E|]. rewrite E. reflexivity.
Qed.

Lemma C9_no_device_returns_unchanged_witness :
  generate_traffic [] (set_running true __init__)
  = (Returned tt, set_running true __init__, [Log ERROR "No device found"])
  /\ running (session_of (generate_traffic [] (set_running true __init__))) = true.
Proof.
  apply (C9_no_device_returns_unchanged [] (set_running true __init__)). reflexivity.
Defined.

(** C8: the diagnostic statement about the chosen endpoints stands after the
    [return] of the branch taken when no OUT endpoint was found and is never
    executed: whatever statement is put in its place, on every script and
    every session [generate_traffic] does the same. *)
Theorem C8_endpoint_diagnostic_unreachable
  (diag : option Endpoint -> option Endpoint -> Py.t unit unit)
  (ticks : list Tick) (s : Session) :
  generate_traffic_with diag ticks s = generate_traffic ticks s.
Proof.
  unfold generate_traffic, generate_traffic_with. py_red.
  destruct (device s) as [d|]; [|reflexivity]. py_red.
  destruct (get_active_configuration d) as [cfg|e]; [|reflexivity]. py_red.
  destruct (getitem cfg (0, 0)) as [intf|e]; [|reflexivity].
  destruct (scan_endpoints intf) as [[o|] ep_in].
  - (* an OUT endpoint was found: the branch is not taken *)
    reflexivity.
  - (* none was found: [return] ends the block before [diag] is reached *)
    reflexivity.
Qed.

(** C2: when the active interface of the session's device has no bulk OUT
    endpoint, [generate_traffic] shows the "No output endpoint found" error
    and returns without entering the transfer loop: the script is not
    consulted, nothing is written, and both counters keep their values. *)
Theorem C2_no_out_endpoint
  (s : Session) (d : Device) (cfg : Configuration) (intf : Interface)
  (ticks : list Tick) :
  device s = Some d ->
  get_active_configuration d = Ok cfg ->
  getitem cfg (0, 0) = Ok intf ->
  filter is_bulk_out intf = [] ->
  generate_traffic ticks s
  = (Returned tt, set_running false s,
     [Ext c_get_active_configuration; Log ERROR "No output endpoint found";
      NoOutputEndpoint; Log INFO "Traffic stopped"])
  /\ In NoOutputEndpoint (trace_of (generate_traffic ticks s))
  /\ ~ In (Log INFO "Starting traffic generation") (trace_of (generate_traffic ticks s))
  /\ existsb is_write (trace_of (generate_traffic ticks s)) = false
  /\ packet_count (session_of (generate_traffic ticks s)) = packet_count s
  /\ byte_count (session_of (generate_traffic ticks s)) = byte_count s.
Proof.
  intros Hdev Hcfg Hintf Hnone.
  assert (Hscan : fst (scan_endpoints intf) = None).
  { rewrite scan_endpoints_last. cbn [fst].
    apply last_such_none. exact Hnone. }
  pose proof (generate_traffic_no_out s d cfg intf endpoint_diagnostic
                Hdev Hcfg Hintf ticks Hscan) as E.
  fold (generate_traffic ticks) in E. rewrite E.
  split; [reflexivity|]. cbn [trace_of session_of fst snd].
  split; [cbn; tauto|].
  split; [|repeat split].
  cbn [In]. intros [H|[H|[H|[H|[]]]]]; discriminate.
Qed.

(** The bytes of a packet. *)
Lemma random_packet_length (tk : Tick) : List.length (random_packet tk) = 64%nat.
Proof. unfold random_packet. rewrite length_map, length_seq. reflexivity. Qed.

Lemma random_packet_bytes (tk : Tick) :
  Forall (fun b => 0 <= b < 256) (random_packet tk).
Proof.
  unfold random_packet. apply Forall_forall. intros b Hb.
  apply in_map_iff in Hb. destruct Hb as (i & <- & _).
  unfold getrandbits. change (2 ^ 8) with 256. apply Z.mod_pos_bound. lia.
Qed.

Lemma while_full_iterations {R} (o i : Endpoint) (ticks : list Tick) : forall s d,
  device s = Some d ->
  running s = true ->
  Forall (full_iteration o i) ticks ->
  exists s1 t1,
    while_running (R:=R) ticks (loop_body (Some o) (Some i)) s = (Pending, s1, t1)
    /\ packet_count s1 = packet_count s + len ticks
    /\ byte_count s1 = byte_count s + 128 * len ticks.
Proof.
  induction ticks as [|tk ticks IH]; intros s d Hdev Hrun Hall.
  - cbn [while_running]. rewrite Hrun. do 2 eexists.
    split; [reflexivity|]. unfold len. cbn [List.length]. lia.
  - inversion Hall as [|? ? (Hw & data_in & Hr & Hlen) Hrest]; subst.
    pose proof (loop_body_read_ok (R:=R) s d o tk Hdev i 64%N Hw data_in Hr) as Hb.
    rewrite (while_continue _ _ _ _ _ _ _ Hrun Hb).
    destruct (IH (count (Z.of_N 64) (len data_in) s) d)
      as (s1 & t1 & -> & Hp & Hbytes); [exact Hdev|exact Hrun|exact Hrest|].
    do 2 eexists. split; [reflexivity|].
    rewrite Hp, Hbytes. unfold count, len in *.
    cbn [packet_count byte_count set_byte_count set_packet_count List.length].
    lia.
Qed.

(** C3: every packet is 64 bytes drawn from the random source; an iteration
    in which the write (and, with an IN endpoint, the read) succeeds adds 1 to
    [packet_count] and adds to [byte_count] the number of bytes written plus,
    with an IN endpoint, the number of bytes read; so after N iterations that
    each write and read 64 bytes the counters have grown by N and by 128*N,
    which from a fresh session makes them N and 128*N. *)
Theorem C3_counters_per_iteration
  (s : Session) (d : Device) (cfg : Configuration) (intf : Interface)
  (o : Endpoint) (ep_in : option Endpoint) :
  device s = Some d ->
  running s = true ->
  get_active_configuration d = Ok cfg ->
  getitem cfg (0, 0) = Ok intf ->
  scan_endpoints intf = (Some o, ep_in) ->
  (forall tk,
     List.length (random_packet tk) = 64%nat
     /\ Forall (fun b => 0 <= b < 256) (random_packet tk)
     /\ forall k, (k < 64)%nat ->
          nth k (random_packet tk) 0 = getrandbits 8 (getrandbits_raw tk k))
  /\ (forall tk n received,
        write tk (bEndpointAddress o) (random_packet tk) 1000 = Ok n ->
        match ep_in with
        | Some i => exists data_in,
                      read tk (bEndpointAddress i) 64 1000 = Ok data_in
                      /\ received = len data_in
        | None => received = 0
        end ->
        exists s1 t1,
          loop_body (R:=unit) (Some o) ep_in tk s = (Normal tt, s1, t1)
          /\ In (Ext (c_write (bEndpointAddress o) (random_packet tk) 1000)) t1
          /\ packet_count s1 = packet_count s + 1
          /\ byte_count s1 = byte_count s + Z.of_N n + received)
  /\ (forall i ticks,
        ep_in = Some i ->
        Forall (full_iteration o i) ticks ->
        exists s1 t1,
          generate_traffic ticks s = (Looping, s1, t1)
          /\ packet_count s1 = packet_count s + len ticks
          /\ byte_count s1 = byte_count s + 128 * len ticks
          /\ (packet_count s = 0 -> byte_count s = 0 ->
              packet_count s1 = len ticks /\ byte_count s1 = 128 * len ticks)).
Proof.
  intros Hdev Hrun Hcfg Hintf Hscan. split; [|split].
  - intros tk. split; [apply random_packet_length|].
    split; [apply random_packet_bytes|].
    intros k Hk. unfold random_packet.
    set (f := fun i => getrandbits 8 (getrandbits_raw tk i)).
    rewrite (nth_indep _ 0 (f 0%nat))
      by (rewrite length_map, length_seq; exact Hk).
    rewrite map_nth, seq_nth by exact Hk. reflexivity.
  - intros tk n received Hw Hin. destruct ep_in as [i|].
    + destruct Hin as (data_in & Hr & ->).
      rewrite (loop_body_read_ok s d o tk Hdev i n Hw data_in Hr).
      do 2 eexists. split; [reflexivity|].
      split; [left; reflexivity|]. split; reflexivity.
    + subst received. rewrite (loop_body_no_in s d o tk Hdev n Hw).
      do 2 eexists. split; [reflexivity|].
      split; [left; reflexivity|]. split; reflexivity.
  - intros i ticks -> Hall.
    destruct (while_full_iterations (R:=unit) o i ticks s d Hdev Hrun Hall)
      as (s1 & t1 & Hloop & Hp & Hb).
    exists s1, (traffic_prologue ++ t1). split.
    + apply (generate_traffic_looping s d cfg intf endpoint_diagnostic
               Hdev Hcfg Hintf o (Some i) ticks Hscan s1 t1 Hloop).
    + repeat split; lia.
Qed.

(** The three ways a transfer can fail, at any iteration that the loop
    reaches with the flag set.  A read that raises a [USBError] whose [errno]
    is -7 passes the test [e.errno != -7]: the iteration completes, the flag
    stays set and the next iteration starts from there.  A read that fails in
    any other way, and a write that fails in any way, ends the loop in that
    very iteration, whatever the rest of the script holds, and
    [generate_traffic] returns with the running flag cleared. *)
Lemma transfer_errors_at_any_iteration
  (s : Session) (d : Device) (cfg : Configuration) (intf : Interface)
  (o : Endpoint) (ep_in : option Endpoint)
  (pre rest : list Tick) (tk : Tick) (s0 : Session) (t0 : Trace) :
  device s = Some d ->
  get_active_configuration d = Ok cfg ->
  getitem cfg (0, 0) = Ok intf ->
  scan_endpoints intf = (Some o, ep_in) ->
  while_running (R:=unit) pre (loop_body (Some o) ep_in) s = (Pending, s0, t0) ->
  (forall i n text,
     ep_in = Some i ->
     write tk (bEndpointAddress o) (random_packet tk) 1000 = Ok n ->
     read tk (bEndpointAddress i) 64 1000 = Err (USBError (Some (-7)) text) ->
     exists t1,
       generate_traffic (pre ++ [tk]) s
       = (Looping, count (Z.of_N n) 0 s0, traffic_prologue ++ t0 ++ t1)
       /\ running (count (Z.of_N n) 0 s0) = true
       /\ while_running (R:=unit) (pre ++ tk :: rest) (loop_body (Some o) ep_in) s
          = (let '(c, s2, t2) :=
               while_running rest (loop_body (Some o) ep_in) (count (Z.of_N n) 0 s0)
             in (c, s2, t0 ++ t1 ++ t2)))
  /\ (forall i n e,
        ep_in = Some i ->
        write tk (bEndpointAddress o) (random_packet tk) 1000 = Ok n ->
        read tk (bEndpointAddress i) 64 1000 = Err e ->
        (forall text, e <> USBError (Some (-7)) text) ->
        generate_traffic (pre ++ tk :: rest) s
        = (Returned tt, set_running false (count (Z.of_N n) 0 s0),
           traffic_prologue
           ++ (t0 ++ [Ext (c_write (bEndpointAddress o) (random_packet tk) 1000);
                      sent_line s0 n;
                      Ext (c_read (bEndpointAddress i) 64 1000);
                      loop_error_line e])
           ++ traffic_epilogue))
  /\ (forall e,
        write tk (bEndpointAddress o) (random_packet tk) 1000 = Err e ->
        generate_traffic (pre ++ tk :: rest) s
        = (Returned tt, set_running false s0,
           traffic_prologue
           ++ (t0 ++ [Ext (c_write (bEndpointAddress o) (random_packet tk) 1000);
                      loop_error_line e])
           ++ traffic_epilogue)).
Proof.
  intros Hdev Hcfg Hintf Hscan Hpre.
  assert (Hrun0 : running s0 = true)
    by exact (while_pending_running _ _ _ _ _ _ Hpre).
  assert (Hdev0 : device s0 = Some d).
  { destruct (while_running_inv (R:=unit) (Some o) ep_in pre s)
      as (c & s' & t' & E & _ & _ & (Hd & _) & _).
    rewrite Hpre in E. injection E as <- <- <-. congruence. }
  split; [|split].
  - intros i n text -> Hw Hr.
    pose proof (loop_body_read_ignored (R:=unit) s0 d o tk Hdev0 i n Hw text Hr) as Hb.
    eexists. split; [|split].
    + apply (generate_traffic_looping s d cfg intf endpoint_diagnostic
               Hdev Hcfg Hintf o (Some i) (pre ++ [tk]) Hscan).
      rewrite (while_app _ _ _ _ _ _ _ Hpre).
      rewrite (while_continue _ _ _ _ _ _ _ Hrun0 Hb).
      cbn [while_running]. cbn [running count set_byte_count set_packet_count].
      rewrite Hrun0, app_nil_r. reflexivity.
    + exact Hrun0.
    + rewrite (while_app _ _ _ _ _ _ _ Hpre).
      rewrite (while_continue _ _ _ _ _ _ _ Hrun0 Hb).
      destruct (while_running rest _ _) as [[c s2] t2]. reflexivity.
  - intros i n e -> Hw Hr Hne.
    pose proof (loop_body_read_error (R:=unit) s0 d o tk Hdev0 i n Hw e Hr Hne) as Hb.
    apply (generate_traffic_left s d cfg intf endpoint_diagnostic
             Hdev Hcfg Hintf o (Some i) (pre ++ tk :: rest) Hscan).
    rewrite (while_app _ _ _ _ _ _ _ Hpre).
    rewrite (while_break _ _ _ _ _ _ _ Hrun0 Hb). reflexivity.
  - intros e Hw.
    pose proof (loop_body_write_error (R:=unit) s0 d o tk Hdev0 ep_in e Hw) as Hb.
    apply (generate_traffic_left s d cfg intf endpoint_diagnostic
             Hdev Hcfg Hintf o ep_in (pre ++ tk :: rest) Hscan).
    rewrite (while_app _ _ _ _ _ _ _ Hpre).
    rewrite (while_break _ _ _ _ _ _ _ Hrun0 Hb). reflexivity.
Qed.

(** C1 (a defect of the code): a read that times out ends the loop.  The
    handler of the read is written to pass over timeouts
    ([if e.errno != -7:  # Ignore timeout errors]), but the [errno] of the
    exception PyUSB raises for a timed-out transfer is the platform's
    [ETIMEDOUT], a positive number, or [None]; -7 is libusb's code, kept in
    another attribute.  So the test holds of every timeout: the exception is
    raised again, the handler of the loop logs it and breaks, and
    [generate_traffic] returns in that very iteration, whatever the rest of
    the script holds, with the packet counted, the error logged and the
    running flag cleared. *)
Theorem C1_timed_out_read_ends_the_loop
  (s : Session) (d : Device) (cfg : Configuration) (intf : Interface)
  (o i : Endpoint) (pre rest : list Tick) (tk : Tick)
  (s0 : Session) (t0 : Trace) (etimedout : option Z) (n : N) :
  device s = Some d ->
  get_active_configuration d = Ok cfg ->
  getitem cfg (0, 0) = Ok intf ->
  scan_endpoints intf = (Some o, Some i) ->
  while_running (R:=unit) pre (loop_body (Some o) (Some i)) s = (Pending, s0, t0) ->
  (forall m, etimedout = Some m -> 0 < m) ->
  write tk (bEndpointAddress o) (random_packet tk) 1000 = Ok n ->
  read tk (bEndpointAddress i) 64 1000 = Err (USBTimeoutError etimedout) ->
  errno (USBTimeoutError etimedout) <> Some LIBUSB_ERROR_TIMEOUT
  /\ generate_traffic (pre ++ tk :: rest) s
     = (Returned tt, set_running false (count (Z.of_N n) 0 s0),
        traffic_prologue
        ++ (t0 ++ [Ext (c_write (bEndpointAddress o) (random_packet tk) 1000);
                   sent_line s0 n;
                   Ext (c_read (bEndpointAddress i) 64 1000);
                   Log ERROR
                     (fmt ["USB Error: "; str (USBTimeoutError etimedout)])])
        ++ traffic_epilogue)
  /\ running (set_running false (count (Z.of_N n) 0 s0)) = false
  /\ packet_count (set_running false (count (Z.of_N n) 0 s0)) = packet_count s0 + 1.
Proof.
  intros Hdev Hcfg Hintf Hscan Hpre Hpos Hw Hr.
  assert (Hne : forall text, USBTimeoutError etimedout <> USBError (Some (-7)) text).
  { intros text E. unfold USBTimeoutError in E. injection E as E _.
    specialize (Hpos _ E). lia. }
  split; [|split; [|split]].
  - unfold USBTimeoutError, LIBUSB_ERROR_TIMEOUT. cbn [errno].
    intros E. specialize (Hpos _ E). lia.
  - destruct (transfer_errors_at_any_iteration s d cfg intf o (Some i) pre rest tk s0 t0
                Hdev Hcfg Hintf Hscan Hpre) as (_ & Hread & _).
    rewrite (Hread i n (USBTimeoutError etimedout) eq_refl Hw Hr Hne).
    reflexivity.
  - reflexivity.
  - reflexivity.
Qed.

(** ** [find_device] *)

Lemma for_each_emit {R X} (ev : X -> Event) (xs : list X) : forall s,
  for_each (R:=R) xs (fun x s0 => (Normal tt, s0, [ev x])) s
  = (Normal tt, s, map ev xs).
Proof.
  induction xs as [|x xs IH]; intros s; [reflexivity|].
  cbn [for_each map]. rewrite IH. reflexivity.
Qed.

Ltac find_red :=
  unfold find_device, usb_core_find_all, usb_core_find; py_red.

Section Found.
Variables (w : World) (s : Session) (devs : list Device).
Hypothesis Hready : _setup_complete s = true.
Hypothesis Henum : enumerate_devices w (backend s) = Ok devs.

Lemma find_device_absent :
  List.find (matches LUMIDIGM_VID LUMIDIGM_PID) devs = None ->
  find_device w s
  = (Returned false, set_device None s,
     search_trace devs ++ [Log ERROR "Lumidigm device not found"; DeviceNotFound]).
Proof.
  intros Hfind. find_red. rewrite Hready. py_red. rewrite Henum.
  rewrite (for_each_emit device_line). py_red. rewrite Henum, Hfind.
  session_red. py_red. unfold search_trace. trace_norm. reflexivity.
Qed.

Section Present.
Variable d : Device.
Hypothesis Hfind : List.find (matches LUMIDIGM_VID LUMIDIGM_PID) devs = Some d.

Lemma find_device_windows :
  platform_system w = "Windows" ->
  find_device w s
  = (Returned (configures w d), set_device (Some d) s,
     search_trace devs ++ found_line :: windows_trace d).
Proof.
  intros Hwin. unfold configures, is_windows. find_red.
  rewrite Hready. py_red. rewrite Henum.
  rewrite (for_each_emit device_line). py_red. rewrite Henum, Hfind.
  session_red. py_red. rewrite Hwin. cbn [String.eqb Ascii.eqb Bool.eqb].
  py_red. session_red.
  unfold search_trace, windows_trace, reset_trace, configure_trace,
    configuration_failed_trace, found_line.
  destruct (reset d) as [[]|e1]; py_red; session_red;
    destruct (set_configuration d) as [[]|[code text|cls text]];
    trace_norm; reflexivity.
Qed.

Lemma find_device_other_platform :
  String.eqb (platform_system w) "Windows" = false ->
  find_device w s
  = (Returned (configures w d), set_device (Some d) s,
     search_trace devs ++ found_line :: other_platform_trace d).
Proof.
  intros Hwin. unfold configures, is_windows. find_red.
  rewrite Hready. py_red. rewrite Henum.
  rewrite (for_each_emit device_line). py_red. rewrite Henum, Hfind.
  session_red. py_red. rewrite Hwin. py_red. session_red.
  unfold search_trace, other_platform_trace, configure_trace,
    configuration_failed_trace, found_line, is_ok.
  destruct (is_kernel_driver_active d 0) as [[|]|e1]; py_red; session_red;
    [destruct (detach_kernel_driver d 0) as [[]|e2]; py_red; session_red| |];
    try destruct (set_configuration d) as [[]|e3];
    trace_norm; reflexivity.
Qed.
End Present.
End Found.

(** ** [setup_backend] *)


(** [setup_backend] always comes back; it touches only the backend and the
    "setup complete" flag, and answers [True] only with the flag set. *)
Lemma setup_backend_inv (w : World) (s : Session) :
  exists r s1 t1,
    setup_backend w s = (Returned r, s1, t1)
    /\ (r = true -> _setup_complete s1 = true /\ existsb is_showerror t1 = false)
    /\ running s1 = running s
    /\ device s1 = device s
    /\ packet_count s1 = packet_count s
    /\ byte_count s1 = byte_count s
    /\ existsb is_enumeration t1 = false.
Proof.
  unfold setup_backend. py_red.
  unfold libusb_paths. cbn [for_each]. py_red.
  repeat (case_stuck; py_red; session_red).
  all: do 3 eexists; split; [reflexivity|]; session_red.
  all: repeat split; auto; discriminate.
Qed.

(** A session whose backend is not set up yet sets it up first and, when that
    succeeds, goes on as a session whose backend is set up. *)
Lemma find_device_sets_up (w : World) (s s1 : Session) (t1 : Trace) :
  _setup_complete s = false ->
  setup_backend w s = (Returned true, s1, t1) ->
  find_device w s
  = (let '(c, s2, t2) := find_device w s1 in
     (c, s2, Log INFO "Searching for Lumidigm device" :: t1 ++ tl t2)).
Proof.
  intros Hs Hsetup.
  assert (Hs1 : _setup_complete s1 = true).
  { destruct (setup_backend_inv w s) as (r & s' & t' & E & Htrue & _).
    rewrite Hsetup in E. injection E as <- <- <-. apply Htrue. reflexivity. }
  find_red. rewrite Hs, Hs1. py_red. rewrite Hsetup. py_red.
  destruct (enumerate_devices w (backend s1)) as [devs|e] eqn:Henum; py_red.
  2: { trace_norm. reflexivity. }
  rewrite (for_each_emit device_line). py_red. rewrite Henum. session_red.
  destruct (List.find (matches LUMIDIGM_VID LUMIDIGM_PID) devs) as [d|];
    py_red; session_red.
  2: { rewrite ?app_nil_r. trace_norm. reflexivity. }
  repeat (case_stuck; py_red; session_red).
  all: rewrite ?app_nil_r; trace_norm; reflexivity.
Qed.

Lemma find_device_setup_fails (w : World) (s s1 : Session) (t1 : Trace) :
  _setup_complete s = false ->
  setup_backend w s = (Returned false, s1, t1) ->
  find_device w s
  = (Returned false, s1, Log INFO "Searching for Lumidigm device" :: t1).
Proof.
  intros Hs Hsetup. find_red. rewrite Hs. py_red. rewrite Hsetup.
  py_red. cbn [app]. rewrite !app_nil_r. reflexivity.
Qed.

(** ** A backend that is or gets ready *)

Lemma find_device_starts (w : World) (s : Session) :
  exists c s2 t2,
    find_device w s = (c, s2, Log INFO "Searching for Lumidigm device" :: t2).
Proof.
  unfold find_device, def, log, emit.
  unfold bind at 1.
  match goal with
  | |- context [try_except ?b ?h s] => destruct (try_except b h s) as [[c s2] t2]
  end.
  destruct c; do 3 eexists; reflexivity.
Qed.

Lemma backend_ready_spec (w : World) (s s1 : Session) (t1 : Trace) :
  backend_ready w s s1 t1 ->
  _setup_complete s1 = true
  /\ existsb is_showerror t1 = false
  /\ running s1 = running s
  /\ packet_count s1 = packet_count s
  /\ byte_count s1 = byte_count s
  /\ find_device w s
     = (let '(c, s2, t2) := find_device w s1 in
        (c, s2, Log INFO "Searching for Lumidigm device" :: t1 ++ tl t2)).
Proof.
  intros [(Hs & -> & ->)|(Hs & Hsetup)].
  - repeat (split; [auto|]).
    destruct (find_device_starts w s) as (c & s2 & t2 & ->). reflexivity.
  - destruct (setup_backend_inv w s)
      as (r & s' & t' & E & Htrue & Hrun & _ & Hp & Hb & _).
    rewrite Hsetup in E. injection E as <- <- <-.
    destruct (Htrue eq_refl) as [H1 H2].
    repeat (split; [auto|]).
    apply find_device_sets_up; assumption.
Qed.

(** Nothing is shown to the user during the search. *)
Lemma existsb_map_false {A B} (f : B -> bool) (g : A -> B) (l : list A) :
  (forall a, f (g a) = false) -> existsb f (map g l) = false.
Proof.
  intros H. induction l as [|a l IH]; [reflexivity|].
  cbn [map existsb]. rewrite H, IH. reflexivity.
Qed.

Lemma search_trace_quiet (devs : list Device) :
  existsb is_showerror (search_trace devs) = false.
Proof.
  unfold search_trace. rewrite !existsb_app.
  rewrite (existsb_map_false is_showerror device_line) by reflexivity.
  reflexivity.
Qed.

Lemma matches_exact (vid pid : Z) (d : Device) :
  matches vid pid d = true <-> idVendor d = vid /\ idProduct d = pid.
Proof.
  unfold matches. rewrite andb_true_iff, !Z.eqb_eq. reflexivity.
Qed.

Lemma is_windows_true (w : World) :
  is_windows w = true <-> platform_system w = "Windows".
Proof. apply String.eqb_eq. Qed.

(** A started session with a device and an OUT endpoint enters the loop: the
    first thing [generate_traffic] does there is the write of a packet. *)
Lemma loop_body_writes_first {R} (s : Session) (d : Device) (o : Endpoint)
    (ep_in : option Endpoint) (tk : Tick) :
  device s = Some d ->
  exists c s1 t1,
    loop_body (R:=R) (Some o) ep_in tk s
    = (c, s1, Ext (c_write (bEndpointAddress o) (random_packet tk) 1000) :: t1).
Proof.
  intros Hdev. unfold loop_body. py_red. rewrite Hdev. py_red.
  repeat (case_stuck; py_red; session_red).
  all: do 3 eexists; reflexivity.
Qed.

Lemma generate_traffic_enters_loop
    (s : Session) (d : Device) (cfg : Configuration) (intf : Interface)
    (o : Endpoint) (ep_in : option Endpoint) (tk : Tick) (ticks : list Tick) :
  device s = Some d ->
  running s = true ->
  get_active_configuration d = Ok cfg ->
  getitem cfg (0, 0) = Ok intf ->
  scan_endpoints intf = (Some o, ep_in) ->
  In (Ext (c_write (bEndpointAddress o) (random_packet tk) 1000))
     (trace_of (generate_traffic (tk :: ticks) s)).
Proof.
  intros Hdev Hrun Hcfg Hintf Hscan.
  destruct (loop_body_writes_first (R:=unit) s d o ep_in tk Hdev)
    as (c & s1 & t1 & Hb).
  destruct (while_running_inv (R:=unit) (Some o) ep_in (tk :: ticks) s)
    as (c' & s' & t' & Hloop & Hc & _).
  assert (Hin : In (Ext (c_write (bEndpointAddress o) (random_packet tk) 1000)) t').
  { cbn [while_running] in Hloop. rewrite Hrun, Hb in Hloop.
    destruct c; try (injection Hloop as <- <- <-; left; reflexivity).
    destruct (while_running ticks _ s1) as [[c2 s2] t2].
    injection Hloop as <- <- <-. left. reflexivity. }
  unfold generate_traffic. destruct Hc as [->| ->].
  - rewrite (generate_traffic_left s d cfg intf _ Hdev Hcfg Hintf o ep_in _
               Hscan s' t' Hloop).
    cbn [trace_of snd]. in_trace.
  - rewrite (generate_traffic_looping s d cfg intf _ Hdev Hcfg Hintf o ep_in _
               Hscan s' t' Hloop).
    cbn [trace_of snd]. in_trace.
Qed.

(** ** Counting in traces *)

Lemma filter_map_none {A B} (f : B -> bool) (g : A -> B) (l : list A) :
  (forall a, f (g a) = false) -> filter f (map g l) = [].
Proof.
  intros H. induction l as [|a l IH]; [reflexivity|].
  cbn [map filter]. rewrite H. exact IH.
Qed.

Lemma occurrences_app {E} (p : E -> bool) (t1 t2 : list E) :
  occurrences p (t1 ++ t2) = (occurrences p t1 + occurrences p t2)%nat.
Proof. unfold occurrences. rewrite filter_app, length_app. reflexivity. Qed.

Lemma occurrences_cons {E} (p : E -> bool) (e : E) (tr : list E) :
  occurrences p (e :: tr) = ((if p e then 1 else 0) + occurrences p tr)%nat.
Proof. unfold occurrences. cbn [filter]. destruct (p e); reflexivity. Qed.

Lemma occurrences_map_none {A E} (p : E -> bool) (g : A -> E) (l : list A) :
  (forall a, p (g a) = false) -> occurrences p (map g l) = 0%nat.
Proof. intros H. unfold occurrences. rewrite filter_map_none by exact H. reflexivity. Qed.

Lemma occurrences_none_iff {E} (p : E -> bool) (tr : list E) :
  occurrences p tr = 0%nat <-> existsb p tr = false.
Proof.
  unfold occurrences. induction tr as [|e tr IH]; cbn [filter existsb]; [tauto|].
  destruct (p e); cbn [List.length orb]; [split; discriminate|exact IH].
Qed.

(** Counting the events of a class in a trace built from known pieces and
    lines of the device list. *)
Ltac count_trace :=
  repeat (rewrite occurrences_app || rewrite occurrences_cons
          || rewrite (occurrences_map_none _ device_line) by reflexivity
          || cbn [app]).

(** ** The end of the platform-specific configuration *)

(** The configuration goes through exactly when no exception ends it. *)
Lemma configures_iff (w : World) (d : Device) :
  configures w d = true <-> configuration_failure w d = None.
Proof.
  unfold configures, configuration_failure, is_ok.
  destruct (is_windows w).
  - destruct (set_configuration d) as [[]|[code text|cls text]];
      split; (reflexivity || discriminate).
  - destruct (is_kernel_driver_active d 0) as [[|]|e1];
      [destruct (detach_kernel_driver d 0) as [[]|e2]| |];
      try destruct (set_configuration d) as [[]|e3];
      split; (reflexivity || discriminate).
Qed.

(** When an exception ends the configuration, the handler around the whole of
    [find_device] is the last thing that runs, and nothing is shown before
    it. *)
Lemma platform_trace_failure (w : World) (d : Device) (e : Exn) :
  configuration_failure w d = Some e ->
  exists pre,
    platform_trace w d = pre ++ configuration_failed_trace e
    /\ existsb is_showerror pre = false.
Proof.
  unfold configuration_failure, platform_trace, windows_trace,
    other_platform_trace, reset_trace, configure_trace.
  destruct (is_windows w).
  - destruct (set_configuration d) as [[]|[code text|cls text]];
      try discriminate.
    intros H. injection H as <-.
    exists [Ext c_reset;
            match reset d with
            | Ok _ => Log INFO "Device reset"
            | Err _ => Log WARNING "Device reset failed"
            end; Ext c_set_configuration].
    split; [reflexivity|]. destruct (reset d); reflexivity.
  - destruct (is_kernel_driver_active d 0) as [[|]|e1].
    + destruct (detach_kernel_driver d 0) as [[]|e2].
      * destruct (set_configuration d) as [[]|e3]; try discriminate.
        intros H. injection H as <-.
        eexists [_; _; _; _]. split; reflexivity.
      * intros H. injection H as <-.
        eexists [_; _]. split; reflexivity.
    + destruct (set_configuration d) as [[]|e3]; try discriminate.
      intros H. injection H as <-.
      eexists [_; _]. split; reflexivity.
    + intros H. injection H as <-.
      eexists [_]. split; reflexivity.
Qed.

(** An event of a class is not in a trace that holds none of the class. *)
Lemma existsb_false_not_in {E} (p : E -> bool) (tr : list E) (x : E) :
  existsb p tr = false -> p x = true -> ~ In x tr.
Proof.
  intros Hnone Hx Hin.
  assert (H : existsb p tr = true) by (apply existsb_exists; exists x; auto).
  rewrite Hnone in H. discriminate.
Qed.

(** [find_device] on a bus that holds the device, from the first line of its
    log to the end of the configuration. *)
Lemma find_device_present
    (w : World) (s s1 : Session) (t1 : Trace) (devs : list Device) (d : Device) :
  backend_ready w s s1 t1 ->
  enumerate_devices w (backend s1) = Ok devs ->
  List.find (matches LUMIDIGM_VID LUMIDIGM_PID) devs = Some d ->
  find_device w s
  = (Returned (configures w d), set_device (Some d) s1,
     Log INFO "Searching for Lumidigm device"
     :: t1 ++ tl (search_trace devs) ++ found_line :: platform_trace w d).
Proof.
  intros Hready Henum Hfind.
  destruct (backend_ready_spec w s s1 t1 Hready) as (Hs1 & _ & _ & _ & _ & ->).
  unfold platform_trace. destruct (is_windows w) eqn:Hw.
  - apply is_windows_true in Hw.
    rewrite (find_device_windows w s1 devs Hs1 Henum d Hfind Hw).
    unfold search_trace. cbn [app tl]. reflexivity.
  - rewrite (find_device_other_platform w s1 devs Hs1 Henum d Hfind Hw).
    unfold search_trace. cbn [app tl]. reflexivity.
Qed.

(** Up to the configuration, nothing is shown. *)
Lemma find_device_present_quiet
    (w : World) (s s1 : Session) (t1 : Trace) (devs : list Device) :
  backend_ready w s s1 t1 ->
  existsb is_showerror
    (Log INFO "Searching for Lumidigm device"
     :: t1 ++ tl (search_trace devs) ++ [found_line]) = false.
Proof.
  intros Hready.
  destruct (backend_ready_spec w s s1 t1 Hready) as (_ & Hquiet & _).
  unfold search_trace. cbn [app tl].
  repeat (rewrite existsb_app || cbn [existsb is_showerror orb app]).
  rewrite Hquiet.
  rewrite (existsb_map_false is_showerror device_line) by reflexivity.
  reflexivity.
Qed.

(** When no exception ends the configuration, it shows nothing. *)
Lemma platform_trace_success (w : World) (d : Device) :
  configuration_failure w d = None ->
  existsb is_showerror (platform_trace w d) = false.
Proof.
  unfold configuration_failure, platform_trace, windows_trace,
    other_platform_trace, reset_trace, configure_trace, done_line.
  destruct (is_windows w).
  - destruct (reset d); destruct (set_configuration d) as [[]|[code text|cls text]];
      (discriminate || reflexivity).
  - destruct (is_kernel_driver_active d 0) as [[|]|e1];
      [destruct (detach_kernel_driver d 0) as [[]|e2]| |];
      try destruct (set_configuration d) as [[]|e3];
      (discriminate || reflexivity).
Qed.

(** The trace of [find_device] on a bus that holds the device, split after
    the line that says so. *)
Lemma found_line_split (t1 tail : Trace) (devs : list Device) :
  Log INFO "Searching for Lumidigm device"
  :: t1 ++ tl (search_trace devs) ++ found_line :: tail
  = (Log INFO "Searching for Lumidigm device"
     :: t1 ++ tl (search_trace devs) ++ [found_line]) ++ tail.
Proof. cbn [app]. rewrite <- !app_assoc. cbn [app]. reflexivity. Qed.

(** The message of the handler around [find_device] is not the message for a
    bus without the device. *)
Lemma ConfigurationFailed_not_DeviceNotFound (e : Exn) :
  ConfigurationFailed e <> DeviceNotFound.
Proof. unfold ConfigurationFailed, DeviceNotFound. cbn. discriminate. Qed.

(** ** Claims about [find_device] *)



(** C7, as the code has it: on the reset-then-configure path, any failure of
    the reset and a failure of [set_configuration] with a [USBError] are
    logged as warnings and nothing more: [find_device] shows no error, keeps
    the device as the session's handle and returns success, so that
    a session then started on a device with a bulk OUT endpoint enters the
    transfer loop and writes its first packet.  An exception of any other
    class raised by [set_configuration] is not caught there: after the reset
    and its log line, the handler around the whole of [find_device] logs
    "Device configuration failed" with the text of the exception, shows it as
    the one error of the call, and [find_device] returns failure. *)
Theorem C7_configuration_warning_nonfatal
  (w : World) (s s1 : Session) (t1 : Trace) (devs : list Device) (d : Device) :
  platform_system w = "Windows" ->
  backend_ready w s s1 t1 ->
  enumerate_devices w (backend s1) = Ok devs ->
  List.find (matches LUMIDIGM_VID LUMIDIGM_PID) devs = Some d ->
  ((forall cls text, set_configuration d <> Err (Exception_ cls text)) ->
   exists tr,
     find_device w s = (Returned true, set_device (Some d) s1, tr)
     /\ (is_ok (reset d) = false -> In (Log WARNING "Device reset failed") tr)
     /\ (forall e, set_configuration d = Err e ->
           In (Log WARNING (fmt ["Configuration warning: "; str e])) tr)
     /\ existsb is_showerror tr = false
     /\ In done_line tr
     /\ (forall cfg intf o ep_in tk ticks,
           get_active_configuration d = Ok cfg ->
           getitem cfg (0, 0) = Ok intf ->
           scan_endpoints intf = (Some o, ep_in) ->
           In (Ext (c_write (bEndpointAddress o) (random_packet tk) 1000))
              (trace_of (generate_traffic (tk :: ticks)
                           (set_running true (set_device (Some d) s1))))))
  /\ (forall cls text,
        set_configuration d = Err (Exception_ cls text) ->
        find_device w s
        = (Returned false, set_device (Some d) s1,
           Log INFO "Searching for Lumidigm device"
           :: t1 ++ tl (search_trace devs)
           ++ found_line :: reset_trace d
           ++ [Ext c_set_configuration;
               Log ERROR (fmt ["Device configuration failed: "; text]);
               ShowError "Error" (fmt ["Device configuration failed:"; nl; text])])
        /\ In (ConfigurationFailed (Exception_ cls text)) (trace_of (find_device w s))
        /\ occurrences is_showerror (trace_of (find_device w s)) = 1%nat
        /\ (forall text', ~ In (Log WARNING (fmt ["Configuration warning: "; text']))
                             (reset_trace d)
                          /\ Log WARNING (fmt ["Configuration warning: "; text'])
                             <> Log ERROR (fmt ["Device configuration failed: "; text]))).
Proof.
  intros Hwin Hready Henum Hfind. split.
  - intros Husb.
    destruct (backend_ready_spec w s s1 t1 Hready) as (Hs1 & Hquiet & _ & _ & _ & ->).
    rewrite (find_device_windows w s1 devs Hs1 Henum d Hfind Hwin).
    assert (Hc : configures w d = true).
    { unfold configures. rewrite (proj2 (is_windows_true w) Hwin).
      destruct (set_configuration d) as [[]|[code text|cls text]]; try reflexivity.
      exfalso. apply (Husb cls text). reflexivity. }
    rewrite Hc. eexists. split; [reflexivity|].
    unfold search_trace, windows_trace, reset_trace, configure_trace.
    cbn [app tl].
    split; [|split; [|split; [|split]]].
    + intros Hreset. destruct (reset d); [discriminate|]. in_trace.
    + intros e He. rewrite He. destruct e as [code text|cls text].
      * in_trace.
      * exfalso. apply (Husb cls text). exact He.
    + repeat (rewrite existsb_app || cbn [existsb is_showerror orb app]).
      rewrite Hquiet.
      rewrite (existsb_map_false is_showerror device_line) by reflexivity.
      destruct (reset d); destruct (set_configuration d) as [[]|[code text|cls text]];
        try reflexivity; exfalso; apply (Husb cls text); reflexivity.
    + destruct (set_configuration d) as [[]|[code text|cls text]]; try in_trace.
      exfalso. apply (Husb cls text). reflexivity.
    + intros cfg intf o ep_in tk ticks Hcfg Hintf Hscan.
      apply (generate_traffic_enters_loop _ d cfg intf o ep_in tk ticks);
        auto.
  - intros cls text Hset.
    rewrite (find_device_present w s s1 t1 devs d Hready Henum Hfind).
    assert (Hc : configures w d = false).
    { unfold configures. rewrite (proj2 (is_windows_true w) Hwin), Hset.
      reflexivity. }
    assert (Hp : platform_trace w d
                 = reset_trace d
                   ++ [Ext c_set_configuration;
                       Log ERROR (fmt ["Device configuration failed: "; text]);
                       ShowError "Error"
                         (fmt ["Device configuration failed:"; nl; text])]).
    { unfold platform_trace, windows_trace, configure_trace,
        configuration_failed_trace.
      rewrite (proj2 (is_windows_true w) Hwin), Hset. reflexivity. }
    rewrite Hc, Hp. cbn [trace_of snd].
    split; [reflexivity|]. split; [|split].
    + rewrite found_line_split. apply in_or_app. right.
      apply in_or_app. right. right. right. left. reflexivity.
    + rewrite found_line_split, occurrences_app.
      rewrite (proj2 (occurrences_none_iff _ _)
                 (find_device_present_quiet w s s1 t1 devs Hready)).
      unfold reset_trace. destruct (reset d); reflexivity.
    + intros text'. split.
      * unfold reset_trace. destruct (reset d); cbn [In];
          intros [H|[H|[]]]; discriminate H.
      * discriminate.
Qed.

Lemma C7_configuration_warning_nonfatal_witness :
  (outcome_of (find_device flaky_windows __init__) = Returned true
   /\ In (Log WARNING "Device reset failed") (trace_of (find_device flaky_windows __init__))
   /\ In (Log WARNING "Configuration warning: Input/Output Error")
         (trace_of (find_device flaky_windows __init__)))
  /\ (outcome_of (find_device unsupported_windows __init__) = Returned false
      /\ In (ConfigurationFailed not_supported)
            (trace_of (find_device unsupported_windows __init__))
      /\ occurrences is_showerror (trace_of (find_device unsupported_windows __init__))
         = 1%nat).
Proof.
  split.
  - destruct (C7_configuration_warning_nonfatal flaky_windows __init__
                (session_of (setup_backend flaky_windows __init__))
                (trace_of (setup_backend flaky_windows __init__))
                [keyboard; lumidigm [ep_out_02; ep_in_81] (Err io_error) (Err io_error)]
                (lumidigm [ep_out_02; ep_in_81] (Err io_error) (Err io_error)))
      as (Hwarn & _).
    + reflexivity.
    + right. split; reflexivity.
    + reflexivity.
    + reflexivity.
    + destruct Hwarn as (tr & E & Hreset & Hcfg & _ & _ & _).
      * intros cls text. discriminate.
      * rewrite E. cbn [outcome_of trace_of fst snd].
        split; [reflexivity|]. split.
        -- apply Hreset. reflexivity.
        -- apply (Hcfg io_error). reflexivity.
  - destruct (C7_configuration_warning_nonfatal unsupported_windows __init__
                (session_of (setup_backend unsupported_windows __init__))
                (trace_of (setup_backend unsupported_windows __init__))
                [keyboard; lumidigm [ep_out_02; ep_in_81] (Ok tt) (Err not_supported)]
                (lumidigm [ep_out_02; ep_in_81] (Ok tt) (Err not_supported)))
      as (_ & Hfatal).
    + reflexivity.
    + right. split; reflexivity.
    + reflexivity.
    + reflexivity.
    + destruct (Hfatal "NotImplementedError"
                  "Operation not supported or unimplemented on this platform"
                  eq_refl) as (E & Hshown & Hone & _).
      split; [rewrite E; reflexivity|]. split; [exact Hshown|exact Hone].
Defined.

(** On the reset-then-configure path a [set_configuration] that fails with
    an exception outside [USBError] is fatal: the error is shown and
    [find_device] returns failure. *)
Lemma C7_counterexample :
  platform_system unsupported_windows = "Windows"
  /\ List.find (matches LUMIDIGM_VID LUMIDIGM_PID)
       [keyboard; lumidigm [ep_out_02; ep_in_81] (Ok tt) (Err not_supported)]
     = Some (lumidigm [ep_out_02; ep_in_81] (Ok tt) (Err not_supported))
  /\ set_configuration (lumidigm [ep_out_02; ep_in_81] (Ok tt) (Err not_supported))
     = Err not_supported
  /\ outcome_of (find_device unsupported_windows __init__) = Returned false
  /\ In (ShowError "Error"
           (fmt ["Device configuration failed:"; nl; str not_supported]))
        (trace_of (find_device unsupported_windows __init__))
  /\ ~ In done_line (trace_of (find_device unsupported_windows __init__)).
Proof.
  repeat (split; [reflexivity|]).
  split.
  - vm_compute. tauto.
  - vm_compute. intros H.
    repeat (destruct H as [H|H]; [discriminate H|]). exact H.
Qed.

(** C5, as the code has it: once the backend is ready and the bus can be
    enumerated, [find_device] keeps as the session's handle the first device
    whose identifiers are exactly the fixed pair; when no device has them it
    shows "Lumidigm device not found" and returns failure with no handle;
    when one has them it returns success exactly when the configuration that
    follows goes through, and then shows nothing; when an exception ends that
    configuration it returns failure with the handle kept, and the last thing
    it does is to log and show "Device configuration failed" with the text of
    that exception: the one error it shows, and not "Lumidigm device not
    found". *)
Theorem C5_find_device_by_identifiers
  (w : World) (s s1 : Session) (t1 : Trace) (devs : list Device) :
  backend_ready w s s1 t1 ->
  enumerate_devices w (backend s1) = Ok devs ->
  ((forall d, In d devs -> matches LUMIDIGM_VID LUMIDIGM_PID d = false) ->
     outcome_of (find_device w s) = Returned false
     /\ device (session_of (find_device w s)) = None
     /\ In DeviceNotFound (trace_of (find_device w s)))
  /\ (forall d,
        List.find (matches LUMIDIGM_VID LUMIDIGM_PID) devs = Some d ->
        In d devs
        /\ idVendor d = LUMIDIGM_VID /\ idProduct d = LUMIDIGM_PID
        /\ device (session_of (find_device w s)) = Some d
        /\ outcome_of (find_device w s) = Returned (configures w d))
  /\ (outcome_of (find_device w s) = Returned true <->
      exists d, In d devs /\ matches LUMIDIGM_VID LUMIDIGM_PID d = true
                /\ device (session_of (find_device w s)) = Some d
                /\ configures w d = true)
  /\ (forall d,
        List.find (matches LUMIDIGM_VID LUMIDIGM_PID) devs = Some d ->
        match configuration_failure w d with
        | None =>
            configures w d = true
            /\ outcome_of (find_device w s) = Returned true
            /\ existsb is_showerror (trace_of (find_device w s)) = false
        | Some e =>
            configures w d = false
            /\ outcome_of (find_device w s) = Returned false
            /\ device (session_of (find_device w s)) = Some d
            /\ (exists pre,
                  trace_of (find_device w s)
                  = pre ++ [Log ERROR (fmt ["Device configuration failed: "; str e]);
                            ConfigurationFailed e]
                  /\ existsb is_showerror pre = false)
            /\ In (ConfigurationFailed e) (trace_of (find_device w s))
            /\ occurrences is_showerror (trace_of (find_device w s)) = 1%nat
            /\ ~ In DeviceNotFound (trace_of (find_device w s))
        end).
Proof.
  intros Hready Henum.
  assert (Hfull := find_device_present w s s1 t1 devs).
  assert (Hq := find_device_present_quiet w s s1 t1 devs Hready).
  destruct (backend_ready_spec w s s1 t1 Hready) as (Hs1 & _ & _ & _ & _ & Hsame).
  assert (Habsent : List.find (matches LUMIDIGM_VID LUMIDIGM_PID) devs = None ->
                    find_device w s1
                    = (Returned false, set_device None s1,
                       search_trace devs
                       ++ [Log ERROR "Lumidigm device not found"; DeviceNotFound]))
    by exact (find_device_absent w s1 devs Hs1 Henum).
  assert (Hpresent : forall d,
             List.find (matches LUMIDIGM_VID LUMIDIGM_PID) devs = Some d ->
             exists tr, find_device w s1
                        = (Returned (configures w d), set_device (Some d) s1, tr)).
  { intros d Hfind. destruct (is_windows w) eqn:Hw.
    - eexists. apply (find_device_windows w s1 devs Hs1 Henum d Hfind).
      apply is_windows_true. exact Hw.
    - eexists. apply (find_device_other_platform w s1 devs Hs1 Henum d Hfind Hw). }
  split; [|split; [|split]].
  - rewrite Hsame. intros Hnone.
    assert (Hfind : List.find (matches LUMIDIGM_VID LUMIDIGM_PID) devs = None).
    { destruct (List.find _ devs) as [d|] eqn:E; [|reflexivity].
      apply find_some in E. destruct E as [Hin Hm].
      rewrite (Hnone d Hin) in Hm. discriminate. }
    rewrite (Habsent Hfind). cbn [outcome_of session_of trace_of fst snd].
    split; [reflexivity|]. split; [reflexivity|].
    unfold search_trace. cbn [app tl]. in_trace.
  - rewrite Hsame. intros d Hfind. destruct (Hpresent d Hfind) as (tr & ->).
    destruct (find_some _ _ Hfind) as [Hin Hm].
    apply matches_exact in Hm. destruct Hm as [Hv Hp].
    cbn [outcome_of session_of fst snd]. auto.
  - rewrite Hsame.
    destruct (List.find (matches LUMIDIGM_VID LUMIDIGM_PID) devs) as [d|] eqn:Hfind.
    + destruct (Hpresent d eq_refl) as (tr & ->).
      destruct (find_some _ _ Hfind) as [Hin Hm].
      cbn [outcome_of session_of fst snd]. split.
      * intros H. injection H as H. exists d. auto.
      * intros (d' & _ & _ & Hd & Hc). injection Hd as <-. rewrite Hc. reflexivity.
    + rewrite (Habsent eq_refl). cbn [outcome_of session_of fst snd]. split.
      * discriminate.
      * intros (d' & _ & _ & Hd & _). discriminate.
  - intros d Hfind. rewrite (Hfull d Hready Henum Hfind).
    cbn [outcome_of session_of trace_of fst snd device set_device].
    rewrite found_line_split.
    destruct (configuration_failure w d) as [e|] eqn:Hfail.
    + assert (Hc : configures w d = false).
      { destruct (configures w d) eqn:Hc; [|reflexivity].
        apply configures_iff in Hc. congruence. }
      destruct (platform_trace_failure w d e Hfail) as (pre & -> & Hpre).
      assert (Hquiet : existsb is_showerror
                (((Log INFO "Searching for Lumidigm device"
                   :: t1 ++ tl (search_trace devs) ++ [found_line]) ++ pre))
              = false).
      { rewrite existsb_app, Hq, Hpre. reflexivity. }
      rewrite Hc. unfold configuration_failed_trace. fold (ConfigurationFailed e).
      rewrite app_assoc.
      split; [reflexivity|]. split; [reflexivity|]. split; [reflexivity|].
      split; [eexists; split; [reflexivity|exact Hquiet]|].
      split; [apply in_or_app; right; right; left; reflexivity|].
      split.
      * rewrite occurrences_app.
        rewrite (proj2 (occurrences_none_iff _ _) Hquiet). reflexivity.
      * intros Hin. apply in_app_or in Hin. destruct Hin as [Hin|[Hin|[Hin|[]]]].
        -- exact (existsb_false_not_in is_showerror _ DeviceNotFound
                    Hquiet eq_refl Hin).
        -- discriminate Hin.
        -- exact (ConfigurationFailed_not_DeviceNotFound e Hin).
    + assert (Hc : configures w d = true) by (apply configures_iff; exact Hfail).
      rewrite Hc. split; [reflexivity|]. split; [reflexivity|].
      rewrite existsb_app, Hq. exact (platform_trace_success w d Hfail).
Qed.

Lemma C5_find_device_by_identifiers_witness :
  (outcome_of (find_device linux_without_device __init__) = Returned false
   /\ device (session_of (find_device linux_without_device __init__)) = None
   /\ In DeviceNotFound (trace_of (find_device linux_without_device __init__)))
  /\ (device (session_of (find_device linux_with_device __init__)) = Some good_lumidigm
      /\ outcome_of (find_device linux_with_device __init__) = Returned true)
  /\ (outcome_of (find_device locked_linux __init__) = Returned false
      /\ device (session_of (find_device locked_linux __init__)) = Some locked_lumidigm
      /\ In (ConfigurationFailed access_denied)
            (trace_of (find_device locked_linux __init__))
      /\ occurrences is_showerror (trace_of (find_device locked_linux __init__)) = 1%nat
      /\ ~ In DeviceNotFound (trace_of (find_device locked_linux __init__))).
Proof.
  split; [|split].
  - destruct (C5_find_device_by_identifiers linux_without_device __init__
                (session_of (setup_backend linux_without_device __init__))
                (trace_of (setup_backend linux_without_device __init__))
                [keyboard]) as (Habsent & _).
    + right. split; reflexivity.
    + reflexivity.
    + apply Habsent. intros d [<-|[]]. reflexivity.
  - destruct (C5_find_device_by_identifiers linux_with_device __init__
                (session_of (setup_backend linux_with_device __init__))
                (trace_of (setup_backend linux_with_device __init__))
                [keyboard; good_lumidigm]) as (_ & Hpresent & _).
    + right. split; reflexivity.
    + reflexivity.
    + destruct (Hpresent good_lumidigm eq_refl) as (_ & _ & _ & Hd & Ho).
      split; [exact Hd|exact Ho].
  - destruct (C5_find_device_by_identifiers locked_linux __init__
                (session_of (setup_backend locked_linux __init__))
                (trace_of (setup_backend locked_linux __init__))
                [keyboard; locked_lumidigm]) as (_ & _ & _ & Hfail).
    + right. split; reflexivity.
    + reflexivity.
    + destruct (Hfail locked_lumidigm eq_refl)
        as (_ & Ho & Hd & _ & Hshown & Hone & Hnot).
      repeat split; assumption.
Defined.

(** A device with the exact identifiers is on the bus, and [find_device]
    fails all the same, with an error that is not "device not found": its
    configuration was refused. *)
Lemma C5_counterexample :
  In locked_lumidigm [keyboard; locked_lumidigm]
  /\ idVendor locked_lumidigm = LUMIDIGM_VID
  /\ idProduct locked_lumidigm = LUMIDIGM_PID
  /\ enumerate_devices locked_linux None = Ok [keyboard; locked_lumidigm]
  /\ outcome_of (find_device locked_linux __init__) = Returned false
  /\ ~ In DeviceNotFound (trace_of (find_device locked_linux __init__)).
Proof.
  split; [right; left; reflexivity|].
  repeat (split; [reflexivity|]).
  vm_compute. intros H.
  repeat (destruct H as [H|H]; [discriminate H|]). exact H.
Qed.

(** ** Counters over the life of a session *)

Lemma find_device_ready_inv (w : World) (s : Session) :
  _setup_complete s = true ->
  exists r s1 t1,
    find_device w s = (Returned r, s1, t1)
    /\ running s1 = running s
    /\ packet_count s1 = packet_count s
    /\ byte_count s1 = byte_count s.
Proof.
  intros Hs.
  destruct (enumerate_devices w (backend s)) as [devs|e] eqn:Henum.
  - destruct (List.find (matches LUMIDIGM_VID LUMIDIGM_PID) devs) as [d|] eqn:Hfind.
    + destruct (is_windows w) eqn:Hw.
      * apply is_windows_true in Hw.
        rewrite (find_device_windows w s devs Hs Henum d Hfind Hw).
        do 3 eexists. split; [reflexivity|]. auto.
      * rewrite (find_device_other_platform w s devs Hs Henum d Hfind Hw).
        do 3 eexists. split; [reflexivity|]. auto.
    + rewrite (find_device_absent w s devs Hs Henum Hfind).
      do 3 eexists. split; [reflexivity|]. auto.
  - find_red. rewrite Hs. py_red. rewrite Henum.
    do 3 eexists. split; [reflexivity|]. auto.
Qed.

Lemma find_device_inv (w : World) (s : Session) :
  exists r s1 t1,
    find_device w s = (Returned r, s1, t1)
    /\ running s1 = running s
    /\ packet_count s1 = packet_count s
    /\ byte_count s1 = byte_count s.
Proof.
  destruct (_setup_complete s) eqn:Hs; [apply find_device_ready_inv, Hs|].
  destruct (setup_backend_inv w s)
    as ([|] & s1 & t1 & Hsetup & Htrue & Hrun & _ & Hp & Hb & _).
  - destruct (Htrue eq_refl) as [Hs1 _].
    rewrite (find_device_sets_up w s s1 t1 Hs Hsetup).
    destruct (find_device_ready_inv w s1 Hs1) as (r & s2 & t2 & -> & Hr2 & Hp2 & Hb2).
    do 3 eexists. split; [reflexivity|]. repeat split; congruence.
  - rewrite (find_device_setup_fails w s s1 t1 Hs Hsetup).
    do 3 eexists. split; [reflexivity|]. auto.
Qed.

Lemma generate_traffic_inv (ticks : list Tick) (s : Session) :
  exists r s1 t1,
    generate_traffic ticks s = (r, s1, t1)
    /\ (r = Returned tt \/ r = Looping)
    /\ same_handles s s1
    /\ counters_le s s1.
Proof.
  destruct (device s) as [d|] eqn:Hdev.
  2: { rewrite (generate_traffic_no_device ticks s Hdev).
       do 3 eexists. split; [reflexivity|]. auto with session. }
  destruct (get_active_configuration d) as [cfg|e] eqn:Hcfg.
  2: { unfold generate_traffic, generate_traffic_with. py_red.
       rewrite Hdev. py_red. rewrite Hdev, Hcfg.
       do 3 eexists. split; [reflexivity|].
       split; [now left|]. auto with session. }
  destruct (getitem cfg (0, 0)) as [intf|e] eqn:Hintf.
  2: { unfold generate_traffic, generate_traffic_with. py_red.
       rewrite Hdev. py_red. rewrite Hdev, Hcfg. py_red. rewrite Hintf.
       do 3 eexists. split; [reflexivity|].
       split; [now left|]. auto with session. }
  destruct (scan_endpoints intf) as [[o|] ep_in] eqn:Hscan.
  - destruct (while_running_inv (R:=unit) (Some o) ep_in ticks s)
      as (c & s1 & t1 & Hloop & [->| ->] & _ & Hh & Hc).
    + unfold generate_traffic.
      rewrite (generate_traffic_left s d cfg intf _ Hdev Hcfg Hintf o ep_in ticks
                 Hscan s1 t1 Hloop).
      do 3 eexists. split; [reflexivity|]. split; [now left|]. auto with session.
    + unfold generate_traffic.
      rewrite (generate_traffic_looping s d cfg intf _ Hdev Hcfg Hintf o ep_in ticks
                 Hscan s1 t1 Hloop).
      do 3 eexists. split; [reflexivity|]. split; [now right|]. auto.
  - unfold generate_traffic.
    rewrite (generate_traffic_no_out s d cfg intf _ Hdev Hcfg Hintf ticks)
      by (rewrite Hscan; reflexivity).
    do 3 eexists. split; [reflexivity|].
    split; [now left|]. auto with session.
Qed.

Lemma stop_traffic_spec (s : Session) :
  exists t1,
    stop_traffic s = (Returned tt, set_device None (set_running false s), t1).
Proof.
  unfold stop_traffic. py_red. session_red.
  destruct (device s) as [d|] eqn:Hdev; [|eexists; reflexivity].
  py_red. session_red. rewrite Hdev.
  destruct (dispose_resources d) as [[]|e]; eexists; reflexivity.
Qed.

Lemma step_counters_le (s : Session) (o : Op) : counters_le s (step s o).
Proof.
  destruct o as [w|w|b|ticks|]; cbn [step].
  - destruct (setup_backend_inv w s) as (r & s1 & t1 & -> & _ & _ & _ & Hp & Hb & _).
    unfold counters_le. cbn [session_of fst snd]. lia.
  - destruct (find_device_inv w s) as (r & s1 & t1 & -> & _ & Hp & Hb).
    unfold counters_le. cbn [session_of fst snd]. lia.
  - apply counters_le_set_running, counters_le_refl.
  - destruct (generate_traffic_inv ticks s) as (r & s1 & t1 & -> & _ & _ & Hc).
    exact Hc.
  - destruct (stop_traffic_spec s) as (t1 & ->).
    unfold counters_le. cbn [session_of fst snd]. session_red. lia.
Qed.

(** C4: no operation ever lowers [packet_count] or [byte_count], so over any
    sequence of operations both only grow; [stop_traffic] leaves both exactly
    as they are and leaves the running flag false, in particular when the
    session was not running. *)
Theorem C4_counters_monotone :
  (forall s o, packet_count s <= packet_count (step s o)
               /\ byte_count s <= byte_count (step s o))
  /\ (forall ops s, packet_count s <= packet_count (life ops s)
                    /\ byte_count s <= byte_count (life ops s))
  /\ (forall s, packet_count (session_of (stop_traffic s)) = packet_count s
                /\ byte_count (session_of (stop_traffic s)) = byte_count s
                /\ running (session_of (stop_traffic s)) = false)
  /\ (forall s, running s = false ->
                packet_count (session_of (stop_traffic s)) = packet_count s
                /\ byte_count (session_of (stop_traffic s)) = byte_count s
                /\ running (session_of (stop_traffic s)) = running s).
Proof.
  split; [|split; [|split]].
  - intros s o. apply step_counters_le.
  - intros ops. unfold life.
    induction ops as [|o ops IH]; intros s; cbn [fold_left].
    + apply counters_le_refl.
    + apply (counters_le_trans s (step s o)); [apply step_counters_le|apply IH].
  - intros s. destruct (stop_traffic_spec s) as (t1 & ->). repeat split.
  - intros s Hr. destruct (stop_traffic_spec s) as (t1 & ->).
    cbn [session_of fst snd]. session_red. rewrite Hr. repeat split.
Qed.

Lemma C4_counters_monotone_witness :
  packet_count (session_of (stop_traffic __init__)) = packet_count __init__
  /\ byte_count (session_of (stop_traffic __init__)) = byte_count __init__
  /\ running (session_of (stop_traffic __init__)) = running __init__.
Proof.
  destruct C4_counters_monotone as (_ & _ & _ & H).
  apply (H __init__). reflexivity.
Defined.

(** ** The claims about the loop on concrete scripts *)

Lemma C2_no_out_endpoint_witness :
  In NoOutputEndpoint (trace_of (generate_traffic [steady] (started out_less_lumidigm)))
  /\ existsb is_write (trace_of (generate_traffic [steady] (started out_less_lumidigm)))
     = false
  /\ packet_count (session_of (generate_traffic [steady] (started out_less_lumidigm))) = 0
  /\ byte_count (session_of (generate_traffic [steady] (started out_less_lumidigm))) = 0.
Proof.
  destruct (C2_no_out_endpoint (started out_less_lumidigm) out_less_lumidigm
              (interface_configuration [ep_in_81; ep_intr_85])
              [ep_in_81; ep_intr_85] [steady])
    as (_ & Herr & _ & Hw & Hp & Hb).
  - reflexivity.
  - reflexivity.
  - reflexivity.
  - reflexivity.
  - split; [exact Herr|]. split; [exact Hw|]. split; [exact Hp|exact Hb].
Defined.

Lemma C3_counters_per_iteration_witness :
  exists s1 t1,
    generate_traffic [steady; steady; steady] (started good_lumidigm) = (Looping, s1, t1)
    /\ packet_count s1 = 3
    /\ byte_count s1 = 384.
Proof.
  destruct (C3_counters_per_iteration (started good_lumidigm) good_lumidigm
              (interface_configuration [ep_out_02; ep_in_81])
              [ep_out_02; ep_in_81] ep_out_02 (Some ep_in_81))
    as (_ & _ & H).
  - reflexivity.
  - reflexivity.
  - reflexivity.
  - reflexivity.
  - reflexivity.
  - destruct (H ep_in_81 [steady; steady; steady] eq_refl)
      as (s1 & t1 & E & _ & _ & Hfresh).
    + repeat constructor; exists (repeat 0 64%nat); split; reflexivity.
    + exists s1, t1. split; [exact E|]. apply Hfresh; reflexivity.
Defined.

Lemma C1_timed_out_read_ends_the_loop_witness :
  outcome_of (generate_traffic [steady; timed_out; steady] (started good_lumidigm))
  = Returned tt
  /\ running (session_of
                (generate_traffic [steady; timed_out; steady] (started good_lumidigm)))
     = false
  /\ packet_count (session_of
                (generate_traffic [steady; timed_out; steady] (started good_lumidigm)))
     = 2
  /\ In (Log ERROR "USB Error: Operation timed out")
        (trace_of
           (generate_traffic [steady; timed_out; steady] (started good_lumidigm))).
Proof.
  destruct (C1_timed_out_read_ends_the_loop
              (started good_lumidigm) good_lumidigm
              (interface_configuration [ep_out_02; ep_in_81])
              [ep_out_02; ep_in_81] ep_out_02 ep_in_81
              [steady] [steady] timed_out
              (snd (fst after_one_steady)) (snd after_one_steady)
              (Some ETIMEDOUT) 64%N
              eq_refl eq_refl eq_refl eq_refl eq_refl)
    as (_ & E & Hrun & Hcount).
  - intros m Hm. injection Hm as <-. reflexivity.
  - reflexivity.
  - reflexivity.
  - change ([steady] ++ timed_out :: [steady]) with [steady; timed_out; steady] in E.
    rewrite E. cbn [outcome_of session_of trace_of fst snd].
    split; [reflexivity|]. split; [exact Hrun|]. split; [exact Hcount|].
    apply in_or_app. right. apply in_or_app. left.
    apply in_or_app. right. right. right. right. left. reflexivity.
Defined.

(** ** The program run on the scenarios *)

(** The first click on "Start Traffic" on a Windows machine whose device
    refuses both the reset and the configuration. *)
Example find_device_flaky_windows :
  find_device flaky_windows __init__
  = (Returned true,
     set_device
       (Some (lumidigm [ep_out_02; ep_in_81] (Err io_error) (Err io_error)))
       (set_setup_complete true
          (set_backend (Some {| library := Some system32_dll |}) __init__)),
     [Log INFO "Searching for Lumidigm device";
      Log INFO "Setting up libusb backend";
      Ext (c_path_exists system32_dll);
      Ext (c_get_backend (Some system32_dll));
      Log INFO "Found libusb-1.0.dll at C:\Windows\System32\libusb-1.0.dll";
      Log INFO "Backend setup complete";
      Ext c_find_all;
      Log INFO "Connected USB devices:";
      Log INFO "  VID=0x46d, PID=0xc31c";
      Log INFO "  VID=0x1fae, PID=0x13";
      Ext (c_find 0x1FAE 0x13);
      Log INFO "Lumidigm device found, attempting to configure...";
      Ext c_reset;
      Log WARNING "Device reset failed";
      Ext c_set_configuration;
      Log WARNING "Configuration warning: Input/Output Error";
      Log INFO "Device configured successfully"]).
Proof. reflexivity. Qed.

(** A steady packet, a read that raises errno -7, then a stalled pipe: three
    packets are counted, 64 + 64 + 64 + 64 bytes, and the session stops. *)
Example generate_traffic_until_stall :
  let r := generate_traffic [steady; errno_minus_7; stalled; steady]
             (started good_lumidigm) in
  outcome_of r = Returned tt
  /\ running (session_of r) = false
  /\ packet_count (session_of r) = 3
  /\ byte_count (session_of r) = 256
  /\ List.length (filter is_write (trace_of r)) = 3%nat.
Proof. repeat split. Qed.

(** A steady packet, then a read that times out: the loop stops there, two
    packets and 64 + 64 + 64 bytes counted, and the third tick is never
    reached. *)
Example generate_traffic_until_timeout :
  generate_traffic [steady; timed_out; steady] (started good_lumidigm)
  = (Returned tt,
     set_byte_count 192 (set_packet_count 2 (set_running false (started good_lumidigm))),
     traffic_prologue
     ++ [Ext (c_write 0x02 (random_packet steady) 1000);
         Log DEBUG "Sent packet: 1, bytes: 64";
         Ext (c_read 0x81 64 1000);
         Log DEBUG "Received data: 64 bytes";
         Ext (c_sleep_ms 50);
         Ext (c_write 0x02 (random_packet timed_out) 1000);
         Log DEBUG "Sent packet: 2, bytes: 64";
         Ext (c_read 0x81 64 1000);
         Log ERROR "USB Error: Operation timed out"]
     ++ traffic_epilogue).
Proof. reflexivity. Qed.

(** Stopping a started session disposes of the device and forgets it. *)
Example stop_traffic_started :
  stop_traffic (started good_lumidigm)
  = (Returned tt, __init__,
     [Ext c_dispose_resources; Log INFO "Disposed USB resources";
      Log INFO "Traffic stopped"]).
Proof. reflexivity. Qed.

(** * Further properties *)

(** ** [setup_backend] *)

(** The three library paths, split around one of them. *)
Lemma libusb_paths_split (w : World) (pre post : list string) (p : string) :
  libusb_paths w = pre ++ p :: post ->
  (pre = [] /\ p = "C:\Windows\System32\libusb-1.0.dll")
  \/ (pre = ["C:\Windows\System32\libusb-1.0.dll"]
      /\ p = expandvars w "%ProgramFiles%\LibUSB-Win32\bin\libusb-1.0.dll")
  \/ (pre = ["C:\Windows\System32\libusb-1.0.dll";
             expandvars w "%ProgramFiles%\LibUSB-Win32\bin\libusb-1.0.dll"]
      /\ p = expandvars w "%ProgramFiles(x86)%\LibUSB-Win32\bin\libusb-1.0.dll").
Proof.
  unfold libusb_paths. intros H.
  destruct pre as [|a [|b [|c pre]]]; cbn [app] in H; injection H as; subst.
  - left. split; reflexivity.
  - right. left. split; reflexivity.
  - right. right. split; reflexivity.
  - destruct pre; discriminate.
Qed.

Section FirstLibrary.
Variables (w : World) (s : Session) (pre post : list string) (p : string).
Hypothesis Hwin : platform_system w = "Windows".
Hypothesis Hsplit : libusb_paths w = pre ++ p :: post.
Hypothesis Hpre : forall q, In q pre -> path_exists w q = false.
Hypothesis Hp : path_exists w p = true.

Lemma setup_backend_first (b : option Backend) :
  get_backend w (Some p) = Ok b ->
  setup_backend w s
  = (Returned (truthy b),
     (if truthy b then set_setup_complete true (set_backend b s)
      else set_backend b s),
     Log INFO "Setting up libusb backend"
     :: probe_trace (pre ++ [p])
     ++ [Ext (c_get_backend (Some p));
         Log INFO (fmt ["Found libusb-1.0.dll at "; p])]
     ++ (if truthy b then [Log INFO "Backend setup complete"]
         else [Log ERROR "libusb-1.0.dll not found"; BackendNotFound])).
Proof.
  intros Hget.
  destruct (libusb_paths_split w pre post p Hsplit)
    as [[-> Ep]|[[-> Ep]|[-> Ep]]].
  all: unfold setup_backend; py_red; rewrite Hwin;
    cbn [String.eqb Ascii.eqb Bool.eqb]; unfold libusb_paths;
    cbn [for_each]; py_red; rewrite <- ?Ep.
  all: repeat (first [ rewrite Hp | rewrite Hget
                     | rewrite (Hpre _ (or_introl eq_refl))
                     | rewrite (Hpre _ (or_intror (or_introl eq_refl))) ];
               py_red; session_red).
  all: destruct b as [b|]; reflexivity.
Qed.
End FirstLibrary.

(** X1: on the Windows path the library files are tried in the order of the
    list, and the first one that exists decides: when it loads, it becomes the
    backend, the session is marked as set up and no later file is looked
    at. *)
Theorem X1_setup_backend_first_library_wins
  (w : World) (s : Session) (pre post : list string) (p : string) (b : Backend) :
  platform_system w = "Windows" ->
  libusb_paths w = pre ++ p :: post ->
  (forall q, In q pre -> path_exists w q = false) ->
  path_exists w p = true ->
  get_backend w (Some p) = Ok (Some b) ->
  setup_backend w s
  = (Returned true, set_setup_complete true (set_backend (Some b) s),
     Log INFO "Setting up libusb backend"
     :: probe_trace (pre ++ [p])
     ++ [Ext (c_get_backend (Some p));
         Log INFO (fmt ["Found libusb-1.0.dll at "; p]);
         Log INFO "Backend setup complete"])
  /\ occurrences is_backend_probe (trace_of (setup_backend w s))
     = S (List.length (pre ++ [p])).
Proof.
  intros Hwin Hsplit Hpre Hp Hget.
  rewrite (setup_backend_first w s pre post p Hwin Hsplit Hpre Hp (Some b) Hget).
  cbn [truthy app]. split; [reflexivity|].
  cbn [trace_of snd]. unfold occurrences, probe_trace.
  cbn [filter is_backend_probe]. rewrite filter_app.
  rewrite length_app. cbn [filter is_backend_probe List.length].
  rewrite forallb_filter_id by (apply forallb_forall; intros e He;
    apply in_map_iff in He; destruct He as (q & <- & _); reflexivity).
  rewrite length_map. cbn [List.length]. lia.
Qed.

Lemma X1_setup_backend_first_library_wins_witness :
  outcome_of (setup_backend (machine "Windows"
                ["%ProgramFiles%\LibUSB-Win32\bin\libusb-1.0.dll";
                 "%ProgramFiles(x86)%\LibUSB-Win32\bin\libusb-1.0.dll"] [])
                __init__)
  = Returned true
  /\ backend (session_of (setup_backend (machine "Windows"
                ["%ProgramFiles%\LibUSB-Win32\bin\libusb-1.0.dll";
                 "%ProgramFiles(x86)%\LibUSB-Win32\bin\libusb-1.0.dll"] [])
                __init__))
     = Some {| library := Some "%ProgramFiles%\LibUSB-Win32\bin\libusb-1.0.dll" |}.
Proof.
  destruct (X1_setup_backend_first_library_wins
              (machine "Windows"
                 ["%ProgramFiles%\LibUSB-Win32\bin\libusb-1.0.dll";
                  "%ProgramFiles(x86)%\LibUSB-Win32\bin\libusb-1.0.dll"] [])
              __init__
              ["C:\Windows\System32\libusb-1.0.dll"]
              ["%ProgramFiles(x86)%\LibUSB-Win32\bin\libusb-1.0.dll"]
              "%ProgramFiles%\LibUSB-Win32\bin\libusb-1.0.dll"
              {| library := Some "%ProgramFiles%\LibUSB-Win32\bin\libusb-1.0.dll" |})
    as [E _].
  - reflexivity.
  - reflexivity.
  - intros q [<-|[]]. reflexivity.
  - reflexivity.
  - reflexivity.
  - rewrite E. split; reflexivity.
Defined.

(** X2: a library file that exists but does not load ([get_backend] answers
    [None]) ends the search all the same: the later files are not tried, the
    "libusb-1.0.dll not found" error is shown and [setup_backend] returns
    failure with the session not marked as set up. *)
Theorem X2_setup_backend_unloadable_library
  (w : World) (s : Session) (pre post : list string) (p : string) :
  platform_system w = "Windows" ->
  libusb_paths w = pre ++ p :: post ->
  (forall q, In q pre -> path_exists w q = false) ->
  path_exists w p = true ->
  get_backend w (Some p) = Ok None ->
  setup_backend w s
  = (Returned false, set_backend None s,
     Log INFO "Setting up libusb backend"
     :: probe_trace (pre ++ [p])
     ++ [Ext (c_get_backend (Some p));
         Log INFO (fmt ["Found libusb-1.0.dll at "; p]);
         Log ERROR "libusb-1.0.dll not found"; BackendNotFound])
  /\ _setup_complete (session_of (setup_backend w s)) = _setup_complete s.
Proof.
  intros Hwin Hsplit Hpre Hp Hget.
  rewrite (setup_backend_first w s pre post p Hwin Hsplit Hpre Hp None Hget).
  cbn [truthy app]. split; reflexivity.
Qed.

Lemma X2_setup_backend_unloadable_library_witness :
  outcome_of (setup_backend broken_dll_windows __init__) = Returned false
  /\ In BackendNotFound (trace_of (setup_backend broken_dll_windows __init__))
  /\ occurrences is_backend_probe (trace_of (setup_backend broken_dll_windows __init__))
     = 2%nat.
Proof.
  destruct (X2_setup_backend_unloadable_library broken_dll_windows __init__
              [] [ "%ProgramFiles%\LibUSB-Win32\bin\libusb-1.0.dll";
                   "%ProgramFiles(x86)%\LibUSB-Win32\bin\libusb-1.0.dll" ]
              system32_dll) as [E _].
  - reflexivity.
  - reflexivity.
  - intros q [].
  - reflexivity.
  - reflexivity.
  - rewrite E. split; [reflexivity|]. split; [|reflexivity].
    cbn. auto 10.
Defined.

(** ** Every outcome of [find_device] on a session that is set up *)

Lemma find_device_ready_cases (w : World) (s : Session) :
  _setup_complete s = true ->
  (exists e,
     enumerate_devices w (backend s) = Err e
     /\ find_device w s
        = (Returned false, s,
           [Log INFO "Searching for Lumidigm device"; Ext c_find_all]
           ++ configuration_failed_trace e))
  \/ (exists devs,
        enumerate_devices w (backend s) = Ok devs
        /\ List.find (matches LUMIDIGM_VID LUMIDIGM_PID) devs = None
        /\ find_device w s
           = (Returned false, set_device None s,
              search_trace devs
              ++ [Log ERROR "Lumidigm device not found"; DeviceNotFound]))
  \/ (exists devs d,
        enumerate_devices w (backend s) = Ok devs
        /\ List.find (matches LUMIDIGM_VID LUMIDIGM_PID) devs = Some d
        /\ find_device w s
           = (Returned (configures w d), set_device (Some d) s,
              search_trace devs ++ found_line :: platform_trace w d)).
Proof.
  intros Hs.
  destruct (enumerate_devices w (backend s)) as [devs|e] eqn:Henum.
  - right.
    destruct (List.find (matches LUMIDIGM_VID LUMIDIGM_PID) devs) as [d|] eqn:Hfind.
    + right. exists devs, d. split; [reflexivity|]. split; [exact Hfind|].
      unfold platform_trace. destruct (is_windows w) eqn:Hw.
      * apply is_windows_true in Hw.
        apply (find_device_windows w s devs Hs Henum d Hfind Hw).
      * apply (find_device_other_platform w s devs Hs Henum d Hfind Hw).
    + left. exists devs. split; [reflexivity|]. split; [exact Hfind|].
      apply (find_device_absent w s devs Hs Henum Hfind).
  - left. exists e. split; [reflexivity|].
    find_red. rewrite Hs. py_red. rewrite Henum. reflexivity.
Qed.

(** The error boxes of the platform-specific configuration: one exactly when
    it does not go through. *)
Lemma platform_trace_boxes (w : World) (d : Device) :
  occurrences is_showerror (platform_trace w d)
  = (if configures w d then 0 else 1)%nat.
Proof.
  unfold platform_trace, configures, windows_trace, other_platform_trace,
    reset_trace, configure_trace, configuration_failed_trace, is_ok, done_line.
  destruct (is_windows w).
  - destruct (reset d); destruct (set_configuration d) as [[]|[code text|cls text]];
      reflexivity.
  - destruct (is_kernel_driver_active d 0) as [[|]|e1];
      [destruct (detach_kernel_driver d 0) as [[]|e2]| |];
      try destruct (set_configuration d) as [[]|e3]; reflexivity.
Qed.

(** [setup_backend] tells the user of every failure, once, and of nothing
    else. *)
Lemma setup_backend_reports (w : World) (s : Session) :
  exists r s1 t1,
    setup_backend w s = (Returned r, s1, t1)
    /\ occurrences is_showerror t1 = (if r then 0 else 1)%nat
    /\ _setup_complete s1 = (if r then true else _setup_complete s).
Proof.
  unfold setup_backend. py_red.
  unfold libusb_paths. cbn [for_each]. py_red.
  repeat (case_stuck; py_red; session_red).
  all: do 3 eexists; split; [reflexivity|]; session_red.
  all: split; reflexivity.
Qed.

Lemma find_device_ready_reports (w : World) (s : Session) :
  _setup_complete s = true ->
  exists r s1 t1,
    find_device w s
    = (Returned r, s1, Log INFO "Searching for Lumidigm device" :: t1)
    /\ occurrences is_showerror t1 = (if r then 0 else 1)%nat
    /\ (r = true -> exists d, device s1 = Some d)
    /\ _setup_complete s1 = true.
Proof.
  intros Hs.
  destruct (find_device_ready_cases w s Hs)
    as [(e & _ & ->)|[(devs & _ & _ & ->)|(devs & d & _ & _ & ->)]].
  - do 3 eexists. split; [reflexivity|]. repeat split; auto; discriminate.
  - unfold search_trace. cbn [app]. do 3 eexists. split; [reflexivity|].
    split; [count_trace; reflexivity|]. split; [discriminate|exact Hs].
  - unfold search_trace. cbn [app]. do 3 eexists. split; [reflexivity|].
    split; [|split; [intros _; exists d; reflexivity|exact Hs]].
    count_trace. rewrite platform_trace_boxes.
    destruct (configures w d); reflexivity.
Qed.

Lemma find_device_reports (w : World) (s : Session) :
  exists r s1 t1,
    find_device w s = (Returned r, s1, t1)
    /\ occurrences is_showerror t1 = (if r then 0 else 1)%nat
    /\ (r = true -> (exists d, device s1 = Some d) /\ _setup_complete s1 = true).
Proof.
  destruct (_setup_complete s) eqn:Hs.
  - destruct (find_device_ready_reports w s Hs) as (r & s1 & t1 & -> & Hb & Hd & Hc).
    do 3 eexists. split; [reflexivity|]. split; [|auto].
    rewrite occurrences_cons. exact Hb.
  - destruct (setup_backend_reports w s) as ([|] & s1 & t1 & Hsetup & Hb & Hc).
    + rewrite (find_device_sets_up w s s1 t1 Hs Hsetup).
      destruct (find_device_ready_reports w s1 Hc)
        as (r & s2 & t2 & -> & Hb2 & Hd2 & Hc2).
      cbn [tl]. do 3 eexists. split; [reflexivity|]. split; [|auto].
      rewrite occurrences_cons, occurrences_app, Hb, Hb2. reflexivity.
    + rewrite (find_device_setup_fails w s s1 t1 Hs Hsetup).
      do 3 eexists. split; [reflexivity|]. split; [|discriminate].
      rewrite occurrences_cons. exact Hb.
Qed.

(** X3: [setup_backend] and [find_device] never let an exception escape and
    tell the user of every failure exactly once: each returns [True] having
    shown no error box, or [False] having shown exactly one; a successful
    [find_device] leaves a device handle and a session that is set up. *)
Theorem X3_failures_are_shown_once (w : World) (s : Session) :
  (exists r,
     outcome_of (setup_backend w s) = Returned r
     /\ boxes (trace_of (setup_backend w s)) = (if r then 0 else 1)%nat
     /\ _setup_complete (session_of (setup_backend w s))
        = (if r then true else _setup_complete s))
  /\ (exists r,
        outcome_of (find_device w s) = Returned r
        /\ boxes (trace_of (find_device w s)) = (if r then 0 else 1)%nat
        /\ (r = true ->
            (exists d, device (session_of (find_device w s)) = Some d)
            /\ _setup_complete (session_of (find_device w s)) = true)).
Proof.
  split.
  - destruct (setup_backend_reports w s) as (r & s1 & t1 & -> & Hb & Hc).
    exists r. repeat split; assumption.
  - destruct (find_device_reports w s) as (r & s1 & t1 & -> & Hb & Hd).
    exists r. repeat split; try assumption; apply Hd; assumption.
Qed.

(** X4: off Windows a missing backend is not noticed by [setup_backend]:
    whatever [get_backend] answers, [None] included, the session is marked as
    set up, and [find_device] goes on to enumerate the bus with that backend;
    when the enumeration raises, what the user is shown is "Device
    configuration failed", and the session stays marked as set up. *)
Theorem X4_default_backend_is_not_checked
  (w : World) (s : Session) (b : option Backend) (e : Exn) :
  is_windows w = false ->
  _setup_complete s = false ->
  get_backend w None = Ok b ->
  enumerate_devices w b = Err e ->
  setup_backend w s
  = (Returned true, set_setup_complete true (set_backend b s),
     [Log INFO "Setting up libusb backend"; Ext (c_get_backend None);
      Log INFO "Using default libusb backend"; Log INFO "Backend setup complete"])
  /\ find_device w s
     = (Returned false, set_setup_complete true (set_backend b s),
        [Log INFO "Searching for Lumidigm device";
         Log INFO "Setting up libusb backend"; Ext (c_get_backend None);
         Log INFO "Using default libusb backend"; Log INFO "Backend setup complete";
         Ext c_find_all]
        ++ configuration_failed_trace e).
Proof.
  intros Hw Hs Hget Henum. unfold is_windows in Hw.
  assert (Hsetup : setup_backend w s
                   = (Returned true, set_setup_complete true (set_backend b s),
                      [Log INFO "Setting up libusb backend"; Ext (c_get_backend None);
                       Log INFO "Using default libusb backend";
                       Log INFO "Backend setup complete"])).
  { unfold setup_backend. py_red. rewrite Hw. py_red. rewrite Hget. reflexivity. }
  split; [exact Hsetup|].
  rewrite (find_device_sets_up w s _ _ Hs Hsetup).
  destruct (find_device_ready_cases w (set_setup_complete true (set_backend b s)) eq_refl)
    as [(e' & He & ->)|[(devs & He & _)|(devs & d & He & _)]];
    cbn [backend set_setup_complete set_backend] in He; rewrite Henum in He;
    [|discriminate|discriminate].
  injection He as <-. reflexivity.
Qed.

Lemma X4_default_backend_is_not_checked_witness :
  outcome_of (setup_backend bare_linux __init__) = Returned true
  /\ backend (session_of (setup_backend bare_linux __init__)) = None
  /\ outcome_of (find_device bare_linux __init__) = Returned false
  /\ _setup_complete (session_of (find_device bare_linux __init__)) = true.
Proof.
  destruct (X4_default_backend_is_not_checked bare_linux __init__ None
              (Exception_ "NoBackendError" "No backend available"))
    as [E1 E2].
  - reflexivity.
  - reflexivity.
  - reflexivity.
  - reflexivity.
  - rewrite E1, E2. repeat split.
Defined.

(** X5: a session that is set up is never set up again: [find_device] then
    looks at no library file and asks for no backend, and leaves the backend
    and the mark as they are, whatever the bus and the device answer. *)
Theorem X5_backend_is_set_up_once (w : World) (s : Session) :
  _setup_complete s = true ->
  occurrences is_backend_probe (trace_of (find_device w s)) = 0%nat
  /\ backend (session_of (find_device w s)) = backend s
  /\ _setup_complete (session_of (find_device w s)) = true.
Proof.
  intros Hs.
  destruct (find_device_ready_cases w s Hs)
    as [(e & _ & ->)|[(devs & _ & _ & ->)|(devs & d & _ & _ & ->)]];
    cbn [trace_of session_of fst snd]; session_red.
  - repeat split; assumption.
  - split; [|split; [reflexivity|assumption]].
    unfold search_trace. count_trace. reflexivity.
  - split; [|split; [reflexivity|assumption]].
    unfold search_trace, platform_trace, windows_trace, other_platform_trace,
      reset_trace, configure_trace, configuration_failed_trace, done_line.
    count_trace.
    destruct (is_windows w);
      [destruct (reset d); destruct (set_configuration d) as [[]|[code text|cls text]]
      |destruct (is_kernel_driver_active d 0) as [[|]|e1];
       [destruct (detach_kernel_driver d 0) as [[]|e2]| |];
       try destruct (set_configuration d) as [[]|e3]];
      reflexivity.
Qed.

Lemma X5_backend_is_set_up_once_witness :
  occurrences is_backend_probe
    (trace_of (find_device flaky_windows
                 (session_of (find_device flaky_windows __init__)))) = 0%nat.
Proof.
  apply (X5_backend_is_set_up_once flaky_windows
           (session_of (find_device flaky_windows __init__))).
  reflexivity.
Defined.

(** X6: the two platform paths of [find_device] do not mix.  On Windows the
    device found is reset once and never asked about its kernel driver; on
    the other platforms it is never reset, and the kernel driver is detached
    exactly when the device says that one is active. *)
Theorem X6_platform_paths_are_disjoint
  (w : World) (s : Session) (devs : list Device) (d : Device) :
  _setup_complete s = true ->
  enumerate_devices w (backend s) = Ok devs ->
  List.find (matches LUMIDIGM_VID LUMIDIGM_PID) devs = Some d ->
  (is_windows w = true ->
     occurrences is_reset (trace_of (find_device w s)) = 1%nat
     /\ occurrences is_kernel_driver_call (trace_of (find_device w s)) = 0%nat)
  /\ (is_windows w = false ->
        occurrences is_reset (trace_of (find_device w s)) = 0%nat
        /\ occurrences is_detach (trace_of (find_device w s))
           = match is_kernel_driver_active d 0 with
             | Ok true => 1%nat
             | _ => 0%nat
             end).
Proof.
  intros Hs Henum Hfind.
  destruct (find_device_ready_cases w s Hs)
    as [(e & He & _)|[(devs' & He & Hf & _)|(devs' & d' & He & Hf & ->)]];
    rewrite Henum in He; try discriminate He; injection He as <-;
    rewrite Hfind in Hf; try discriminate Hf; injection Hf as <-.
  cbn [trace_of snd].
  unfold search_trace, platform_trace, windows_trace, other_platform_trace,
    reset_trace, configure_trace, configuration_failed_trace, done_line.
  split; intros ->; count_trace.
  - destruct (reset d); destruct (set_configuration d) as [[]|[code text|cls text]];
      split; reflexivity.
  - destruct (is_kernel_driver_active d 0) as [[|]|e1];
      [destruct (detach_kernel_driver d 0) as [[]|e2]| |];
      try destruct (set_configuration d) as [[]|e3]; split; reflexivity.
Qed.

Lemma X6_platform_paths_are_disjoint_witness :
  occurrences is_reset (trace_of (find_device linux_with_device
                                    (set_setup_complete true __init__))) = 0%nat
  /\ occurrences is_detach (trace_of (find_device linux_with_device
                                        (set_setup_complete true __init__))) = 0%nat.
Proof.
  destruct (X6_platform_paths_are_disjoint linux_with_device
              (set_setup_complete true __init__)
              [keyboard; good_lumidigm] good_lumidigm) as [_ H].
  - reflexivity.
  - reflexivity.
  - reflexivity.
  - apply H. reflexivity.
Defined.

(** ** [generate_traffic] beyond the claims *)

Lemma generate_traffic_lookup_fails (ticks : list Tick) (s : Session) (d : Device) (e : Exn) :
  device s = Some d ->
  active_interface d = Err e ->
  generate_traffic ticks s
  = (Returned tt, set_running false s,
     [Ext c_get_active_configuration;
      Log ERROR (fmt ["Traffic generation failed: "; str e]);
      ShowError "Error" (fmt ["Traffic generation failed:"; nl; str e]);
      Log INFO "Traffic stopped"]).
Proof.
  intros Hdev He. unfold active_interface in He.
  unfold generate_traffic, generate_traffic_with. py_red.
  rewrite Hdev. py_red. rewrite Hdev.
  destruct (get_active_configuration d) as [cfg|e'].
  - py_red. rewrite He. reflexivity.
  - injection He as ->. reflexivity.
Qed.

(** X7: when the device does not give its active configuration, or the
    configuration has no interface (0, 0), [generate_traffic] shows "Traffic
    generation failed", clears the running flag and returns; the script is not
    consulted, nothing is written and the counters keep their values. *)
Theorem X7_configuration_lookup_failure
  (ticks : list Tick) (s : Session) (d : Device) (e : Exn) :
  device s = Some d ->
  active_interface d = Err e ->
  generate_traffic ticks s
  = (Returned tt, set_running false s,
     [Ext c_get_active_configuration;
      Log ERROR (fmt ["Traffic generation failed: "; str e]);
      ShowError "Error" (fmt ["Traffic generation failed:"; nl; str e]);
      Log INFO "Traffic stopped"])
  /\ occurrences is_write (trace_of (generate_traffic ticks s)) = 0%nat
  /\ packet_count (session_of (generate_traffic ticks s)) = packet_count s
  /\ byte_count (session_of (generate_traffic ticks s)) = byte_count s.
Proof.
  intros Hdev He. rewrite (generate_traffic_lookup_fails ticks s d e Hdev He).
  repeat split.
Qed.

Lemma X7_configuration_lookup_failure_witness :
  outcome_of (generate_traffic [steady] (started busy_lumidigm)) = Returned tt
  /\ running (session_of (generate_traffic [steady] (started busy_lumidigm))) = false
  /\ occurrences is_write (trace_of (generate_traffic [steady] (started busy_lumidigm)))
     = 0%nat.
Proof.
  destruct (X7_configuration_lookup_failure [steady] (started busy_lumidigm)
              busy_lumidigm (USBError (Some 16) "Resource busy"))
    as (E & Hw & _).
  - reflexivity.
  - reflexivity.
  - split; [rewrite E; reflexivity|]. split; [rewrite E; reflexivity|exact Hw].
Defined.

(** X8: a session whose flag is already cleared when [generate_traffic]
    reaches its loop sends nothing: the endpoints are still looked up, the
    loop is left at its first test whatever the script holds, and the
    counters keep their values. *)
Theorem X8_not_running_sends_nothing
  (ticks : list Tick) (s : Session) (d : Device) (intf : Interface) (o : Endpoint) :
  device s = Some d ->
  active_interface d = Ok intf ->
  fst (scan_endpoints intf) = Some o ->
  running s = false ->
  generate_traffic ticks s
  = (Returned tt, set_running false s, traffic_prologue ++ traffic_epilogue).
Proof.
  intros Hdev Hactive Hscan Hrun. unfold active_interface in Hactive.
  destruct (get_active_configuration d) as [cfg|e] eqn:Hcfg; [|discriminate].
  destruct (scan_endpoints intf) as [ep_out ep_in] eqn:Hs. cbn [fst] in Hscan.
  subst ep_out. unfold generate_traffic.
  apply (generate_traffic_left s d cfg intf _ Hdev Hcfg Hactive o ep_in ticks Hs).
  apply while_not_running. exact Hrun.
Qed.

Lemma X8_not_running_sends_nothing_witness :
  generate_traffic [steady; steady] (set_device (Some good_lumidigm) __init__)
  = (Returned tt, set_running false (set_device (Some good_lumidigm) __init__),
     traffic_prologue ++ traffic_epilogue).
Proof.
  apply (X8_not_running_sends_nothing [steady; steady]
           (set_device (Some good_lumidigm) __init__) good_lumidigm
           [ep_out_02; ep_in_81] ep_out_02); reflexivity.
Defined.

(** Every way [generate_traffic] can end, with what it then leaves of the
    flag. *)
Lemma generate_traffic_flag (ticks : list Tick) (s : Session) :
  exists r s1 t1,
    generate_traffic ticks s = (r, s1, t1)
    /\ same_handles s s1
    /\ ((r = Looping /\ running s1 = true /\ device s <> None)
        \/ (r = Returned tt /\ device s = None /\ s1 = s)
        \/ (r = Returned tt /\ device s <> None /\ running s1 = false)).
Proof.
  destruct (device s) as [d|] eqn:Hdev.
  2: { rewrite (generate_traffic_no_device ticks s Hdev).
       do 3 eexists. split; [reflexivity|]. split; [apply same_handles_refl|].
       right. left. auto. }
  destruct (active_interface d) as [intf|e] eqn:Hactive.
  2: { rewrite (generate_traffic_lookup_fails ticks s d e Hdev Hactive).
       do 3 eexists. split; [reflexivity|].
       split; [apply same_handles_set_running, same_handles_refl|].
       right. right. repeat split. discriminate. }
  unfold active_interface in Hactive.
  destruct (get_active_configuration d) as [cfg|e] eqn:Hcfg; [|discriminate].
  destruct (scan_endpoints intf) as [[o|] ep_in] eqn:Hscan.
  - destruct (while_running_inv (R:=unit) (Some o) ep_in ticks s)
      as (c & s1 & t1 & Hloop & [->| ->] & _ & Hh & _).
    + unfold generate_traffic.
      rewrite (generate_traffic_left s d cfg intf _ Hdev Hcfg Hactive o ep_in ticks
                 Hscan s1 t1 Hloop).
      do 3 eexists. split; [reflexivity|].
      split; [apply same_handles_set_running, Hh|].
      right. right. repeat split. discriminate.
    + unfold generate_traffic.
      rewrite (generate_traffic_looping s d cfg intf _ Hdev Hcfg Hactive o ep_in ticks
                 Hscan s1 t1 Hloop).
      do 3 eexists. split; [reflexivity|]. split; [exact Hh|].
      left. repeat split; [|discriminate].
      exact (while_pending_running _ _ _ _ _ _ Hloop).
  - unfold generate_traffic.
    rewrite (generate_traffic_no_out s d cfg intf _ Hdev Hcfg Hactive ticks)
      by (rewrite Hscan; reflexivity).
    do 3 eexists. split; [reflexivity|].
    split; [apply same_handles_set_running, same_handles_refl|].
    right. right. repeat split. discriminate.
Qed.

(** X9: [generate_traffic] lets no exception escape and never touches the
    device handle or the backend; on a session that holds a device it comes
    back only with the running flag cleared, and as long as it has not come
    back the flag is set. *)
Theorem X9_generate_traffic_returns_stopped (ticks : list Tick) (s : Session) :
  (outcome_of (generate_traffic ticks s) = Returned tt
   \/ outcome_of (generate_traffic ticks s) = Looping)
  /\ device (session_of (generate_traffic ticks s)) = device s
  /\ backend (session_of (generate_traffic ticks s)) = backend s
  /\ (device s <> None ->
      outcome_of (generate_traffic ticks s) = Returned tt ->
      running (session_of (generate_traffic ticks s)) = false)
  /\ (outcome_of (generate_traffic ticks s) = Looping ->
      running (session_of (generate_traffic ticks s)) = true).
Proof.
  destruct (generate_traffic_flag ticks s)
    as (r & s1 & t1 & -> & (Hd & Hb & _) & H).
  cbn [outcome_of session_of fst snd].
  destruct H as [(-> & Hr & _)|[(-> & Hnone & ->)|(-> & _ & Hr)]].
  - repeat split; auto. discriminate.
  - repeat split; auto; try discriminate. intros Hsome. contradiction.
  - repeat split; auto. discriminate.
Qed.

Lemma X9_generate_traffic_returns_stopped_witness :
  running (session_of (generate_traffic [steady; unplugged] (started good_lumidigm)))
  = false.
Proof.
  destruct (X9_generate_traffic_returns_stopped [steady; unplugged]
              (started good_lumidigm)) as (_ & _ & _ & H & _).
  apply H; [discriminate|reflexivity].
Defined.

(** ** The counters on any script *)

Lemma is_ignored_spec (e : Exn) :
  is_ignored e = true <-> exists text, e = USBError (Some (-7)) text.
Proof.
  destruct e as [[code|] text|cls text]; cbn [is_ignored].
  - rewrite Z.eqb_eq. split.
    + intros ->. exists text. reflexivity.
    + intros (t & H). injection H as -> _. reflexivity.
  - split; [discriminate|]. intros (t & H). discriminate.
  - split; [discriminate|]. intros (t & H). discriminate.
Qed.

Lemma advance_count (packets bytes written got : Z) (s : Session) :
  advance packets bytes (count written got s)
  = advance (1 + packets) (written + got + bytes) s.
Proof.
  unfold advance, count, set_byte_count, set_packet_count. destruct s.
  cbn [packet_count byte_count running device backend _setup_complete
       traffic_thread].
  f_equal; lia.
Qed.

Lemma advance_zero (s : Session) : advance 0 0 s = s.
Proof. unfold advance. destruct s. cbn. rewrite !Z.add_0_r. reflexivity. Qed.

Lemma advance_advance (p1 b1 p2 b2 : Z) (s : Session) :
  advance p2 b2 (advance p1 b1 s) = advance (p1 + p2) (b1 + b2) s.
Proof.
  unfold advance, set_byte_count, set_packet_count. destruct s.
  cbn [packet_count byte_count running device backend _setup_complete
       traffic_thread].
  f_equal; lia.
Qed.

Section AnyTick.
Context {R : Type}.
Variables (d : Device) (o : Endpoint) (ep_in : option Endpoint).

(** A tick that lets the loop go on counts one packet and what it moved. *)
Lemma loop_body_continues (tk : Tick) (s : Session) :
  device s = Some d ->
  continues o ep_in tk = true ->
  exists t1,
    loop_body (R:=R) (Some o) ep_in tk s
    = (Normal tt, count (sent o tk) (received ep_in tk) s, t1)
    /\ occurrences is_write t1 = 1%nat.
Proof.
  intros Hdev. unfold continues, sent, received.
  destruct (write tk (bEndpointAddress o) (random_packet tk) 1000) as [n|e] eqn:Hw;
    [|discriminate].
  destruct ep_in as [i|].
  - destruct (read tk (bEndpointAddress i) 64 1000) as [data_in|e] eqn:Hr.
    + intros _. rewrite (loop_body_read_ok s d o tk Hdev i n Hw data_in Hr).
      eexists. split; reflexivity.
    + intros Ht. apply is_ignored_spec in Ht. destruct Ht as (text & ->).
      rewrite (loop_body_read_ignored s d o tk Hdev i n Hw text Hr).
      eexists. split; reflexivity.
  - intros _. rewrite (loop_body_no_in s d o tk Hdev n Hw).
    eexists. split; reflexivity.
Qed.

(** A tick that does not ends the loop: a failed write counts nothing, a
    failed read leaves the packet and the bytes written counted. *)
Lemma loop_body_stops (tk : Tick) (s : Session) :
  device s = Some d ->
  continues o ep_in tk = false ->
  exists t1,
    loop_body (R:=R) (Some o) ep_in tk s
    = (Break_,
       advance (if is_ok (write tk (bEndpointAddress o) (random_packet tk) 1000)
                then 1 else 0) (sent o tk) s,
       t1)
    /\ occurrences is_write t1 = 1%nat.
Proof.
  intros Hdev. unfold continues, sent, advance.
  destruct (write tk (bEndpointAddress o) (random_packet tk) 1000) as [n|e] eqn:Hw.
  - destruct ep_in as [i|]; [|discriminate].
    destruct (read tk (bEndpointAddress i) 64 1000) as [data_in|e] eqn:Hr;
      [discriminate|].
    intros Ht.
    assert (Hne : forall text, e <> USBError (Some (-7)) text).
    { intros text ->. cbn in Ht. discriminate. }
    rewrite (loop_body_read_error s d o tk Hdev i n Hw e Hr Hne).
    eexists. split.
    + unfold count. cbn [is_ok]. rewrite Z.add_0_r. reflexivity.
    + destruct e; reflexivity.
  - intros _. rewrite (loop_body_write_error s d o tk Hdev ep_in e Hw).
    eexists. split.
    + cbn [is_ok]. destruct s. cbn. rewrite !Z.add_0_r. reflexivity.
    + destruct e; reflexivity.
Qed.

(** A script of ticks that all let the loop go on. *)
Lemma while_all_continue (ticks : list Tick) : forall s,
  device s = Some d ->
  running s = true ->
  forallb (continues o ep_in) ticks = true ->
  exists t1,
    while_running (R:=R) ticks (loop_body (Some o) ep_in) s
    = (Pending,
       advance (len ticks)
         (total (fun tk => sent o tk + received ep_in tk) ticks) s,
       t1)
    /\ occurrences is_write t1 = List.length ticks.
Proof.
  induction ticks as [|tk ticks IH]; intros s Hdev Hrun Hall.
  - cbn [while_running]. rewrite Hrun. eexists. split.
    + unfold advance, total, len. cbn [fold_right List.length].
      destruct s. cbn. rewrite !Z.add_0_r. reflexivity.
    + reflexivity.
  - cbn [forallb] in Hall. apply andb_true_iff in Hall. destruct Hall as [Htk Hall].
    destruct (loop_body_continues tk s Hdev Htk) as (t1 & Hb & Hw1).
    rewrite (while_continue _ _ _ _ _ _ _ Hrun Hb).
    destruct (IH (count (sent o tk) (received ep_in tk) s) Hdev Hrun Hall)
      as (t2 & -> & Hw2).
    eexists. split.
    + rewrite advance_count.
      replace (len (tk :: ticks)) with (1 + len ticks)
        by (unfold len; cbn [List.length]; lia).
      reflexivity.
    + rewrite occurrences_app, Hw1, Hw2. reflexivity.
Qed.
End AnyTick.

(** X10: the counters after any script.  As long as every tick lets the loop
    go on (the write succeeds and the read, if any, succeeds or raises a
    [USBError] whose [errno] is -7), [generate_traffic] is still looping, has
    issued one write per tick and has counted one packet per tick and every
    byte written or read.  The first tick that does not (a failed write, or a
    read raising anything else, a timeout of the library with its [errno]
    [ETIMEDOUT] included) makes it return with the flag cleared: it has
    issued that one more write, counted the packet and the bytes of it only
    if the write itself succeeded, and looked at no later tick. *)
Theorem X10_counters_on_any_script
  (s : Session) (d : Device) (intf : Interface) (o : Endpoint)
  (ep_in : option Endpoint) :
  device s = Some d ->
  running s = true ->
  active_interface d = Ok intf ->
  scan_endpoints intf = (Some o, ep_in) ->
  (forall ticks,
     forallb (continues o ep_in) ticks = true ->
     exists t1,
       generate_traffic ticks s
       = (Looping,
          advance (len ticks)
            (total (fun tk => sent o tk + received ep_in tk) ticks) s,
          t1)
       /\ occurrences is_write t1 = List.length ticks)
  /\ (forall pre tk rest,
        forallb (continues o ep_in) pre = true ->
        continues o ep_in tk = false ->
        exists t1,
          generate_traffic (pre ++ tk :: rest) s
          = (Returned tt,
             set_running false
               (advance
                  (len pre
                   + (if is_ok (write tk (bEndpointAddress o) (random_packet tk) 1000)
                      then 1 else 0))
                  (total (fun tk => sent o tk + received ep_in tk) pre + sent o tk)
                  s),
             t1)
          /\ occurrences is_write t1 = S (List.length pre)).
Proof.
  intros Hdev Hrun Hactive Hscan. unfold active_interface in Hactive.
  destruct (get_active_configuration d) as [cfg|e] eqn:Hcfg; [|discriminate].
  split.
  - intros ticks Hall.
    destruct (while_all_continue (R:=unit) d o ep_in ticks s Hdev Hrun Hall)
      as (t1 & Hloop & Hw).
    eexists. split.
    + apply (generate_traffic_looping s d cfg intf endpoint_diagnostic
               Hdev Hcfg Hactive o ep_in ticks Hscan _ _ Hloop).
    + unfold traffic_prologue. rewrite occurrences_app, Hw. reflexivity.
  - intros pre tk rest Hall Htk.
    destruct (while_all_continue (R:=unit) d o ep_in pre s Hdev Hrun Hall)
      as (t0 & Hloop & Hw0).
    destruct (loop_body_stops (R:=unit) d o ep_in tk
                (advance (len pre)
                   (total (fun tk => sent o tk + received ep_in tk) pre) s)
                Hdev Htk) as (t1 & Hb & Hw1).
    eexists. split.
    + apply (generate_traffic_left s d cfg intf endpoint_diagnostic
               Hdev Hcfg Hactive o ep_in (pre ++ tk :: rest) Hscan).
      rewrite (while_app _ _ _ _ _ _ _ Hloop).
      assert (Hrun0 : running (advance (len pre)
                (total (fun tk => sent o tk + received ep_in tk) pre) s) = true)
        by exact Hrun.
      rewrite (while_break _ _ _ _ _ _ _ Hrun0 Hb).
      rewrite advance_advance. reflexivity.
    + unfold traffic_prologue, traffic_epilogue.
      rewrite !occurrences_app, Hw0, Hw1. cbn. lia.
Qed.

Lemma X10_counters_on_any_script_witness :
  (exists t1,
     generate_traffic [steady; errno_minus_7; steady] (started good_lumidigm)
     = (Looping, advance 3 320 (started good_lumidigm), t1))
  /\ (exists t1,
        generate_traffic [steady; errno_minus_7; unplugged; steady]
          (started good_lumidigm)
        = (Returned tt, set_running false (advance 2 192 (started good_lumidigm)), t1))
  /\ (exists t1,
        generate_traffic [steady; timed_out; steady] (started good_lumidigm)
        = (Returned tt, set_running false (advance 2 192 (started good_lumidigm)), t1)).
Proof.
  destruct (X10_counters_on_any_script (started good_lumidigm) good_lumidigm
              [ep_out_02; ep_in_81] ep_out_02 (Some ep_in_81)
              eq_refl eq_refl eq_refl eq_refl) as [Hgo Hstop].
  split; [|split].
  - destruct (Hgo [steady; errno_minus_7; steady] eq_refl) as (t1 & E & _).
    exists t1. exact E.
  - destruct (Hstop [steady; errno_minus_7] unplugged [steady] eq_refl eq_refl)
      as (t1 & E & _).
    exists t1. exact E.
  - destruct (Hstop [steady] timed_out [steady] eq_refl eq_refl)
      as (t1 & E & _).
    exists t1. exact E.
Defined.

(** ** What the loop may emit *)

Lemma len_random_packet (tk : Tick) : len (random_packet tk) = 64.
Proof. unfold len. rewrite random_packet_length. reflexivity. Qed.

(** A class of events that no iteration emits is not emitted by the loop. *)
Lemma while_trace_forall {R} (ep_out ep_in : option Endpoint) (P : Event -> bool) :
  (forall tk s, forallb P (snd (loop_body (R:=R) ep_out ep_in tk s)) = true) ->
  forall ticks s,
    forallb P (snd (while_running ticks (loop_body (R:=R) ep_out ep_in) s)) = true.
Proof.
  intros Hbody. induction ticks as [|tk ticks IH]; intros s; cbn [while_running].
  - destruct (running s); reflexivity.
  - destruct (running s); [|reflexivity].
    specialize (Hbody tk s).
    destruct (loop_body ep_out ep_in tk s) as [[c s1] t1]. cbn [snd] in Hbody.
    destruct c; try exact Hbody.
    specialize (IH s1).
    destruct (while_running ticks (loop_body ep_out ep_in) s1) as [[c2 s2] t2].
    cbn [snd] in IH |- *. rewrite forallb_app, Hbody, IH. reflexivity.
Qed.

Lemma loop_body_well_aimed {R} (o : Endpoint) (ep_in : option Endpoint)
    (tk : Tick) (s : Session) :
  forallb (well_aimed o ep_in) (snd (loop_body (R:=R) (Some o) ep_in tk s)) = true.
Proof.
  unfold loop_body. py_red. session_red.
  repeat (case_stuck; py_red; session_red).
  all: cbn [snd forallb well_aimed app];
    rewrite ?len_random_packet, ?Z.eqb_refl; reflexivity.
Qed.

Lemma loop_body_quiet {R} (ep_out ep_in : option Endpoint) (tk : Tick) (s : Session) :
  forallb (fun e => negb (is_showerror e))
    (snd (loop_body (R:=R) ep_out ep_in tk s)) = true.
Proof.
  unfold loop_body. py_red. session_red.
  repeat (case_stuck; py_red; session_red).
  all: reflexivity.
Qed.

Lemma forallb_occurrences_none {E} (P q : E -> bool) (tr : list E) :
  (forall e, P e = true -> q e = false) ->
  forallb P tr = true -> occurrences q tr = 0%nat.
Proof.
  intros Hpq. induction tr as [|e tr IH]; [reflexivity|].
  cbn [forallb]. intros H. apply andb_true_iff in H. destruct H as [He Htr].
  rewrite occurrences_cons, (Hpq e He), (IH Htr). reflexivity.
Qed.

(** The trace of [generate_traffic] around the trace of its loop. *)
Lemma generate_traffic_trace
    (ticks : list Tick) (s : Session) (d : Device) (intf : Interface)
    (o : Endpoint) (ep_in : option Endpoint) :
  device s = Some d ->
  active_interface d = Ok intf ->
  scan_endpoints intf = (Some o, ep_in) ->
  exists tail,
    trace_of (generate_traffic ticks s)
    = traffic_prologue
      ++ snd (while_running (R:=unit) ticks (loop_body (Some o) ep_in) s)
      ++ tail
    /\ (tail = [] \/ tail = traffic_epilogue).
Proof.
  intros Hdev Hactive Hscan. unfold active_interface in Hactive.
  destruct (get_active_configuration d) as [cfg|e] eqn:Hcfg; [|discriminate].
  destruct (while_running_inv (R:=unit) (Some o) ep_in ticks s)
    as (c & s1 & t1 & Hloop & [->| ->] & _).
  - unfold generate_traffic.
    rewrite (generate_traffic_left s d cfg intf _ Hdev Hcfg Hactive o ep_in ticks
               Hscan s1 t1 Hloop), Hloop.
    exists traffic_epilogue. split; [reflexivity|now right].
  - unfold generate_traffic.
    rewrite (generate_traffic_looping s d cfg intf _ Hdev Hcfg Hactive o ep_in ticks
               Hscan s1 t1 Hloop), Hloop.
    exists []. split; [|now left]. cbn [trace_of snd]. rewrite app_nil_r. reflexivity.
Qed.

(** X11: [generate_traffic] transfers nowhere but to the endpoints it chose:
    every write it makes goes to the OUT endpoint of the scan with a packet of
    64 bytes and a wait of 1000, every read goes to the IN endpoint of the
    scan for 64 bytes with a wait of 1000, and without an IN endpoint it
    never reads. *)
Theorem X11_transfers_go_to_the_chosen_endpoints
  (ticks : list Tick) (s : Session) (d : Device) (intf : Interface)
  (o : Endpoint) (ep_in : option Endpoint) :
  device s = Some d ->
  active_interface d = Ok intf ->
  scan_endpoints intf = (Some o, ep_in) ->
  forallb (well_aimed o ep_in) (trace_of (generate_traffic ticks s)) = true
  /\ (ep_in = None ->
      occurrences is_read (trace_of (generate_traffic ticks s)) = 0%nat).
Proof.
  intros Hdev Hactive Hscan.
  assert (H : forallb (well_aimed o ep_in) (trace_of (generate_traffic ticks s)) = true).
  { destruct (generate_traffic_trace ticks s d intf o ep_in Hdev Hactive Hscan)
      as (tail & -> & Htail).
    rewrite !forallb_app.
    rewrite (while_trace_forall (R:=unit) (Some o) ep_in _
               (loop_body_well_aimed o ep_in)).
    destruct Htail as [->| ->]; reflexivity. }
  split; [exact H|].
  intros ->. apply (forallb_occurrences_none (well_aimed o None)); [|exact H].
  intros [lvl msg|title msg|[]]; cbn [well_aimed is_read]; auto; discriminate.
Qed.

Lemma X11_transfers_go_to_the_chosen_endpoints_witness :
  occurrences is_read
    (trace_of (generate_traffic [steady; steady; stalled] (started out_only_lumidigm)))
  = 0%nat.
Proof.
  destruct (X11_transfers_go_to_the_chosen_endpoints [steady; steady; stalled]
              (started out_only_lumidigm) out_only_lumidigm
              [ep_out_02; ep_intr_85] ep_out_02 None) as [_ H].
  - reflexivity.
  - reflexivity.
  - reflexivity.
  - apply H. reflexivity.
Defined.

(** X12: what [generate_traffic] shows to the user.  It shows one error box
    when the session holds a device whose interface cannot be looked up or
    has no bulk OUT endpoint, and none otherwise: without a device it only
    logs, and no error of a transfer in the loop is ever shown. *)
Theorem X12_transfer_errors_are_not_shown (ticks : list Tick) (s : Session) :
  boxes (trace_of (generate_traffic ticks s))
  = match device s with
    | None => 0%nat
    | Some d =>
        match active_interface d with
        | Err _ => 1%nat
        | Ok intf => if truthy (fst (scan_endpoints intf)) then 0%nat else 1%nat
        end
    end.
Proof.
  change (boxes (trace_of (generate_traffic ticks s)))
    with (occurrences is_showerror (trace_of (generate_traffic ticks s))).
  destruct (device s) as [d|] eqn:Hdev.
  2: { rewrite (generate_traffic_no_device ticks s Hdev). reflexivity. }
  destruct (active_interface d) as [intf|e] eqn:Hactive.
  2: { rewrite (generate_traffic_lookup_fails ticks s d e Hdev Hactive). reflexivity. }
  destruct (scan_endpoints intf) as [[o|] ep_in] eqn:Hscan; cbn [fst truthy].
  - destruct (generate_traffic_trace ticks s d intf o ep_in Hdev Hactive Hscan)
      as (tail & -> & Htail).
    rewrite !occurrences_app.
    rewrite (forallb_occurrences_none (fun e => negb (is_showerror e)) is_showerror
               (snd (while_running ticks (loop_body (Some o) ep_in) s))).
    + destruct Htail as [->| ->]; reflexivity.
    + intros e He. destruct (is_showerror e); [discriminate|reflexivity].
    + apply (while_trace_forall (R:=unit) (Some o) ep_in _
               (loop_body_quiet (Some o) ep_in)).
  - unfold active_interface in Hactive.
    destruct (get_active_configuration d) as [cfg|e] eqn:Hcfg; [|discriminate].
    unfold generate_traffic.
    rewrite (generate_traffic_no_out s d cfg intf _ Hdev Hcfg Hactive ticks)
      by (rewrite Hscan; reflexivity).
    reflexivity.
Qed.

(** ** The endpoints chosen *)

Lemma last_such_some {A} (p : A -> bool) (l : list A) (x : A) :
  last_such p l = Some x -> In x l /\ p x = true.
Proof.
  induction l as [|y l IH]; cbn [last_such]; [discriminate|].
  destruct (last_such p l) as [z|].
  - intros H. injection H as ->. destruct (IH eq_refl) as [Hin Hp].
    split; [right; exact Hin|exact Hp].
  - destruct (p y) eqn:Hy; [|discriminate].
    intros H. injection H as ->. split; [left; reflexivity|exact Hy].
Qed.

(** X13: the scan only ever chooses what is there: the OUT endpoint it gives
    is an endpoint of the interface that is bulk and OUT, the IN endpoint it
    gives is one that is bulk and not OUT, so the two are never the same
    endpoint and an interrupt, isochronous or control endpoint is never
    chosen; and it gives no OUT endpoint only when the interface has no bulk
    OUT endpoint at all. *)
Theorem X13_scan_chooses_among_bulk_endpoints (intf : Interface) :
  (forall e, fst (scan_endpoints intf) = Some e ->
             In e intf /\ is_bulk_out e = true)
  /\ (forall e, snd (scan_endpoints intf) = Some e ->
                In e intf /\ is_bulk_not_out e = true)
  /\ (forall e1 e2, fst (scan_endpoints intf) = Some e1 ->
                    snd (scan_endpoints intf) = Some e2 -> e1 <> e2)
  /\ (fst (scan_endpoints intf) = None <->
      forall e, In e intf -> is_bulk_out e = false).
Proof.
  rewrite scan_endpoints_last. cbn [fst snd].
  split; [|split; [|split]].
  - intros e. apply last_such_some.
  - intros e. apply last_such_some.
  - intros e1 e2 H1 H2 <-.
    apply last_such_some in H1. apply last_such_some in H2.
    destruct H1 as [_ H1]. destruct H2 as [_ H2].
    unfold is_bulk_out, is_bulk_not_out in H1, H2.
    destruct (is_bulk e1); [|discriminate].
    destruct (endpoint_direction (bEndpointAddress e1) =? ENDPOINT_OUT);
      discriminate.
  - rewrite last_such_none. split.
    + intros Hnone e Hin. destruct (is_bulk_out e) eqn:He; [|reflexivity].
      assert (Hf : In e (filter is_bulk_out intf)) by (apply filter_In; auto).
      rewrite Hnone in Hf. destruct Hf.
    + intros Hall. induction intf as [|e intf IH]; [reflexivity|].
      cbn [filter]. rewrite (Hall e (or_introl eq_refl)).
      apply IH. intros e' Hin. apply Hall. right. exact Hin.
Qed.

Lemma X13_scan_chooses_among_bulk_endpoints_witness :
  In ep_out_04 [ep_intr_85; ep_out_04; ep_in_83] /\ is_bulk_out ep_out_04 = true.
Proof.
  destruct (X13_scan_chooses_among_bulk_endpoints [ep_intr_85; ep_out_04; ep_in_83])
    as (Hout & _).
  apply Hout. reflexivity.
Defined.

(** ** [stop_traffic] beyond the claims *)

Lemma stop_traffic_trace (s : Session) :
  stop_traffic s = (Returned tt, stopped s, stop_trace s).
Proof.
  unfold stop_traffic, stop_trace, stopped. py_red. session_red.
  destruct (device s) as [d|] eqn:Hdev; [|reflexivity].
  py_red. session_red. rewrite Hdev.
  destruct (dispose_resources d) as [[]|e]; reflexivity.
Qed.

(** X14: [stop_traffic] always comes back, with the flag cleared and the
    handle forgotten, having shown nothing to the user.  It disposes of the
    device exactly once when the session holds one and not at all otherwise,
    and a failure of that is logged and swallowed. *)
Theorem X14_stop_traffic_swallows_disposal_failure (s : Session) :
  stop_traffic s = (Returned tt, stopped s, stop_trace s)
  /\ boxes (stop_trace s) = 0%nat
  /\ occurrences is_dispose (stop_trace s) = (if truthy (device s) then 1 else 0)%nat
  /\ (forall d e, device s = Some d -> dispose_resources d = Err e ->
        In (Log ERROR "Failed to dispose USB resources") (stop_trace s)).
Proof.
  split; [apply stop_traffic_trace|].
  unfold stop_trace, boxes.
  split; [|split].
  - destruct (device s) as [d|]; [destruct (dispose_resources d)|]; reflexivity.
  - destruct (device s) as [d|]; [destruct (dispose_resources d)|]; reflexivity.
  - intros d e -> ->. cbn. auto.
Qed.

Lemma X14_stop_traffic_swallows_disposal_failure_witness :
  outcome_of (stop_traffic (started busy_lumidigm)) = Returned tt
  /\ In (Log ERROR "Failed to dispose USB resources")
        (trace_of (stop_traffic (started busy_lumidigm))).
Proof.
  destruct (X14_stop_traffic_swallows_disposal_failure (started busy_lumidigm))
    as (E & _ & _ & H).
  rewrite E. split; [reflexivity|].
  apply (H busy_lumidigm (USBError (Some 19) "No such device")); reflexivity.
Defined.

(** X15: once a session is stopped nothing reaches the device until one is
    found again: a second [stop_traffic] disposes of nothing and changes
    nothing, and a [generate_traffic] that runs after the stop, as a worker
    scheduled late does, returns at once with nothing sent and the session as
    the stop left it. *)
Theorem X15_after_stop_nothing_reaches_the_device (ticks : list Tick) (s : Session) :
  stop_traffic (stopped s)
  = (Returned tt, stopped s, [Log INFO "Traffic stopped"])
  /\ generate_traffic ticks (stopped s)
     = (Returned tt, stopped s, [Log ERROR "No device found"])
  /\ session_of (stop_traffic s) = stopped s.
Proof.
  split; [|split].
  - rewrite stop_traffic_trace. reflexivity.
  - apply generate_traffic_no_device. reflexivity.
  - rewrite stop_traffic_trace. reflexivity.
Qed.

(** ** The window *)

Ltac ui_red :=
  cbv beta iota zeta delta
    [App.ui_bind App.ui_ret App.ui_reads App.ui_modify App.ui_emit App.ui_log
     App.on_generator];
  cbn [App.generator App.start_btn App.stop_btn App.status_label
       App.packet_label App.byte_label App.set_generator App.set_start_btn
       App.set_stop_btn App.set_status_label App.set_packet_label
       App.set_byte_label].

Lemma start_traffic_found (w : World) (a : App.t) (g : Session) (tr : Trace) :
  find_device w (App.generator a) = (Returned true, g, tr) ->
  App.start_traffic w a
  = (Returned tt,
     App.set_stop_btn {| ttk.state := tk.NORMAL |}
       (App.set_start_btn {| ttk.state := tk.DISABLED |}
          (App.set_generator (set_traffic_thread (Some tt) (set_running true g)) a)),
     Core (Log INFO "Starting traffic") :: map Core tr ++ [ThreadStart true]).
Proof.
  intros E. unfold App.start_traffic. ui_red. rewrite E. ui_red. reflexivity.
Qed.

Lemma start_traffic_not_found (w : World) (a : App.t) (g : Session) (tr : Trace) :
  find_device w (App.generator a) = (Returned false, g, tr) ->
  App.start_traffic w a
  = (Returned tt, App.set_generator g a,
     Core (Log INFO "Starting traffic") :: map Core tr).
Proof.
  intros E. unfold App.start_traffic. ui_red. rewrite E. ui_red.
  rewrite app_nil_r. reflexivity.
Qed.

(** ** What [find_device] does not look at *)

Ltac flags_red :=
  unfold with_flags;
  cbn [running device packet_count byte_count backend _setup_complete
       traffic_thread set_running set_device set_packet_count set_byte_count
       set_backend set_setup_complete set_traffic_thread].

Lemma with_flags_same (s : Session) :
  with_flags (running s) (packet_count s) (byte_count s) (traffic_thread s) s = s.
Proof. destruct s. reflexivity. Qed.

Section Flags.
Variables (w : World) (r : bool) (packets bytes : Z) (th : option unit).

Let flagged : Session -> Session := with_flags r packets bytes th.

Lemma setup_backend_flags (s : Session) :
  setup_backend w (flagged s)
  = (let '(o, s1, t1) := setup_backend w s in (o, flagged s1, t1)).
Proof.
  unfold flagged, setup_backend. py_red.
  unfold libusb_paths. cbn [for_each]. py_red. flags_red.
  repeat (case_stuck; py_red; flags_red).
  all: reflexivity.
Qed.

Lemma find_device_enumeration_fails (s : Session) (e : Exn) :
  _setup_complete s = true ->
  enumerate_devices w (backend s) = Err e ->
  find_device w s
  = (Returned false, s,
     [Log INFO "Searching for Lumidigm device"; Ext c_find_all]
     ++ configuration_failed_trace e).
Proof.
  intros Hs Henum. find_red. rewrite Hs. py_red. rewrite Henum. reflexivity.
Qed.

Lemma find_device_ready_flags (s : Session) :
  _setup_complete s = true ->
  find_device w (flagged s)
  = (let '(o, s1, t1) := find_device w s in (o, flagged s1, t1)).
Proof.
  intros Hs.
  assert (Hs' : _setup_complete (flagged s) = true) by exact Hs.
  destruct (enumerate_devices w (backend s)) as [devs|e] eqn:Henum.
  - assert (Henum' : enumerate_devices w (backend (flagged s)) = Ok devs)
      by exact Henum.
    destruct (List.find (matches LUMIDIGM_VID LUMIDIGM_PID) devs) as [d|] eqn:Hfind.
    + destruct (is_windows w) eqn:Hw.
      * apply is_windows_true in Hw.
        rewrite (find_device_windows w s devs Hs Henum d Hfind Hw).
        rewrite (find_device_windows w (flagged s) devs Hs' Henum' d Hfind Hw).
        reflexivity.
      * rewrite (find_device_other_platform w s devs Hs Henum d Hfind Hw).
        rewrite (find_device_other_platform w (flagged s) devs Hs' Henum' d Hfind Hw).
        reflexivity.
    + rewrite (find_device_absent w s devs Hs Henum Hfind).
      rewrite (find_device_absent w (flagged s) devs Hs' Henum' Hfind).
      reflexivity.
  - rewrite (find_device_enumeration_fails s e Hs Henum).
    rewrite (find_device_enumeration_fails (flagged s) e Hs' Henum).
    reflexivity.
Qed.

Lemma find_device_flags (s : Session) :
  find_device w (flagged s)
  = (let '(o, s1, t1) := find_device w s in (o, flagged s1, t1)).
Proof.
  destruct (_setup_complete s) eqn:Hs; [apply find_device_ready_flags, Hs|].
  assert (Hs' : _setup_complete (flagged s) = false) by exact Hs.
  pose proof (setup_backend_flags s) as Hflags.
  destruct (setup_backend_inv w s) as ([|] & s1 & t1 & Hsetup & Htrue & _).
  - rewrite Hsetup in Hflags. destruct (Htrue eq_refl) as [Hs1 _].
    rewrite (find_device_sets_up w s s1 t1 Hs Hsetup).
    rewrite (find_device_sets_up w (flagged s) (flagged s1) t1 Hs' Hflags).
    rewrite (find_device_ready_flags s1 Hs1).
    destruct (find_device w s1) as [[o s2] t2]. reflexivity.
  - rewrite Hsetup in Hflags.
    rewrite (find_device_setup_fails w s s1 t1 Hs Hsetup).
    rewrite (find_device_setup_fails w (flagged s) (flagged s1) t1 Hs' Hflags).
    reflexivity.
Qed.
End Flags.

(** [find_device] leaves the flag, the counters and the thread attribute. *)
Lemma find_device_frame (w : World) (s : Session) :
  session_of (find_device w s)
  = with_flags (running s) (packet_count s) (byte_count s) (traffic_thread s)
      (session_of (find_device w s)).
Proof.
  pose proof (find_device_flags w (running s) (packet_count s) (byte_count s)
                (traffic_thread s) s) as H.
  rewrite with_flags_same in H.
  destruct (find_device w s) as [[o s1] t1]. injection H as H.
  cbn [session_of fst snd]. exact H.
Qed.

(** X16: the start button starts a worker thread exactly when [find_device]
    succeeded, and then exactly one: the start of the thread is the last
    event of the callback, after its log line and everything [find_device]
    did, and the callback returns with the running flag set, the thread kept,
    a device held, the start button disabled and the stop button enabled.
    When [find_device] fails the callback ends with what [find_device] did:
    no thread is started and the flag, the thread attribute and both buttons
    stay as they were.  The callback never raises. *)
Theorem X16_start_traffic_starts_one_thread_on_success (w : World) (a : App.t) :
  exists found,
    outcome_of (find_device w (App.generator a)) = Returned found
    /\ ui_outcome (App.start_traffic w a) = Returned tt
    /\ occurrences is_thread_start (ui_trace (App.start_traffic w a))
       = (if found then 1 else 0)%nat
    /\ (found = true ->
        running (App.generator (ui_window (App.start_traffic w a))) = true
        /\ traffic_thread (App.generator (ui_window (App.start_traffic w a))) = Some tt
        /\ device (App.generator (ui_window (App.start_traffic w a))) <> None
        /\ App.start_btn (ui_window (App.start_traffic w a))
           = {| ttk.state := tk.DISABLED |}
        /\ App.stop_btn (ui_window (App.start_traffic w a))
           = {| ttk.state := tk.NORMAL |}
        /\ last (ui_trace (App.start_traffic w a)) Destroy = ThreadStart true
        /\ ui_trace (App.start_traffic w a)
           = Core (Log INFO "Starting traffic")
             :: map Core (trace_of (find_device w (App.generator a)))
             ++ [ThreadStart true])
    /\ (found = false ->
        running (App.generator (ui_window (App.start_traffic w a)))
        = running (App.generator a)
        /\ traffic_thread (App.generator (ui_window (App.start_traffic w a)))
           = traffic_thread (App.generator a)
        /\ App.start_btn (ui_window (App.start_traffic w a)) = App.start_btn a
        /\ App.stop_btn (ui_window (App.start_traffic w a)) = App.stop_btn a
        /\ ui_trace (App.start_traffic w a)
           = Core (Log INFO "Starting traffic")
             :: map Core (trace_of (find_device w (App.generator a)))).
Proof.
  destruct (find_device_reports w (App.generator a))
    as (r & g & tr & E & _ & Hd).
  pose proof (find_device_frame w (App.generator a)) as F.
  rewrite E in F. cbn [session_of fst snd] in F.
  exists r. rewrite E. cbn [outcome_of trace_of fst snd].
  split; [reflexivity|].
  destruct r.
  - rewrite (start_traffic_found w a g tr E).
    cbn [ui_outcome ui_window ui_trace fst snd]. split; [reflexivity|].
    split.
    + rewrite occurrences_cons, occurrences_app,
        (occurrences_map_none is_thread_start Core) by reflexivity.
      reflexivity.
    + split; [|discriminate]. intros _.
      destruct (Hd eq_refl) as [(d & Hdev) _].
      split; [reflexivity|]. split; [reflexivity|].
      split; [cbn; rewrite Hdev; discriminate|].
      split; [reflexivity|]. split; [reflexivity|].
      split; [|reflexivity].
      change (Core (Log INFO "Starting traffic") :: map Core tr ++ [ThreadStart true])
        with ((Core (Log INFO "Starting traffic") :: map Core tr) ++ [ThreadStart true]).
      apply last_last.
  - rewrite (start_traffic_not_found w a g tr E).
    cbn [ui_outcome ui_window ui_trace fst snd]. split; [reflexivity|].
    split.
    + rewrite occurrences_cons,
        (occurrences_map_none is_thread_start Core) by reflexivity.
      reflexivity.
    + split; [discriminate|]. intros _.
      cbn [App.generator App.set_generator App.start_btn App.stop_btn].
      rewrite F. repeat split.
Qed.

Lemma X16_start_traffic_starts_one_thread_on_success_witness :
  occurrences is_thread_start
    (ui_trace (App.start_traffic flaky_windows (window __init__))) = 1%nat
  /\ occurrences is_thread_start
       (ui_trace (App.start_traffic locked_linux (window __init__))) = 0%nat.
Proof.
  split.
  - destruct (X16_start_traffic_starts_one_thread_on_success flaky_windows
                (window __init__)) as (found & Hf & _ & Hn & _).
    rewrite Hn. injection Hf as <-. reflexivity.
  - destruct (X16_start_traffic_starts_one_thread_on_success locked_linux
                (window __init__)) as (found & Hf & _ & Hn & _).
    rewrite Hn. injection Hf as <-. reflexivity.
Defined.

(** X17: the start callback looks neither at the running flag nor at the
    counters, the thread attribute or the widgets: on two windows whose
    generators differ only in these it does the same things in the same
    order.  So started again on a session that is already running, it starts
    another worker thread whenever it would have started the first. *)
Theorem X17_start_traffic_is_not_guarded
  (w : World) (a a' : App.t) (r : bool) (packets bytes : Z) (th : option unit) :
  App.generator a' = with_flags r packets bytes th (App.generator a) ->
  ui_trace (App.start_traffic w a') = ui_trace (App.start_traffic w a)
  /\ occurrences is_thread_start (ui_trace (App.start_traffic w a'))
     = occurrences is_thread_start (ui_trace (App.start_traffic w a)).
Proof.
  intros Hgen.
  assert (H : ui_trace (App.start_traffic w a') = ui_trace (App.start_traffic w a)).
  { pose proof (find_device_flags w r packets bytes th (App.generator a)) as Hflags.
    rewrite <- Hgen in Hflags.
    destruct (find_device_inv w (App.generator a)) as (found & g & tr & E & _).
    rewrite E in Hflags.
    destruct found.
    - rewrite (start_traffic_found w a g tr E).
      rewrite (start_traffic_found w a' _ tr Hflags). reflexivity.
    - rewrite (start_traffic_not_found w a g tr E).
      rewrite (start_traffic_not_found w a' _ tr Hflags). reflexivity. }
  split; [exact H|]. rewrite H. reflexivity.
Qed.

Lemma X17_start_traffic_is_not_guarded_witness :
  occurrences is_thread_start
    (ui_trace (App.start_traffic flaky_windows
                 (ui_window (App.start_traffic flaky_windows (window __init__)))))
  = 1%nat.
Proof.
  destruct (X17_start_traffic_is_not_guarded flaky_windows
              (window (session_of (find_device flaky_windows __init__)))
              (ui_window (App.start_traffic flaky_windows (window __init__)))
              true 0 0 (Some tt)) as [_ H].
  - reflexivity.
  - rewrite H. reflexivity.
Defined.

Lemma app_stop_traffic_eq (a : App.t) :
  App.stop_traffic a
  = (Returned tt,
     App.set_stop_btn {| ttk.state := tk.DISABLED |}
       (App.set_start_btn {| ttk.state := tk.NORMAL |}
          (App.set_generator (stopped (App.generator a)) a)),
     Core (Log INFO "Stopping traffic") :: map Core (stop_trace (App.generator a))).
Proof.
  unfold App.stop_traffic. ui_red. rewrite stop_traffic_trace. ui_red.
  rewrite !app_nil_r. reflexivity.
Qed.

Lemma app_on_close_eq (a : App.t) :
  App.on_close a
  = (Returned tt, App.set_generator (stopped (App.generator a)) a,
     (Core (Log INFO "Closing application")
      :: map Core (stop_trace (App.generator a))) ++ [Destroy]).
Proof.
  unfold App.on_close. ui_red. rewrite stop_traffic_trace. ui_red. reflexivity.
Qed.

Lemma app_update_status_eq (a : App.t) :
  App.update_status a
  = (Returned tt, shown (App.generator a) a,
     [After 100; Core (Log DEBUG "Status updated")]).
Proof.
  unfold App.update_status, shown. ui_red.
  destruct (running (App.generator a)); reflexivity.
Qed.

(** X18: the stop button brings the two buttons back and touches nothing else
    of the display.  On any window the callback returns, leaves the session
    stopped with no device handle, enables the start button and disables the
    stop button, and changes neither the counters nor any of the three
    labels.  So after a start that found the device, a run of the worker and
    a refresh of the display, the stop leaves the counters at what the worker
    counted, not below what they were before the start, and the labels at
    what the refresh showed, the status included: neither is brought back to
    what it was before the start. *)
Theorem X18_stop_traffic_restores_only_the_buttons (a : App.t) :
  (ui_outcome (App.stop_traffic a) = Returned tt
   /\ App.generator (ui_window (App.stop_traffic a)) = stopped (App.generator a)
   /\ App.start_btn (ui_window (App.stop_traffic a)) = {| ttk.state := tk.NORMAL |}
   /\ App.stop_btn (ui_window (App.stop_traffic a)) = {| ttk.state := tk.DISABLED |}
   /\ running (App.generator (ui_window (App.stop_traffic a))) = false
   /\ device (App.generator (ui_window (App.stop_traffic a))) = None
   /\ packet_count (App.generator (ui_window (App.stop_traffic a)))
      = packet_count (App.generator a)
   /\ byte_count (App.generator (ui_window (App.stop_traffic a)))
      = byte_count (App.generator a)
   /\ App.status_label (ui_window (App.stop_traffic a)) = App.status_label a
   /\ App.packet_label (ui_window (App.stop_traffic a)) = App.packet_label a
   /\ App.byte_label (ui_window (App.stop_traffic a)) = App.byte_label a)
  /\ (forall (w : World) (ticks : list Tick),
        let a1 := ui_window (App.start_traffic w a) in
        let g := session_of (generate_traffic ticks (App.generator a1)) in
        let a2 := ui_window (App.update_status (App.set_generator g a1)) in
        let a3 := ui_window (App.stop_traffic a2) in
        outcome_of (find_device w (App.generator a)) = Returned true ->
        App.start_btn a3 = {| ttk.state := tk.NORMAL |}
        /\ App.stop_btn a3 = {| ttk.state := tk.DISABLED |}
        /\ running (App.generator a3) = false
        /\ device (App.generator a3) = None
        /\ packet_count (App.generator a3) = packet_count g
        /\ byte_count (App.generator a3) = byte_count g
        /\ packet_count (App.generator a) <= packet_count (App.generator a3)
        /\ byte_count (App.generator a) <= byte_count (App.generator a3)
        /\ ttk.text (App.packet_label a3) = str_int (packet_count g)
        /\ ttk.text (App.byte_label a3) = str_int (byte_count g)
        /\ ttk.text (App.status_label a3)
           = (if running g then "Running" else "Ready")).
Proof.
  split.
  - rewrite app_stop_traffic_eq. cbn [ui_outcome ui_window fst snd].
    repeat split.
  - intros w ticks a1 g a2 a3 Hfound. subst a3 a2.
    rewrite app_stop_traffic_eq, app_update_status_eq.
    cbn [ui_outcome ui_window fst snd].
    destruct (find_device_inv w (App.generator a))
      as (found & g1 & tr & E & _ & Hp & Hb).
    rewrite E in Hfound. injection Hfound as ->.
    assert (Hle : counters_le (App.generator a1) g).
    { subst g. destruct (generate_traffic_inv ticks (App.generator a1))
        as (r & s1 & t1 & -> & _ & _ & Hle). exact Hle. }
    assert (Ha1 : packet_count (App.generator a1) = packet_count (App.generator a)
                  /\ byte_count (App.generator a1) = byte_count (App.generator a)).
    { subst a1. rewrite (start_traffic_found w a g1 tr E). cbn. auto. }
    destruct Hle as [Hlp Hlb]. destruct Ha1 as [Hp1 Hb1].
    unfold shown, stopped. cbn.
    repeat (split; [reflexivity|]).
    split; [lia|]. split; [lia|].
    split; [reflexivity|]. split; [reflexivity|].
    destruct (running g); reflexivity.
Qed.

Lemma X18_stop_traffic_restores_only_the_buttons_witness :
  (packet_count (App.generator (window __init__)) = 0
   /\ byte_count (App.generator (window __init__)) = 0
   /\ ttk.text (App.packet_label (window __init__)) = "0"
   /\ ttk.text (App.byte_label (window __init__)) = "0"
   /\ ttk.text (App.status_label (window __init__)) = "Ready")
  /\ App.start_btn window_after_two_packets = {| ttk.state := tk.NORMAL |}
  /\ App.stop_btn window_after_two_packets = {| ttk.state := tk.DISABLED |}
  /\ packet_count (App.generator window_after_two_packets) = 2
  /\ byte_count (App.generator window_after_two_packets) = 256
  /\ ttk.text (App.packet_label window_after_two_packets) = "2"
  /\ ttk.text (App.byte_label window_after_two_packets) = "256"
  /\ ttk.text (App.status_label window_after_two_packets) = "Running".
Proof.
  split; [repeat split|].
  destruct (X18_stop_traffic_restores_only_the_buttons (window __init__)) as [_ H].
  destruct (H flaky_windows [steady; steady] eq_refl)
    as (Hstart & Hstop & _ & _ & Hp & Hb & _ & _ & Hpl & Hbl & Hsl).
  split; [exact Hstart|]. split; [exact Hstop|].
  split; [exact Hp|]. split; [exact Hb|].
  split; [exact Hpl|]. split; [exact Hbl|exact Hsl].
Defined.

(** X19: closing the window stops the session first and destroys the window
    last, exactly once and whatever the disposal of the device answers: the
    device, if one is held, is disposed of before [destroy], the callback
    does not raise, and unlike the stop button it leaves the buttons alone. *)
Theorem X19_on_close_stops_before_destroying (a : App.t) :
  ui_outcome (App.on_close a) = Returned tt
  /\ App.generator (ui_window (App.on_close a)) = stopped (App.generator a)
  /\ App.start_btn (ui_window (App.on_close a)) = App.start_btn a
  /\ App.stop_btn (ui_window (App.on_close a)) = App.stop_btn a
  /\ exists before,
       ui_trace (App.on_close a) = before ++ [Destroy]
       /\ occurrences is_destroy before = 0%nat
       /\ occurrences is_core_dispose before
          = (if truthy (device (App.generator a)) then 1 else 0)%nat.
Proof.
  rewrite app_on_close_eq. cbn [ui_outcome ui_window ui_trace fst snd].
  repeat (split; [reflexivity|]).
  eexists. split; [reflexivity|].
  unfold stop_trace.
  destruct (device (App.generator a)) as [d|];
    [destruct (dispose_resources d)|]; split; reflexivity.
Qed.

(** X20: the refresh of the display reads the generator and never writes it:
    it leaves the session and the buttons alone, shows "Running" exactly when
    the flag is set and the two counters in decimal, asks exactly once to be
    called again after 100 whether or not anything runs, and a second refresh
    of an unchanged session changes nothing more. *)
Theorem X20_update_status_only_displays (a : App.t) :
  App.update_status a
  = (Returned tt, shown (App.generator a) a,
     [After 100; Core (Log DEBUG "Status updated")])
  /\ App.generator (shown (App.generator a) a) = App.generator a
  /\ App.start_btn (shown (App.generator a) a) = App.start_btn a
  /\ App.stop_btn (shown (App.generator a) a) = App.stop_btn a
  /\ (ttk.text (App.status_label (shown (App.generator a) a)) = "Running"
      <-> running (App.generator a) = true)
  /\ ttk.text (App.packet_label (shown (App.generator a) a))
     = str_int (packet_count (App.generator a))
  /\ ttk.text (App.byte_label (shown (App.generator a) a))
     = str_int (byte_count (App.generator a))
  /\ ui_window (App.update_status (shown (App.generator a) a))
     = shown (App.generator a) a.
Proof.
  split; [apply app_update_status_eq|].
  repeat (split; [reflexivity|]).
  split; [|split; [reflexivity|split; [reflexivity|]]].
  - unfold shown. cbn. destruct (running (App.generator a)); cbn.
    + split; reflexivity.
    + split; discriminate.
  - rewrite app_update_status_eq. cbn [ui_window fst snd].
    unfold shown. cbn. destruct (running (App.generator a)); reflexivity.
Qed.

(** X21: when the worker comes back by itself, after an error of a transfer,
    the window is not told: at the next refresh the status reads "Ready", and
    the start button is still disabled and the stop button still enabled, as
    the start left them. *)
Theorem X21_dead_worker_leaves_start_disabled
  (w : World) (a : App.t) (ticks : list Tick) :
  let a1 := ui_window (App.start_traffic w a) in
  let g := session_of (generate_traffic ticks (App.generator a1)) in
  let a2 := ui_window (App.update_status (App.set_generator g a1)) in
  outcome_of (find_device w (App.generator a)) = Returned true ->
  outcome_of (generate_traffic ticks (App.generator a1)) = Returned tt ->
  ttk.text (App.status_label a2) = "Ready"
  /\ App.start_btn a2 = {| ttk.state := tk.DISABLED |}
  /\ App.stop_btn a2 = {| ttk.state := tk.NORMAL |}.
Proof.
  intros a1 g a2 Hfound Hback. subst a2.
  rewrite app_update_status_eq. cbn [ui_window fst snd].
  assert (Hrun : running g = false).
  { subst g.
    destruct (find_device_reports w (App.generator a))
      as (r & g1 & tr & E & _ & Hd).
    rewrite E in Hfound. injection Hfound as ->.
    destruct (Hd eq_refl) as [(d & Hdev) _].
    destruct (generate_traffic_flag ticks (App.generator a1))
      as (o & s1 & t1 & Egen & _ & H).
    rewrite Egen in Hback |- *. cbn [outcome_of session_of fst snd] in Hback |- *.
    destruct H as [(-> & _)|[(_ & Hnone & _)|(_ & _ & Hr)]].
    - discriminate.
    - exfalso. subst a1. rewrite (start_traffic_found w a g1 tr E) in Hnone.
      cbn in Hnone. rewrite Hdev in Hnone. discriminate.
    - exact Hr. }
  unfold shown. cbn. rewrite Hrun. cbn.
  destruct (find_device_inv w (App.generator a)) as (r & g1 & tr & E & _).
  rewrite E in Hfound. injection Hfound as ->.
  subst a1. rewrite (start_traffic_found w a g1 tr E). cbn.
  repeat split.
Qed.

Lemma X21_dead_worker_leaves_start_disabled_witness :
  ttk.text (App.status_label
    (ui_window (App.update_status
       (App.set_generator
          (session_of (generate_traffic [steady; unplugged]
             (App.generator (ui_window (App.start_traffic flaky_windows
                                          (window __init__))))))
          (ui_window (App.start_traffic flaky_windows (window __init__)))))))
  = "Ready"
  /\ App.start_btn
       (ui_window (App.update_status
          (App.set_generator
             (session_of (generate_traffic [steady; unplugged]
                (App.generator (ui_window (App.start_traffic flaky_windows
                                             (window __init__))))))
             (ui_window (App.start_traffic flaky_windows (window __init__))))))
     = {| ttk.state := tk.DISABLED |}.
Proof.
  destruct (X21_dead_worker_leaves_start_disabled flaky_windows (window __init__)
              [steady; unplugged]) as (H1 & H2 & _).
  - reflexivity.
  - reflexivity.
  - split; [exact H1|exact H2].
Defined.

Lemma X3_failures_are_shown_once_witness :
  boxes (trace_of (find_device flaky_windows __init__)) = 0%nat
  /\ (exists d, device (session_of (find_device flaky_windows __init__)) = Some d)
  /\ boxes (trace_of (find_device locked_linux __init__)) = 1%nat.
Proof.
  destruct (X3_failures_are_shown_once flaky_windows __init__)
    as (_ & r & Ho & Hb & Hd).
  destruct (X3_failures_are_shown_once locked_linux __init__)
    as (_ & r' & Ho' & Hb' & _).
  injection Ho as <-. injection Ho' as <-.
  split; [exact Hb|]. split; [|exact Hb'].
  apply Hd. reflexivity.
Defined.

Lemma X20_update_status_only_displays_witness :
  ttk.text (App.status_label
              (ui_window (App.update_status (window (started good_lumidigm)))))
  = "Running".
Proof.
  destruct (X20_update_status_only_displays (window (started good_lumidigm)))
    as (E & _ & _ & _ & H & _).
  rewrite E. apply H. reflexivity.
Defined.
